(* ===== verification/_CoqProject ===== *)
-Q . S2P
Prelude.v
StableSort.v
Facility.v
FloorKey.v
Uri.v
Header.v
Favorites.v
Grouping.v
DetailSheet.v
FavoritesScreen.v
SheetActions.v
Projection.v
MapView.v
HomePage.v
Settings.v
DetailPage.v
PageNav.v
LoginPage.v
Menus.v
MapLoader.v
MapTab.v
MarkerSync.v
MapHeader.v
App.v
LiveMap.v
