(* ===== verification/Prelude.v ===== *)
(** * Campus Compass: a verification development of the facility-map front end

    The repository is a React/TypeScript single-page app whose components
    live in src/Campusfacilitiesmapapp-main/Campusfacilitiesmapapp-main/
    src/components/ (below, file names are relative to that directory).
    App.tsx, which owns the facility list and the user, is not among the
    sources: its types and its favourite toggle are modelled from the
    spec and marked so in the map.  The app keeps an in-memory list of
    campus facilities, filters it by category, groups it by building and
    floor to draw one marker per building on a map (the Naver SDK or a
    mock map), opens a bottom sheet on a marker, lets the user toggle
    favourites, and has log-in, favourites, settings and facility-detail
    pages.

    ** How the program's parts interact, and where each is modelled

    Each component is a shallow embedding.  Pure functions become Rocq
    functions, React state becomes a record and each handler a function
    of it, code that may throw returns a [js_result], and browser actions
    are lists of effects.  Where React unmounts a component, a "shell"
    pairs the parent's state with an [option] of the child's state.
    - [Prelude] (this file): the scope [campus_scope] with [a === b]
      (JavaScript's [===] on strings); the hint databases [campus] and
      [campus_rw]; the tactics [case_str] and [campus_simpl]; JavaScript's
      insertion-ordered [Map] ([map_get], [map_has], [map_set]);
      first-occurrence deduplication [uniq_by]; truthiness [truthy]; the
      monad [js_result] ([JsOk] or [JsThrow]) with [foldM_js]; splitting
      strings at a character ([split_on], [char_free], [str_forall]).
    - [StableSort]: [Array.prototype.sort] with the comparator
      [(a, b) => k(a) - k(b)], as an insertion sort [sort_by].
    - [Facility]: the types [Category], [Facility], [FloorGroup] and
      [GroupedFacility].
    - [FloorKey]: [getFloorNumber] (MapView.tsx), with [includes], the
      [/(\d+)/] capture [match_digits] and [parseInt]; [int_to_string] is
      a template literal's [`${n}`].
    - [Uri]: the builtin [encodeURIComponent], with the standard's
      [decodeURIComponent], the URL readers [query_params] and [url_path],
      and the codec record [Codec] whose round-trip law they satisfy.
    - [Header]: Header.tsx, its props with their defaults and the
      navigation of its back and home buttons.
    - [Favorites]: App's [onToggleFavorite] ([toggleFavorite]) and
      FavoritesList.tsx.
    - [Grouping]: [groupFacilitiesByBuilding] (MapView.tsx), which the
      markers, the sheet and the home page all consume.
    - [DetailSheet]: FacilityDetailSheet.tsx, i.e. its [openFloors] state,
      [isOpen], the share texts, [handleToggleFavoriteAll], and both
      layouts as records of the values they render.
    - [FavoritesScreen]: what FavoritesList.tsx renders: its header with
      the home button, the log-in prompt, the cards with the list's own
      [categoryLabels], and the action of each button.
    - [SheetActions]: the sheet's browser actions as effects: the
      directions links ([handleGetDirections]), the [copied] check mark
      with its 2 s timers (Module [Share], a timed state machine),
      [handleDownload], and the bottom buttons of both layouts
      ([bottom_actions], [bottom_press]).
    - [Projection]: the mock map's [latLngToPixel] (MapView.tsx).
    - [MapView]: the category filter, the marker lists of both map modes,
      the search bar and the location button (MapView.tsx, SearchBar.tsx,
      CategoryFilter.tsx).
    - [HomePage]: HomePage.tsx over a [Session] holding App's facility
      list and user.  Its [home_step] calls MapView's marker click, the
      sheet's handlers ([DetailSheet]), App's toggle ([Favorites]) and
      SettingsView's logout.
    - [Settings]: SettingsView.tsx ([settings_step], [settings_view]) and
      the [Shell] that mounts it with the settings tab.
    - [DetailPage]: FacilityDetailPage.tsx, reached from the sheet by
      [navigate('/facility/' + id)].  It covers the lookup by [Number(id)]
      and the building list built with plain objects (prototype chain and
      [Object.keys] order).
    - [PageNav]: the detail page's events ([page_step]), navigation from
      one facility page to another on the mounted component ([route_to]),
      its header ([detail_header]) and its desktop and mobile layouts
      ([page_screen]).
    - [LoginPage]: LoginPage.tsx as a step function returning the effects
      (alerts, App's [onLogin]/[onSignup], navigation).
    - [Menus]: FacilityList.tsx, and the buttons of CategoryFilter.tsx,
      FilterBar.tsx, MainMenu.tsx and WelcomePage.tsx.
    - [MapLoader]: MapView's SDK loading protocol, i.e. the load and init
      effects, the script callbacks and the timers, as a state machine
      [step] with [reachable] states.
    - [MapTab]: the loader across visits to the map tab: HomePage unmounts
      MapView on other tabs while [window.naver] stays global.
    - [MarkerSync]: MapView's marker effect over the SDK's state: every
      old marker detached ([setMap(null)]), one new marker attached per
      group, [markersRef] kept in step.
    - [MapHeader]: MapView's header: its title, its home button, the
      SearchBar input and the CategoryFilter chips, with their actions.
    - [App]: HomePage with every child it mounts: the session, the
      loader, the SearchBar's query and SettingsView's switches.
      [app_step] runs HomePage's events, the loader's, and the clicks on
      the rendered screens of [MapHeader], [FavoritesScreen] and
      [Settings]; [render] mounts and unmounts the children by the tab.
      [setSelectedCategory] is reached only through a chip of the map
      header, since HomePage passes it to MapView alone.
    - [LiveMap]: [App] with the markers of its mounted MapView, the
      marker effect run after every event.

    ** What the theorems show

    - Grouping: the loop computes the declarative grouping
      ([groupFacilitiesByBuilding_spec], a refinement theorem).  It is a
      partition by building and floor, with floors sorted by
      [getFloorNumber] and distinct, and a building is favourite iff one
      of its facilities is.
    - Sorting: [sort_by] is the unique stable key-sorted permutation, so it
      agrees with every conforming engine ([sort_by_unique], the reason
      insertion sort models the engine's algorithm).
    - [getFloorNumber] reads the numeral of "N층" and "지하N층"; labels
      without digits give [0] or the [-999] sentinel.
    - Loader: invariants by induction on [reachable].  The SDK map and the
      mock map are never both in use, and mock mode is final within one
      mount.  The protocol can hang on its loading screen for ever: a race
      between the 100 ms poll and the 5 s timeout, which is a finding.
      Across tab visits the mode is chosen again ([MapTab]), against the
      spec.
    - Favourites: toggling is an involution that flips exactly one flag.
      The sheet's building heart flips every facility of the building, so
      a building with mixed flags stays favourite.
    - Home page: a reachability invariant over the sheet's facility ids.
      The open sheet shows a stale group after a heart, since nothing
      recomputes it.  A row click closes the sheet and navigates to the
      detail page, which finds the facility ([sheet_click_opens_page]).
    - Settings: the switches are reset whenever the settings tab is left;
      logging out turns the account card into the log-in prompt.
    - App: in every reachable state exactly the selected tab's children
      are mounted and the mounted map is safe (an invariant by rule
      induction, composing [MapTab] and [Settings]).  Every tab's home
      button leaves for [/] and does nothing under an open sheet; a
      favourites card opens its facility's page; the search box filters
      nothing and forgets its text on a tab change.  The selected
      category is always ["all"] or a category id, because only a chip
      CategoryFilter renders sets it, and the mounted CategoryFilter
      highlights that chip alone (a type invariant by rule induction).
    - Markers: a run of the marker effect leaves on the map exactly the
      markers of its groups, none from earlier renders ([MarkerSync]);
      through every sequence of HomePage's events, while the SDK map is
      up, the map shows the selected category's buildings and a marker
      click opens its own group ([LiveMap], an invariant by rule
      induction over [App]'s steps).
    - Detail page: it throws exactly when a building or name is a key of
      [Object.prototype]; otherwise it lists the sorted buildings, with
      rows in [Object.entries] order.  On a phone, choosing another
      facility from the list keeps the list tab.
    - Sheet actions: every directions link decodes back to the facility's
      name and coordinates whatever the name holds (a round trip through
      [encodeURIComponent]).  The check mark is always cleared 2 s after
      the current time, but a second copy's mark is cleared early by the
      first copy's timer.  No bottom button of the sheet is dead: the call
      button appears only with a non-empty number and dials it.
    - Error paths: FacilityList throws on a [transport] facility, sign-up
      needs matching passwords and a non-blank name, mode switches clear
      the form, [isOpen] is false at weekends even for 24-hour
      facilities, and a download reports success on an HTTP error.
    - Projection: for every coordinate, x is [(lng - 127.072) * 20000]
      and y is [(36.770 - lat) * 20000], each clamped to [0, 100]; on
      campus no clamp applies and distinct places get distinct
      positions.

    ** Bounds, fuel and parameters

    - [decimal n] runs on fuel [S n], which exceeds the number of digits
      of [n].  [all_ws] (the [trim] test) runs on fuel [length s], which
      [all_ws_fuel_eq] proves enough (more fuel gives the same answer).
    - [parseInt] is exact on [Z].  The code's double is exact below 2^53,
      i.e. for digit runs of at most 15 digits, and floor labels have one
      or two.
    - [Number(id)] is a parameter ([Section Lookup]) with the law that it
      reads back [int_to_string z] as [z].  [decimal_reader] is an
      instance of it used in the witnesses.  The browser's e-mail
      validity check is the parameter [email_ok] of [login_step].
      [Number.prototype.toString] on coordinates is the parameter [num]
      of the directions links; the theorem needs only that it writes
      digits, ['.'], ['-'], ['e'] and ['+'].
    - Time is abstracted to event order in [MapLoader].  [Share] keeps a
      clock in milliseconds and the deadlines of its timers.  [isOpen]
      takes the day and the hour as arguments.

    ** Not modelled

    - The components/ui and figma wrappers are library code and are not
      modelled.
    - Not modelled either:
      - the Naver SDK's drawing: a marker on the map is an attached
        object with its options;
      - binary64 rounding in [latLngToPixel];
      - the toast library and the image component, seen only through the
        effects they are given;
      - App's routes other than [/facility/:id]: a navigation elsewhere is
        a location string, and HomePage's state is kept in [Session]
        rather than discarded when the route leaves it.
    - The sheet's modal overlay, which blocks the page behind it, is
      modelled as the guard [sheet_closed] from its documented behaviour.
*)

From Stdlib Require Import String Ascii ZArith.
From stdpp Require Import base list sets strings.

Declare Scope campus_scope.
Delimit Scope campus_scope with campus.

(** JavaScript's [===] on strings. *)
Notation "a === b" := (String.eqb a b) (at level 70, no associativity) : campus_scope.

Create HintDb campus discriminated.
Create Rewrite HintDb campus_rw.

#[export] Set Warnings "-clear-no-such-hyp".

(** JavaScript truthiness of an optional boolean ([isFavorite?: boolean]):
    [undefined] and [false] are falsy. *)
Definition truthy (b : option bool) : bool :=
  match b with Some true => true | _ => false end.

(** Two [if]s on equivalent decided propositions agree. *)
Lemma if_bool_decide_iff {C} (P Q : Prop) `{Decision P} `{Decision Q} (a b : C) :
  (P ↔ Q) → (if bool_decide P then a else b) = (if bool_decide Q then a else b).
Proof. intros HPQ. by rewrite (bool_decide_ext P Q HPQ). Qed.

Lemma elem_app_cons_absorb {C} (b c : C) (s l : list C) :
  c ∈ s → b ∈ s ++ l ↔ b ∈ s ++ c :: l.
Proof. set_solver. Qed.

Lemma elem_cons_app_swap {C} (b c : C) (s l : list C) :
  b ∈ (c :: s) ++ l ↔ b ∈ s ++ c :: l.
Proof. set_solver. Qed.

(** ** JavaScript [Map]: an association list in insertion order *)

Section JsMap.
Context {K V : Type} `{EqDecision K}.

(** [m.get(k)] *)
Fixpoint map_get (k : K) (m : list (K * V)) : option V :=
  match m with
  | [] => None
  | (k', v) :: m' => if decide (k = k') then Some v else map_get k m'
  end.

(** [m.has(k)] *)
Definition map_has (k : K) (m : list (K * V)) : bool :=
  match map_get k m with Some _ => true | None => false end.

(** [m.set(k, v)]: an existing key keeps its position, a new key goes last. *)
Fixpoint map_set (k : K) (v : V) (m : list (K * V)) : list (K * V) :=
  match m with
  | [] => [(k, v)]
  | (k', v') :: m' =>
      if decide (k = k') then (k', v) :: m' else (k', v') :: map_set k v m'
  end.

Lemma map_get_set_eq k v m : map_get k (map_set k v m) = Some v.
Proof.
  induction m as [|[k' v'] m IH]; simpl; [by rewrite decide_True|].
  destruct (decide (k = k')); simpl; [by rewrite decide_True|].
  by rewrite decide_False.
Qed.

Lemma map_get_set_ne k k' v m :
  k ≠ k' → map_get k' (map_set k v m) = map_get k' m.
Proof.
  intros Hne. induction m as [|[k1 v1] m IH]; simpl.
  - by rewrite decide_False.
  - destruct (decide (k = k1)) as [->|]; simpl;
      destruct (decide (k' = k1)); congruence.
Qed.

Lemma map_get_Some_elem k v m : map_get k m = Some v → k ∈ (fst <$> m).
Proof.
  induction m as [|[k' v'] m IH]; simpl; [done|].
  destruct (decide (k = k')) as [->|]; intros Hg; [left|right; auto].
Qed.

Lemma map_get_Some_pair k v m : map_get k m = Some v → (k, v) ∈ m.
Proof.
  induction m as [|[k' v'] m IH]; simpl; [done|].
  destruct (decide (k = k')) as [->|]; intros Hg; [injection Hg as ->; left|right; auto].
Qed.

Lemma map_get_None_not_elem k m : map_get k m = None ↔ k ∉ (fst <$> m).
Proof.
  induction m as [|[k' v'] m IH]; simpl; [set_solver|].
  destruct (decide (k = k')) as [->|]; [set_solver|]. rewrite IH. set_solver.
Qed.

(** [map_set] on an existing key keeps the key order; on a new key it
    appends the key. *)
Lemma map_set_keys k v m :
  fst <$> map_set k v m =
    if bool_decide (k ∈ (fst <$> m)) then (fst <$> m) else (fst <$> m) ++ [k].
Proof.
  induction m as [|[k' v'] m IH]; csimpl; [done|].
  destruct (decide (k = k')) as [->|]; csimpl.
  - by rewrite bool_decide_true by set_solver.
  - rewrite IH. destruct (bool_decide_reflect (k ∈ m.*1));
      [rewrite bool_decide_true by set_solver|
       rewrite bool_decide_false by set_solver]; done.
Qed.
(** [set] of a new key appends the pair. *)
Lemma map_set_new k v m : k ∉ (fst <$> m) → map_set k v m = m ++ [(k, v)].
Proof.
  induction m as [|[k' v'] m IH]; intros Hk; [done|]. simpl.
  rewrite decide_False by set_solver. f_equal. apply IH. set_solver.
Qed.

(** [set] of the key of the last pair replaces its value. *)
Lemma map_set_last k v v' m :
  k ∉ (fst <$> m) → map_set k v' (m ++ [(k, v)]) = m ++ [(k, v')].
Proof.
  induction m as [|[k1 v1] m IH]; intros Hk; simpl; [by rewrite decide_True|].
  rewrite decide_False by set_solver. f_equal. apply IH. set_solver.
Qed.

Section Keyed.
Context {A : Type} (key : A → K) (val : A → V).

(** A map built from representatives with distinct keys. *)
Definition keyed (reps : list A) : list (K * V) := (λ r, (key r, val r)) <$> reps.

Lemma keyed_keys reps : fst <$> keyed reps = key <$> reps.
Proof. unfold keyed. rewrite <-list_fmap_compose. done. Qed.

Lemma map_get_keyed reps r0 :
  NoDup (key <$> reps) → r0 ∈ reps → map_get (key r0) (keyed reps) = Some (val r0).
Proof.
  induction reps as [|r reps IH]; intros Hnd Hr0; [set_solver|].
  csimpl in *. apply NoDup_cons in Hnd as [Hn Hnd].
  apply elem_of_cons in Hr0 as [->|Hr0]; [by rewrite decide_True|].
  destruct (decide (key r0 = key r)) as [Heq|]; [|by apply IH].
  exfalso. apply Hn. rewrite <-Heq. by apply list_elem_of_fmap_2.
Qed.

Lemma map_set_keyed reps r0 v :
  NoDup (key <$> reps) → r0 ∈ reps →
  map_set (key r0) v (keyed reps) =
    (λ r, (key r, if decide (key r = key r0) then v else val r)) <$> reps.
Proof.
  induction reps as [|r reps IH]; intros Hnd Hr0; [set_solver|].
  csimpl in *. apply NoDup_cons in Hnd as [Hn Hnd].
  destruct (decide (key r0 = key r)) as [Heq|Hne].
  - rewrite decide_True by done. f_equal; try (by rewrite Heq).
    unfold keyed. apply list_fmap_ext. intros i r' Hr'. f_equal.
    rewrite decide_False; [done|]. intros Heq'. apply Hn. rewrite <-Heq, <-Heq'.
    apply list_elem_of_fmap_2. by eapply list_elem_of_lookup_2.
  - rewrite decide_False by congruence. f_equal.
    apply IH; [done|]. apply elem_of_cons in Hr0 as [->|]; [congruence|done].
Qed.
End Keyed.
End JsMap.

(** [fmap] that agrees with another function on the list's elements. *)
Lemma list_fmap_ext_in {A B} (f g : A → B) (l : list A) :
  (∀ x, x ∈ l → f x = g x) → f <$> l = g <$> l.
Proof.
  intros Hfg. apply list_fmap_ext. intros i x Hx. apply Hfg.
  by eapply list_elem_of_lookup_2.
Qed.

Lemma list_fmap_id_in {A} (f : A → A) (l : list A) : (∀ x, x ∈ l → f x = x) → f <$> l = l.
Proof. intros Hf. rewrite <-(list_fmap_id l) at 2. by apply list_fmap_ext_in. Qed.

(** [concat] of pointwise permutations. *)
Lemma concat_fmap_perm {A B} (g1 g2 : A → list B) (l : list A) :
  (∀ x, x ∈ l → g1 x ≡ₚ g2 x) → concat (g1 <$> l) ≡ₚ concat (g2 <$> l).
Proof.
  induction l as [|x l IH]; intros Hg; [done|]. csimpl.
  rewrite (Hg x) by set_solver. f_equiv. apply IH. set_solver.
Qed.

(** Distinct keys identify elements. *)
Lemma NoDup_fmap_eq {A B} (f : A → B) (l : list A) x y :
  NoDup (f <$> l) → x ∈ l → y ∈ l → f x = f y → x = y.
Proof.
  induction l as [|z l IH]; intros Hnd Hx Hy Hf; [set_solver|].
  csimpl in Hnd. apply NoDup_cons in Hnd as [Hn Hnd].
  apply elem_of_cons in Hx as [->|Hx], Hy as [->|Hy]; try done.
  - exfalso. apply Hn. rewrite Hf. by apply list_elem_of_fmap_2.
  - exfalso. apply Hn. rewrite <-Hf. by apply list_elem_of_fmap_2.
  - by apply IH.
Qed.

(** ** First-occurrence deduplication *)

Section UniqBy.
Context {A B : Type} `{EqDecision B} (f : A → B).

Fixpoint uniq_by_aux (seen : list B) (l : list A) : list A :=
  match l with
  | [] => []
  | x :: l' =>
      if bool_decide (f x ∈ seen) then uniq_by_aux seen l'
      else x :: uniq_by_aux (f x :: seen) l'
  end.

(** The elements of [l] whose key [f] has not occurred before them. *)
Definition uniq_by (l : list A) : list A := uniq_by_aux [] l.

Lemma uniq_by_aux_snoc seen l x :
  uniq_by_aux seen (l ++ [x]) =
    uniq_by_aux seen l ++
      (if bool_decide (f x ∈ seen ++ (f <$> l)) then [] else [x]).
Proof.
  revert seen. induction l as [|y l IH]; intros seen; csimpl.
  - rewrite app_nil_r. by case_bool_decide.
  - case_bool_decide as Hy; csimpl; rewrite IH.
    + f_equal. apply if_bool_decide_iff. by apply elem_app_cons_absorb.
    + do 2 f_equal. apply if_bool_decide_iff. apply elem_cons_app_swap.
Qed.

(** The model of the loop "for each x, if its key is new, remember x". *)
Lemma uniq_by_snoc l x :
  uniq_by (l ++ [x]) =
    uniq_by l ++ (if bool_decide (f x ∈ (f <$> l)) then [] else [x]).
Proof. unfold uniq_by. by rewrite uniq_by_aux_snoc. Qed.

Lemma uniq_by_aux_sub seen l y : y ∈ uniq_by_aux seen l → y ∈ l ∧ f y ∉ seen.
Proof.
  revert seen. induction l as [|x l IH]; intros seen; simpl; [set_solver|].
  case_bool_decide; intros Hy.
  - apply IH in Hy. set_solver.
  - apply elem_of_cons in Hy as [->|Hy]; [set_solver|].
    apply IH in Hy. set_solver.
Qed.

Lemma uniq_by_aux_keys_NoDup seen l : NoDup ((f <$> uniq_by_aux seen l)).
Proof.
  revert seen. induction l as [|x l IH]; intros seen; simpl; [constructor|].
  case_bool_decide; [apply IH|]. simpl. constructor; [|apply IH].
  intros Hin. apply list_elem_of_fmap in Hin as (y & Hfy & Hy).
  apply uniq_by_aux_sub in Hy. set_solver.
Qed.

Lemma uniq_by_elem l y : y ∈ uniq_by l → y ∈ l.
Proof. intros Hy. by apply uniq_by_aux_sub in Hy as [? _]. Qed.

(** Keys of [uniq_by l] are distinct. *)
Lemma uniq_by_keys_NoDup l : NoDup ((f <$> uniq_by l)).
Proof. apply uniq_by_aux_keys_NoDup. Qed.

(** Every key of [l] has its first representative in [uniq_by l]. *)
Lemma uniq_by_keys l : (f <$> uniq_by l) ⊆ (f <$> l) ∧ (f <$> l) ⊆ (f <$> uniq_by l).
Proof.
  induction l as [|x l IH] using rev_ind; simpl; [set_solver|].
  rewrite uniq_by_snoc. case_bool_decide; rewrite !map_app; set_solver.
Qed.

Lemma uniq_by_sublist l : uniq_by l `sublist_of` l.
Proof.
  induction l as [|x l IH] using rev_ind; simpl; [done|].
  rewrite uniq_by_snoc. case_bool_decide.
  - rewrite app_nil_r. by apply sublist_inserts_r.
  - by apply sublist_app.
Qed.
End UniqBy.

(** ** Shared list lemmas *)

Lemma filter_snoc {A} (p : A → bool) (l : list A) x :
  List.filter p (l ++ [x]) = List.filter p l ++ (if p x then [x] else []).
Proof.
  induction l as [|y l IH]; simpl; [by destruct (p x)|].
  destruct (p y); simpl; by rewrite IH.
Qed.

(** String append (stdpp makes [String.append] [simpl never]): its
    defining equations, associativity, unit and length. *)
Lemma str_app_nil_l (b : string) : ("" ++ b)%string = b.
Proof. reflexivity. Qed.

Lemma str_app_cons x (a b : string) : (String x a ++ b)%string = String x (a ++ b).
Proof. reflexivity. Qed.

Lemma str_app_assoc (a b c : string) : (a ++ (b ++ c))%string = ((a ++ b) ++ c)%string.
Proof. induction a as [|x a IH]; [done|]. rewrite !str_app_cons. congruence. Qed.

Lemma str_app_nil_r (a : string) : (a ++ "")%string = a.
Proof. induction a as [|x a IH]; [done|]. rewrite !str_app_cons. congruence. Qed.

Lemma str_length_app (a b : string) :
  String.length (a ++ b) = (String.length a + String.length b)%nat.
Proof. induction a as [|x a IH]; [done|]. rewrite !str_app_cons. simpl. congruence. Qed.

Lemma filter_sublist {A} (p : A → bool) (l : list A) : List.filter p l `sublist_of` l.
Proof.
  induction l as [|x l IH]; simpl; [done|].
  destruct (p x); [by apply sublist_skip|by apply sublist_cons].
Qed.

Lemma elem_filter {A} (p : A → bool) (l : list A) x : x ∈ List.filter p l ↔ x ∈ l ∧ p x = true.
Proof. rewrite !list_elem_of_In. apply List.filter_In. Qed.

Lemma filter_all_false {A} (p : A → bool) (l : list A) :
  (∀ x, x ∈ l → p x = false) → List.filter p l = [].
Proof.
  induction l as [|x l IH]; intros Hp; [done|]. simpl.
  rewrite Hp by set_solver. apply IH. set_solver.
Qed.

Lemma filter_nil_elem {A} (p : A → bool) (l : list A) x :
  List.filter p l = [] → x ∈ l → p x = false.
Proof.
  intros Hf Hx. destruct (p x) eqn:E; [|done].
  assert (Hin : x ∈ List.filter p l) by (by apply elem_filter). rewrite Hf in Hin. set_solver.
Qed.

Lemma filter_filter_andb {A} (p q : A → bool) (l : list A) :
  List.filter p (List.filter q l) = List.filter (λ x, q x && p x) l.
Proof.
  induction l as [|x l IH]; [done|]. simpl.
  destruct (q x); simpl; [destruct (p x); simpl|]; by rewrite IH.
Qed.

Lemma filter_all {A} (p : A → bool) (l : list A) : (∀ x, x ∈ l → p x = true) → List.filter p l = l.
Proof.
  induction l as [|x l IH]; intros Hp; [done|]. simpl.
  rewrite Hp by set_solver. f_equal. apply IH. set_solver.
Qed.

Lemma str_eqb_bool_decide (a b : string) : (a === b)%campus = bool_decide (a = b).
Proof. destruct (String.eqb_spec a b); case_bool_decide; congruence. Qed.

Lemma str_eqb_refl' (a : string) : (a === a)%campus = true.
Proof. apply String.eqb_refl. Qed.

(** [Array.prototype.find] on a concatenation. *)
Lemma find_app {A} (p : A → bool) (l1 l2 : list A) :
  List.find p (l1 ++ l2) = match List.find p l1 with Some y => Some y | None => List.find p l2 end.
Proof. induction l1 as [|y l1 IH]; simpl; [done|]. by destruct (p y). Qed.

(** ** Grouping a list by a string key *)

Section GroupByKey.
Context {A : Type} (f : A → string).

(** The elements sharing [r]'s key, in order. *)
Definition same_key (l : list A) (r : A) : list A := List.filter (λ y, (f y === f r)%campus) l.

Lemma concat_same_key_snoc (reps l : list A) x :
  NoDup (f <$> reps) →
  concat (same_key (l ++ [x]) <$> reps) ≡ₚ
    concat (same_key l <$> reps) ++ (if bool_decide (f x ∈ (f <$> reps)) then [x] else []).
Proof.
  induction reps as [|r reps IH]; intros Hnd; [done|]. csimpl in *.
  apply NoDup_cons in Hnd as [Hn Hnd].
  unfold same_key at 1. rewrite filter_snoc. fold (same_key l r). rewrite IH by done.
  destruct (String.eqb_spec (f x) (f r)) as [Heq|Hne].
  - rewrite (bool_decide_false (f x ∈ (f <$> reps))) by (rewrite Heq; done).
    rewrite (bool_decide_true (f x ∈ (f r :: (f <$> reps)))) by (rewrite Heq; set_solver).
    rewrite !app_nil_r, <-!app_assoc. f_equiv. apply Permutation_app_comm.
  - rewrite app_nil_r, app_assoc.
    rewrite (if_bool_decide_iff (f x ∈ (f <$> reps)) (f x ∈ (f r :: (f <$> reps)))); [done|].
    set_solver.
Qed.

(** Splitting a list into the runs of each key, keys in order of first
    occurrence, loses and duplicates nothing. *)
Lemma concat_same_key_perm (l : list A) : concat (same_key l <$> uniq_by f l) ≡ₚ l.
Proof.
  induction l as [|x l IH] using rev_ind; [done|].
  rewrite uniq_by_snoc, fmap_app, concat_app.
  destruct (decide (f x ∈ f <$> l)) as [Hin|Hnin].
  - rewrite bool_decide_true by done. simpl. rewrite app_nil_r.
    rewrite concat_same_key_snoc by apply uniq_by_keys_NoDup.
    rewrite bool_decide_true by (destruct (uniq_by_keys f l); set_solver).
    by rewrite IH.
  - rewrite bool_decide_false by done. simpl. rewrite app_nil_r.
    rewrite concat_same_key_snoc by apply uniq_by_keys_NoDup.
    rewrite bool_decide_false by (destruct (uniq_by_keys f l); set_solver).
    rewrite app_nil_r, IH. unfold same_key. rewrite filter_snoc, str_eqb_refl'.
    assert (Hnil : List.filter (λ y, (f y === f x)%campus) l = []).
    { clear IH. induction l as [|y l IHl]; [done|]. csimpl in Hnin. simpl.
      destruct (String.eqb_spec (f y) (f x)); [set_solver|]. apply IHl. set_solver. }
    by rewrite Hnil.
Qed.

(** The representative kept by [uniq_by] is the first element of its key. *)
Lemma uniq_by_find (l : list A) r :
  r ∈ uniq_by f l → List.find (λ y, (f y === f r)%campus) l = Some r.
Proof.
  induction l as [|x l IH] using rev_ind; [set_solver|].
  rewrite uniq_by_snoc, find_app. case_bool_decide as Hx.
  - rewrite app_nil_r. intros Hr. by rewrite IH.
  - intros Hr. apply elem_of_app in Hr as [Hr|Hr]; [by rewrite IH|].
    apply list_elem_of_singleton in Hr as ->.
    destruct (List.find _ l) as [y|] eqn:Hy.
    + exfalso. apply List.find_some in Hy as [Hy Heq].
      apply String.eqb_eq in Heq. apply Hx. rewrite <-Heq.
      apply list_elem_of_fmap_2. by apply list_elem_of_In.
    + simpl. by rewrite str_eqb_refl'.
Qed.
End GroupByKey.

#[export] Hint Rewrite str_eqb_refl' @filter_snoc str_app_nil_r str_app_nil_l str_app_cons : campus_rw.
#[export] Hint Resolve uniq_by_keys_NoDup uniq_by_sublist : campus.

(** Case on a string comparison [a === b] occurring in the goal. *)
Ltac case_str :=
  match goal with
  | |- context [String.eqb ?a ?b] => destruct (String.eqb_spec a b); subst
  | H : context [String.eqb ?a ?b] |- _ => destruct (String.eqb_spec a b); subst
  end.

(** Simplify with the development's rewrite rules. *)
Ltac campus_simpl := simpl in *; autorewrite with campus_rw in *; simpl in *.

(** ** Code that may throw *)

(** A computation that returns a value or throws a JavaScript exception
    (its message). *)
Inductive js_result (A : Type) : Type :=
| JsOk (a : A)
| JsThrow (err : string).
Arguments JsOk {A} a.
Arguments JsThrow {A} err.

#[export] Instance js_result_ret : MRet js_result := λ A a, JsOk a.
#[export] Instance js_result_bind : MBind js_result :=
  λ A B k m, match m with JsOk a => k a | JsThrow e => JsThrow e end.

Definition is_throw {A} (m : js_result A) : bool :=
  match m with JsThrow _ => true | JsOk _ => false end.

Lemma is_throw_bind_ret {A B} (m : js_result A) (g : A → B) :
  is_throw (a ← m; mret (g a)) = is_throw m.
Proof. by destruct m. Qed.

Lemma existsb_ext {A} (p q : A → bool) (l : list A) :
  (∀ x, p x = q x) → existsb p l = existsb q l.
Proof. intros Hpq. induction l as [|x l IH]; [done|]. simpl. by rewrite Hpq, IH. Qed.

(** A loop whose body may throw, such as [forEach] or [reduce]. *)
Fixpoint foldM_js {A B} (f : A → B → js_result A) (l : list B) (a : A) : js_result A :=
  match l with
  | [] => JsOk a
  | x :: l' => f a x ≫= foldM_js f l'
  end.

Lemma foldM_js_ok {A B} (f : A → B → js_result A) (g : A → B → A) (l : list B) (a : A) :
  (∀ a x, x ∈ l → f a x = JsOk (g a x)) → foldM_js f l a = JsOk (fold_left g l a).
Proof.
  induction l as [|x l IH] in a |- *; intros Hf; [done|]. simpl.
  rewrite Hf by set_solver. apply IH. intros; apply Hf; set_solver.
Qed.

(** A loop throws exactly when the body throws on some element, when
    whether the body throws depends on the element only, for the
    accumulators of an invariant the body keeps. *)
Lemma foldM_js_throw {A B} (I : A → Prop) (f : A → B → js_result A) (p : B → bool) (l : list B) (a : A) :
  (∀ a x, I a → is_throw (f a x) = p x) →
  (∀ a x a', I a → f a x = JsOk a' → I a') →
  I a → is_throw (foldM_js f l a) = existsb p l.
Proof.
  intros Hf HI. induction l as [|x l IH] in a |- *; intros Ha; [done|]. simpl.
  specialize (Hf a x Ha). destruct (f a x) as [a'|e] eqn:E; simpl in *; rewrite <-Hf; [|done].
  apply IH. by eapply HI.
Qed.

(** ** Splitting a string at a separator character *)

(** [s.split(sep)] for a one-character separator: the pieces between the
    separators, always at least one. *)
Fixpoint split_on (sep : ascii) (s : string) : list string :=
  match s with
  | EmptyString => [EmptyString]
  | String c s' =>
      if Ascii.eqb c sep then EmptyString :: split_on sep s'
      else match split_on sep s' with
           | w :: ws => String c w :: ws
           | [] => [String c EmptyString]
           end
  end.

(** [!s.includes(sep)] *)
Fixpoint char_free (sep : ascii) (s : string) : bool :=
  match s with
  | EmptyString => true
  | String c s' => negb (Ascii.eqb c sep) && char_free sep s'
  end.

Lemma char_free_app sep a b : char_free sep (a ++ b) = char_free sep a && char_free sep b.
Proof. induction a as [|c a IH]; [done|]. rewrite ?str_app_cons. simpl. by rewrite IH, andb_assoc. Qed.

Lemma split_on_free sep s : char_free sep s = true → split_on sep s = [s].
Proof.
  induction s as [|c s IH]; [done|]. simpl. intros [Hc Hs]%andb_prop.
  apply negb_true_iff in Hc as ->. by rewrite IH.
Qed.

Lemma split_on_app sep a b :
  char_free sep a = true → split_on sep (a ++ String sep b) = a :: split_on sep b.
Proof.
  induction a as [|c a IH]; simpl; [by rewrite Ascii.eqb_refl|]. intros [Hc Ha]%andb_prop.
  rewrite ?str_app_cons. simpl. apply negb_true_iff in Hc as ->. by rewrite IH.
Qed.

(** A character test that holds of every character of a string. *)
Fixpoint str_forall (p : ascii → bool) (s : string) : bool :=
  match s with
  | EmptyString => true
  | String c s' => p c && str_forall p s'
  end.

Lemma str_forall_app p a b : str_forall p (a ++ b) = str_forall p a && str_forall p b.
Proof. induction a as [|c a IH]; [done|]. rewrite ?str_app_cons. simpl. by rewrite IH, andb_assoc. Qed.

Lemma str_forall_char_free p sep s :
  p sep = false → str_forall p s = true → char_free sep s = true.
Proof.
  intros Hsep. induction s as [|c s IH]; [done|]. simpl. intros [Hc Hs]%andb_prop.
  rewrite IH by done. destruct (Ascii.eqb_spec c sep); subst; [congruence|done].
Qed.
