(* ===== verification/StableSort.v ===== *)
(** * StableSort: [Array.prototype.sort] with a numeric-key comparator

    MapView.tsx sorts each building's floor list with
    [group.floors.sort((a, b) => key(a) - key(b))].  Since ES2019
    [Array.prototype.sort] is stable, and a comparator that subtracts two
    integer keys is consistent, so the result is the unique stable
    permutation of the input that is ordered by key.  We model it by
    insertion sort ([sort_by]) and prove that it is sorted, a permutation,
    stable, and the only list with these three properties
    ([sort_by_unique]): any engine's stable algorithm gives the same array.
*)

From Stdlib Require Import ZArith Sorting.Sorted.
From stdpp Require Import base list sets.
From S2P Require Import Prelude.

Section StableSort.
Context {A : Type} (k : A → Z).

(** Insert [x] after every element whose key is [<=] its own. *)
Fixpoint insert_by (x : A) (l : list A) : list A :=
  match l with
  | [] => [x]
  | y :: l' => if (k x <? k y)%Z then x :: y :: l' else y :: insert_by x l'
  end.

(** [arr.sort((a, b) => k(a) - k(b))], as the array it returns. *)
Definition sort_by (l : list A) : list A :=
  fold_left (λ acc x, insert_by x acc) l [].

(** Ordered by key, the order the comparator asks for. *)
Definition key_sorted : list A → Prop := Sorted (λ a b, (k a <= k b)%Z).

(** The elements with key [z], in order: what stability preserves. *)
Definition with_key (z : Z) (l : list A) : list A :=
  List.filter (λ a, (k a =? z)%Z) l.

Lemma key_sorted_strong l : key_sorted l → StronglySorted (λ a b, (k a <= k b)%Z) l.
Proof. apply Sorted_StronglySorted. intros ???; lia. Qed.

Lemma with_key_nil z l : (∀ y, y ∈ l → k y ≠ z) → with_key z l = [].
Proof.
  unfold with_key. induction l as [|y l IH]; intros Hne; simpl; [done|].
  destruct (Z.eqb_spec (k y) z); [exfalso; apply (Hne y); [left|done]|].
  apply IH. intros y' Hy'. apply Hne. by right.
Qed.

Lemma insert_by_perm x l : insert_by x l ≡ₚ x :: l.
Proof.
  induction l as [|y l IH]; simpl; [done|].
  destruct (k x <? k y)%Z; [done|]. rewrite IH. apply Permutation_swap.
Qed.

Lemma insert_by_sorted x l : key_sorted l → key_sorted (insert_by x l).
Proof.
  unfold key_sorted. induction 1 as [|y l Hs IH Hhd]; simpl; [by repeat constructor|].
  destruct (Z.ltb_spec (k x) (k y)).
  - constructor; [by constructor|]. constructor. lia.
  - constructor; [done|]. destruct l as [|y' l]; simpl in *.
    + constructor. lia.
    + inversion Hhd; subst. destruct (k x <? k y')%Z; constructor; lia.
Qed.

(** Inserting [x] appends it to the elements that share its key. *)
Lemma insert_by_with_key x l z :
  key_sorted l →
  with_key z (insert_by x l) =
    with_key z l ++ (if (k x =? z)%Z then [x] else []).
Proof.
  intros Hs%key_sorted_strong. unfold with_key.
  induction Hs as [|y l Hs IH Hall]; simpl; [done|].
  destruct (Z.ltb_spec (k x) (k y)).
  - rewrite Forall_forall in Hall. simpl.
    destruct (Z.eqb_spec (k x) z) as [<-|]; simpl.
    + pose proof (with_key_nil (k x) (y :: l)) as Hn.
      unfold with_key in Hn. simpl in Hn. rewrite Hn; [done|].
      intros y' [->|Hy']%elem_of_cons; [lia|]. specialize (Hall y' Hy'). lia.
    + by rewrite app_nil_r.
  - simpl. rewrite IH. by destruct (k y =? z)%Z.
Qed.

Lemma fold_insert_props l acc :
  key_sorted acc →
  key_sorted (fold_left (λ acc x, insert_by x acc) l acc) ∧
  fold_left (λ acc x, insert_by x acc) l acc ≡ₚ acc ++ l ∧
  ∀ z, with_key z (fold_left (λ acc x, insert_by x acc) l acc) =
         with_key z acc ++ with_key z l.
Proof.
  revert acc. induction l as [|x l IH]; intros acc Hs; simpl.
  - split_and!; [done|by rewrite app_nil_r|intros z; by rewrite app_nil_r].
  - destruct (IH (insert_by x acc)) as (Hs' & Hp & Hk); [by apply insert_by_sorted|].
    split_and!; [done| |].
    + rewrite Hp, insert_by_perm. apply Permutation_middle.
    + intros z. rewrite Hk, insert_by_with_key by done.
      unfold with_key at 3. simpl. rewrite <-app_assoc. by destruct (k x =? z)%Z.
Qed.

Lemma sort_by_sorted l : key_sorted (sort_by l).
Proof. apply fold_insert_props. constructor. Qed.

Lemma sort_by_perm l : sort_by l ≡ₚ l.
Proof. unfold sort_by. by rewrite (proj1 (proj2 (fold_insert_props l [] (Sorted_nil _)))). Qed.

Lemma sort_by_stable l z : with_key z (sort_by l) = with_key z l.
Proof. apply (proj2 (proj2 (fold_insert_props l [] (Sorted_nil _)))). Qed.

(** Two key-sorted lists with the same elements of every key, in the
    same order, are equal. *)
Lemma sorted_same_keys_eq l1 l2 :
  key_sorted l1 → key_sorted l2 →
  (∀ z, with_key z l1 = with_key z l2) → l1 = l2.
Proof.
  intros H1%key_sorted_strong H2%key_sorted_strong. revert l2 H2.
  induction H1 as [|a l1 H1 IH Hall1]; intros l2 H2 Hk.
  - destruct H2 as [|b l2 _ _]; [done|]. specialize (Hk (k b)).
    unfold with_key in Hk. simpl in Hk. by rewrite Z.eqb_refl in Hk.
  - destruct H2 as [|b l2 H2 Hall2].
    + specialize (Hk (k a)). unfold with_key in Hk. simpl in Hk.
      by rewrite Z.eqb_refl in Hk.
    + rewrite Forall_forall in Hall1. rewrite Forall_forall in Hall2.
      assert (Hmin : ∀ c d l l', (∀ y, y ∈ l → (k c <= k y)%Z) →
                with_key (k d) (c :: l) = with_key (k d) l' → d ∈ l' → (k c <= k d)%Z).
      { intros c d l l' Hc Hw Hd. unfold with_key in Hw.
        assert (Hin : List.In d (List.filter (λ a, (k a =? k d)%Z) l')).
        { apply List.filter_In. split; [by apply list_elem_of_In|apply Z.eqb_refl]. }
        rewrite <-Hw in Hin. apply List.filter_In in Hin as [[<-|Hin] Heq]; [lia|].
        apply Hc. by apply list_elem_of_In. }
      assert (k a = k b) as Hab.
      { apply Z.le_antisymm.
        - apply (Hmin a b l1 (b :: l2)); [done|by rewrite Hk|by left].
        - apply (Hmin b a l2 (a :: l1)); [done|by rewrite Hk|by left]. }
      pose proof (Hk (k a)) as Hka. unfold with_key in Hka. simpl in Hka.
      rewrite <-Hab, Z.eqb_refl in Hka. injection Hka as Heq Hka. subst b.
      f_equal. apply IH; [done|]. intros z. specialize (Hk z).
      unfold with_key in Hk |- *. simpl in Hk.
      destruct (k a =? z)%Z; [by injection Hk|done].
Qed.

(** [Array.prototype.sort] is specified (ES2019) to be stable; with a
    consistent comparator its result is therefore determined: any list
    ordered by key that keeps the input order among equal keys is
    [sort_by]'s result.  This is why insertion sort models the engine's
    algorithm. *)
Lemma sort_by_unique l l' :
  key_sorted l' → (∀ z, with_key z l' = with_key z l) → l' = sort_by l.
Proof.
  intros Hs Hk. apply sorted_same_keys_eq; [done|apply sort_by_sorted|].
  intros z. by rewrite Hk, sort_by_stable.
Qed.
End StableSort.

#[export] Hint Resolve sort_by_sorted insert_by_sorted : campus.
