(* ===== verification/Facility.v ===== *)
(** * Facility: the data model shared by every component

    The types [Facility], [GroupedFacility] and [User] are declared in
    src/App.tsx, which is not part of the staged sources; they are
    reconstructed from their uses in components/*.tsx and from the spec
    (section 3, "Data model").  [FloorGroup] is the element type of
    [GroupedFacility.floors] built in MapView.tsx.

    - [Category] is the closed union of category ids; its constructors are
      the keys of [categoryLabels] (FacilityDetailSheet.tsx lines 36-46).
    - Coordinates are rationals [Q]: the code only copies them, except in
      the mock-map projection (see [Projection]).
    - Optional fields ([contact?], [description?], [image?], [isFavorite?])
      are [option]s.
*)

From Stdlib Require Import String ZArith QArith.
From stdpp Require Import base list strings.
From S2P Require Import Prelude.

Inductive Category :=
| cafe | restaurant | library | atm | convenience | medical | gym | lounge | transport.

#[export] Instance Category_eq_dec : EqDecision Category.
Proof. solve_decision. Defined.

(** The string id of a category, as compared with [selectedCategory]. *)
Definition category_id (c : Category) : string :=
  match c with
  | cafe => "cafe" | restaurant => "restaurant" | library => "library"
  | atm => "atm" | convenience => "convenience" | medical => "medical"
  | gym => "gym" | lounge => "lounge" | transport => "transport"
  end.

Module Facility.
Record t := mk {
  id : Z;
  name : string;
  category : Category;
  building : string;
  floor : string;
  latitude : Q;
  longitude : Q;
  hours : string;
  contact : option string;
  description : option string;
  image : option string;
  isFavorite : option bool
}.
End Facility.

Module FloorGroup.
Record t := mk { floor : string; facilities : list Facility.t }.
End FloorGroup.

Module GroupedFacility.
Record t := mk {
  building : string;
  category : Category;
  latitude : Q;
  longitude : Q;
  floors : list FloorGroup.t;
  isFavorite : bool
}.
End GroupedFacility.

#[export] Instance Q_eq_dec : EqDecision Q.
Proof. solve_decision. Defined.

#[export] Instance Facility_eq_dec : EqDecision Facility.t.
Proof. solve_decision. Defined.

#[export] Instance FloorGroup_eq_dec : EqDecision FloorGroup.t.
Proof. solve_decision. Defined.

#[export] Instance GroupedFacility_eq_dec : EqDecision GroupedFacility.t.
Proof. solve_decision. Defined.

Record User := mkUser { user_name : string; user_email : string }.

Lemma category_id_inj c1 c2 : category_id c1 = category_id c2 → c1 = c2.
Proof. destruct c1, c2; simpl; congruence. Qed.

(** No category is called ["all"], the wildcard of the category filter. *)
Lemma category_id_not_all c : category_id c ≠ "all"%string.
Proof. destruct c; discriminate. Qed.

#[export] Hint Resolve category_id_not_all : campus.
