(* ===== verification/FloorKey.v ===== *)
(** * FloorKey: the floor-number key of a floor label

    Models [getFloorNumber] (MapView.tsx lines 67-74), the key by which a
    building's floors are sorted:
<<
      if (floor.includes('지하')) {
        const match = floor.match(/(\d+)/);
        return match ? -parseInt(match[1]) : -999;
      }
      const match = floor.match(/(\d+)/);
      return match ? parseInt(match[1]) : 0;
>>
    Strings are Rocq [string]s, i.e. UTF-8 byte sequences; JavaScript
    strings are UTF-16.  The model is faithful for these operations:
    substring search for the well-formed text ["지하"] gives the same answer
    in both encodings, and [\d] (no [u] flag) matches only the ASCII digits
    ['0'..'9'], which never occur inside a multi-byte UTF-8 sequence.
    [parseInt] is applied only to the digit run matched by the regex, so
    it is modelled on digit strings, as an exact integer: the code's
    double is exact for values below 2^53, i.e. for runs of at most 15
    digits.
*)

From Stdlib Require Import String Ascii ZArith.
From stdpp Require Import base list.
From S2P Require Import Prelude.

Local Open Scope string_scope.

(** [\d]: an ASCII digit. *)
Definition is_digit (c : ascii) : bool :=
  (48 <=? nat_of_ascii c)%nat && (nat_of_ascii c <=? 57)%nat.

(** [String.prototype.includes]. *)
Fixpoint includes (s sub : string) : bool :=
  String.prefix sub s ||
  match s with
  | EmptyString => false
  | String _ s' => includes s' sub
  end.

(** The greedy [\d+] starting at a digit. *)
Fixpoint take_digits (s : string) : string :=
  match s with
  | String c s' => if is_digit c then String c (take_digits s') else EmptyString
  | EmptyString => EmptyString
  end.

(** [s.match(/(\d+)/)?.[1]]: the leftmost run of digits, taken whole. *)
Fixpoint match_digits (s : string) : option string :=
  match s with
  | EmptyString => None
  | String c s' => if is_digit c then Some (String c (take_digits s')) else match_digits s'
  end.

Definition digit_value (c : ascii) : Z := Z.of_nat (nat_of_ascii c - 48).

Fixpoint parse_digits (acc : Z) (s : string) : Z :=
  match s with
  | EmptyString => acc
  | String c s' => parse_digits (10 * acc + digit_value c) s'
  end.

(** [parseInt(m)] on a string of decimal digits (all that [match[1]] can be). *)
Definition parseInt (s : string) : Z := parse_digits 0 s.

(** [getFloorNumber] *)
Definition getFloorNumber (floor : string) : Z :=
  if includes floor "지하" then
    match match_digits floor with Some m => - parseInt m | None => -999 end
  else
    match match_digits floor with Some m => parseInt m | None => 0 end.

(** ** Decimal printing, to state what the parser reads *)

Definition digit_char (d : nat) : ascii := ascii_of_nat (48 + d).
Arguments digit_char : simpl never.

Fixpoint decimal_aux (fuel n : nat) (acc : string) : string :=
  match fuel with
  | O => acc
  | S f =>
      let acc' := String (digit_char (n mod 10)) acc in
      if (n <? 10)%nat then acc' else decimal_aux f (n / 10) acc'
  end.

(** The decimal numeral of [n] without leading zeros.  The fuel [S n]
    exceeds the number of digits. *)
Definition decimal (n : nat) : string := decimal_aux (S n) n "".

(** A safe integer in a template literal ([`${n}`]): an optional minus
    sign, then the decimal numeral of the magnitude. *)
Definition int_to_string (z : Z) : string :=
  if (z <? 0)%Z then "-" ++ decimal (Z.to_nat (- z)) else decimal (Z.to_nat z).

(** No digit in the string. *)
Fixpoint digit_free (s : string) : bool :=
  match s with
  | EmptyString => true
  | String c s' => negb (is_digit c) && digit_free s'
  end.

(** The string does not start with a digit. *)
Definition no_leading_digit (s : string) : bool :=
  match s with EmptyString => true | String c _ => negb (is_digit c) end.

Fixpoint all_digits (s : string) : bool :=
  match s with
  | EmptyString => true
  | String c s' => is_digit c && all_digits s'
  end.

(** ** Lemmas on the parser *)

Lemma is_digit_digit_char d : (d < 10)%nat → is_digit (digit_char d) = true.
Proof.
  intros Hd. unfold is_digit, digit_char.
  rewrite nat_ascii_embedding by lia. apply andb_true_intro; split; apply Nat.leb_le; lia.
Qed.

Lemma digit_value_char d : (d < 10)%nat → digit_value (digit_char d) = Z.of_nat d.
Proof.
  intros Hd. unfold digit_value, digit_char. rewrite nat_ascii_embedding by lia. f_equal. lia.
Qed.

Lemma parse_digits_app acc s1 s2 :
  parse_digits acc (s1 ++ s2) = parse_digits (parse_digits acc s1) s2.
Proof. revert acc. induction s1 as [|c s1 IH]; intros acc; simpl; auto. Qed.

Lemma all_digits_app s1 s2 : all_digits (s1 ++ s2) = all_digits s1 && all_digits s2.
Proof. induction s1 as [|c s1 IH]; simpl; [done|]. by rewrite IH, andb_assoc. Qed.

Lemma all_digits_cons c s : all_digits (String c s) = is_digit c && all_digits s.
Proof. reflexivity. Qed.

Lemma parse_digits_cons acc c s :
  parse_digits acc (String c s) = parse_digits (10 * acc + digit_value c) s.
Proof. reflexivity. Qed.

(** [decimal_aux] prepends a non-empty digit string [D] whose value,
    read before [acc], is [n].  (The proof avoids [simpl], which diverges
    on [n mod 10].) *)
Lemma decimal_aux_spec fuel n acc :
  (n < fuel)%nat →
  ∃ D, decimal_aux fuel n acc = (D ++ acc)%string ∧ D ≠ ""%string ∧
       all_digits D = true ∧ ∀ a, parse_digits a D = (10 ^ Z.of_nat (String.length D) * a + Z.of_nat n)%Z.
Proof.
  revert n acc. induction fuel as [|f IH]; intros n acc Hn; [lia|].
  unfold decimal_aux; fold decimal_aux.
  assert (Hm : (n mod 10 < 10)%nat) by (apply Nat.mod_upper_bound; lia).
  destruct (Nat.ltb_spec n 10).
  - exists (String (digit_char (n mod 10)) ""). split_and!; [done|done| |].
    + by rewrite all_digits_cons, is_digit_digit_char.
    + intros a. rewrite parse_digits_cons, digit_value_char by done.
      rewrite Nat.mod_small by done. cbn [parse_digits String.length]. lia.
  - destruct (IH (n / 10) (String (digit_char (n mod 10)) acc)) as (D & HD & Hne & Hall & Hval).
    { apply Nat.Div0.div_lt_upper_bound; lia. }
    exists (D ++ String (digit_char (n mod 10)) "")%string. split_and!.
    + rewrite HD. by rewrite <-str_app_assoc.
    + by destruct D.
    + by rewrite all_digits_app, Hall, all_digits_cons, is_digit_digit_char.
    + intros a. rewrite parse_digits_app, Hval, parse_digits_cons, digit_value_char by done.
      rewrite str_length_app. cbn [parse_digits String.length].
      rewrite Nat2Z.inj_add, Z.pow_add_r by lia.
      pose proof (Nat.div_mod_eq n 10). lia.
Qed.

(** Round trip: [parseInt] reads back the decimal numeral of [n]. *)
Lemma parseInt_decimal n : parseInt (decimal n) = Z.of_nat n.
Proof.
  unfold parseInt, decimal.
  destruct (decimal_aux_spec (S n) n "" ltac:(lia)) as (D & -> & _ & _ & Hval).
  rewrite str_app_nil_r, Hval. lia.
Qed.

Lemma decimal_digits n : decimal n ≠ ""%string ∧ all_digits (decimal n) = true.
Proof.
  unfold decimal. destruct (decimal_aux_spec (S n) n "" ltac:(lia)) as (D & -> & Hne & Hall & _).
  by rewrite str_app_nil_r.
Qed.

Lemma take_digits_app ds post :
  all_digits ds = true → no_leading_digit post = true → take_digits (ds ++ post) = ds.
Proof.
  induction ds as [|c ds IH]; intros Hds Hpost.
  - destruct post as [|c post]; [done|]. simpl in *. by destruct (is_digit c).
  - rewrite str_app_cons. simpl in *. apply andb_prop in Hds as [-> Hds]. by rewrite IH.
Qed.

(** What [/(\d+)/] captures in a label [pre ++ ds ++ post]: the digits [ds]
    when [pre] has none and [post] does not continue the run. *)
Lemma match_digits_app pre ds post :
  digit_free pre = true → all_digits ds = true → ds ≠ ""%string →
  no_leading_digit post = true → match_digits (pre ++ ds ++ post) = Some ds.
Proof.
  intros Hpre Hds Hne Hpost. induction pre as [|c pre IH].
  - destruct ds as [|c ds]; [done|]. rewrite str_app_nil_l, str_app_cons. simpl in *.
    apply andb_prop in Hds as [-> Hds]. by rewrite take_digits_app.
  - rewrite str_app_cons. simpl in *. apply andb_prop in Hpre as [Hc Hpre].
    apply negb_true_iff in Hc. rewrite Hc. by apply IH.
Qed.

Lemma match_digits_None s : digit_free s = true → match_digits s = None.
Proof.
  induction s as [|c s IH]; simpl; [done|]. intros [Hc Hs]%andb_prop.
  apply negb_true_iff in Hc. rewrite Hc. by apply IH.
Qed.

Lemma parse_digits_nonneg acc s : (0 <= acc)%Z → (0 <= parse_digits acc s)%Z.
Proof.
  revert acc. induction s as [|c s IH]; intros acc Hacc; simpl; [done|].
  apply IH. unfold digit_value. lia.
Qed.

Lemma includes_app_l pre s sub : includes s sub = true → includes (pre ++ s) sub = true.
Proof.
  induction pre as [|c pre IH]; intros Hs; [done|].
  rewrite str_app_cons. simpl. rewrite IH by done. apply orb_true_r.
Qed.

Lemma includes_prefix s sub : String.prefix sub s = true → includes s sub = true.
Proof. intros H. destruct s; unfold includes; by rewrite H. Qed.

(** ** Properties of [getFloorNumber] *)

(** C5. A label whose first digit run is the numeral [n] has key [-n] when
    it contains "지하" (basement) and [n] otherwise: the text before the
    numeral has no digit and the text after it does not start with one. *)
Theorem getFloorNumber_numeral (pre post : string) (n : nat) :
  digit_free pre = true → no_leading_digit post = true →
  getFloorNumber (pre ++ decimal n ++ post) =
    if includes (pre ++ decimal n ++ post) "지하" then (- Z.of_nat n)%Z else Z.of_nat n.
Proof.
  intros Hpre Hpost. destruct (decimal_digits n) as [Hne Hall].
  unfold getFloorNumber. rewrite match_digits_app by done.
  by rewrite parseInt_decimal.
Qed.

(** C7 witness: "지하2층" is floor -2. *)
Lemma getFloorNumber_numeral_witness :
  digit_free "지하" = true ∧ no_leading_digit "층" = true ∧
  getFloorNumber ("지하" ++ decimal 2 ++ "층") = (-2)%Z.
Proof.
  split_and!; [reflexivity|reflexivity|].
  rewrite (getFloorNumber_numeral "지하" "층" 2); reflexivity.
Defined.

(** C35. A label without digits gets the default key: [-999] if it contains
    "지하", [0] otherwise. *)
Theorem getFloorNumber_no_digits (s : string) :
  digit_free s = true →
  getFloorNumber s = if includes s "지하" then (-999)%Z else 0%Z.
Proof.
  intros Hs. unfold getFloorNumber. rewrite match_digits_None by done.
  by destruct (includes s "지하").
Qed.

Lemma getFloorNumber_no_digits_witness :
  digit_free "지하" = true ∧ getFloorNumber "지하" = (-999)%Z.
Proof. split; [reflexivity|]. rewrite (getFloorNumber_no_digits "지하"); reflexivity. Defined.

(** Labels that mention "지하" have non-positive keys, all others
    non-negative keys. *)
Theorem getFloorNumber_sign (s : string) :
  (includes s "지하" = true → (getFloorNumber s <= 0)%Z) ∧
  (includes s "지하" = false → (0 <= getFloorNumber s)%Z).
Proof.
  unfold getFloorNumber. split; intros ->;
    (destruct (match_digits s); [|lia]);
    pose proof (parse_digits_nonneg 0 s0 ltac:(lia)); unfold parseInt; lia.
Qed.

Lemma getFloorNumber_sign_witness :
  includes "지하1층" "지하" = true ∧ (getFloorNumber "지하1층" <= 0)%Z.
Proof. split; [reflexivity|]. apply (proj1 (getFloorNumber_sign "지하1층")). reflexivity. Defined.

(** Any mention of "지하" makes the key negative, also in a label that
    names a ground floor and merely mentions a basement passage. *)
Example getFloorNumber_mention : getFloorNumber "1층 (지하 연결통로)" = (-1)%Z.
Proof. reflexivity. Qed.

(** An English basement label "B1" is read as floor +1. *)
Example getFloorNumber_B1 : getFloorNumber "B1" = 1%Z.
Proof. reflexivity. Qed.
