(* ===== verification/Uri.v ===== *)
(** * Uri: [encodeURIComponent] and the URLs built with it

    FacilityDetailSheet.tsx builds its directions links with
    [encodeURIComponent(name)] inside template literals.  This file models
    that builtin from ECMAScript's Encode operation (section 19.2.6.5):
    every code unit outside the unreserved set
    [A-Z a-z 0-9 - _ . ! ~ * ' ( )] is converted to UTF-8 and each byte
    written [%XY] with upper-case hexadecimal digits.  Rocq strings are
    UTF-8 byte sequences, so escaping them byte by byte is the same
    operation on every well-formed string (a lone surrogate, on which the
    builtin throws a [URIError], has no UTF-8 encoding).

    [decodeURIComponent] is the standard's inverse.  It is what a server
    reads out of the link, and it is stated here for the round-trip law
    [uri_codec].  [query_params] splits a URL's query string the way
    [URLSearchParams] does for text without [+].
*)

From Stdlib Require Import String Ascii ZArith.
From stdpp Require Import base list strings.
From S2P Require Import Prelude.

Local Open Scope campus_scope.

(** The characters [encodeURIComponent] leaves as they are. *)
Definition is_unreserved (c : ascii) : bool :=
  let n := nat_of_ascii c in
  ((65 <=? n) && (n <=? 90))%nat || ((97 <=? n) && (n <=? 122))%nat ||
  ((48 <=? n) && (n <=? 57))%nat ||
  existsb (λ d, Ascii.eqb c d) ["-"; "_"; "."; "!"; "~"; "*"; "'"; "("; ")"]%char.

(** An upper-case hexadecimal digit. *)
Definition hex_digit (n : nat) : ascii :=
  if (n <? 10)%nat then ascii_of_nat (48 + n) else ascii_of_nat (55 + n).

Definition percent : ascii := "%"%char.

(** [encodeURIComponent(s)] *)
Fixpoint encodeURIComponent (s : string) : string :=
  match s with
  | EmptyString => EmptyString
  | String c s' =>
      if is_unreserved c then String c (encodeURIComponent s')
      else String percent (String (hex_digit (nat_of_ascii c / 16))
             (String (hex_digit (nat_of_ascii c mod 16)) (encodeURIComponent s')))
  end.

(** The value of a hexadecimal digit, either case. *)
Definition hex_value (c : ascii) : option nat :=
  let n := nat_of_ascii c in
  if ((48 <=? n) && (n <=? 57))%nat then Some (n - 48)%nat
  else if ((65 <=? n) && (n <=? 70))%nat then Some (n - 55)%nat
  else if ((97 <=? n) && (n <=? 102))%nat then Some (n - 87)%nat
  else None.

(** [decodeURIComponent(s)]: [None] is the [URIError] of a [%] not
    followed by two hexadecimal digits. *)
Fixpoint decodeURIComponent (s : string) : option string :=
  match s with
  | EmptyString => Some EmptyString
  | String c s' =>
      if Ascii.eqb c percent then
        match s' with
        | String h (String l s'') =>
            a ← hex_value h; b ← hex_value l; r ← decodeURIComponent s'';
            Some (String (ascii_of_nat (16 * a + b)) r)
        | _ => None
        end
      else String c <$> decodeURIComponent s'
  end.

(** A component codec: what an encoder promises to the code that parses
    the URL. *)
Record Codec := mkCodec {
  encode : string → string;
  decode : string → option string;
  decode_encode : ∀ s, decode (encode s) = Some s;
  encode_safe : ∀ s, str_forall (λ c, is_unreserved c || Ascii.eqb c percent) (encode s) = true
}.

(** The query string of a URL: the text after its first [?]. *)
Fixpoint query_of (url : string) : option string :=
  match url with
  | EmptyString => None
  | String c s => if Ascii.eqb c "?" then Some s else query_of s
  end.

(** A [key=value] pair, split at its first [=]. *)
Fixpoint split_pair (s : string) : string * string :=
  match s with
  | EmptyString => (EmptyString, EmptyString)
  | String c s' =>
      if Ascii.eqb c "=" then (EmptyString, s')
      else let (k, v) := split_pair s' in (String c k, v)
  end.

(** The raw (still encoded) parameters of a URL's query string, in order. *)
Definition query_params (url : string) : list (string * string) :=
  match query_of url with
  | Some q => split_pair <$> split_on "&" q
  | None => []
  end.

(** ** Lemmas *)

Lemma hex_value_digit n : (n < 16)%nat → hex_value (hex_digit n) = Some n.
Proof.
  intros Hn. do 16 (destruct n as [|n]; [reflexivity|]). lia.
Qed.

Lemma hex_split (n : nat) : (16 * (n / 16) + n mod 16)%nat = n.
Proof. symmetry. apply Nat.div_mod. lia. Qed.

Lemma unreserved_not_percent c : is_unreserved c = true → Ascii.eqb c percent = false.
Proof. destruct (Ascii.eqb_spec c percent) as [->|]; [done|done]. Qed.

Lemma hex_bounds c : (nat_of_ascii c / 16 < 16)%nat ∧ (nat_of_ascii c mod 16 < 16)%nat.
Proof.
  pose proof (nat_ascii_bounded c). split; [apply Nat.div_lt_upper_bound|apply Nat.mod_upper_bound]; lia.
Qed.

Lemma encode_escape c s :
  is_unreserved c = false →
  encodeURIComponent (String c s) =
    String percent (String (hex_digit (nat_of_ascii c / 16))
      (String (hex_digit (nat_of_ascii c mod 16)) (encodeURIComponent s))).
Proof. intros Hu. cbn [encodeURIComponent]. by rewrite Hu. Qed.

Lemma decode_encode_id s : decodeURIComponent (encodeURIComponent s) = Some s.
Proof.
  induction s as [|c s IH]; [done|]. destruct (is_unreserved c) eqn:Hu.
  - cbn [encodeURIComponent]. rewrite Hu. cbn [decodeURIComponent].
    rewrite unreserved_not_percent, IH by done. done.
  - rewrite encode_escape by done. destruct (hex_bounds c) as [H1 H2].
    cbn [decodeURIComponent]. rewrite Ascii.eqb_refl, !hex_value_digit, IH by done.
    cbn [mbind option_bind fmap option_fmap option_map]. by rewrite hex_split, ascii_nat_embedding.
Qed.

Lemma hex_digit_unreserved n : (n < 16)%nat → is_unreserved (hex_digit n) = true.
Proof. intros Hn. do 16 (destruct n as [|n]; [reflexivity|]). lia. Qed.

Lemma encode_safe_id s :
  str_forall (λ c, is_unreserved c || Ascii.eqb c percent) (encodeURIComponent s) = true.
Proof.
  induction s as [|c s IH]; [done|]. destruct (is_unreserved c) eqn:Hu.
  - cbn [encodeURIComponent]. rewrite Hu. cbn [str_forall]. by rewrite Hu, IH.
  - rewrite encode_escape by done. destruct (hex_bounds c) as [H1 H2].
    cbn [str_forall]. by rewrite !hex_digit_unreserved, IH.
Qed.

(** [encodeURIComponent] and [decodeURIComponent] as a codec. *)
Definition uri_codec : Codec := mkCodec encodeURIComponent decodeURIComponent decode_encode_id encode_safe_id.

(** The text of a URL before its query string. *)
Fixpoint url_path (url : string) : string :=
  match url with
  | EmptyString => EmptyString
  | String c s => if Ascii.eqb c "?" then EmptyString else String c (url_path s)
  end.

Lemma query_of_app p q : char_free "?" p = true → query_of (p ++ String "?" q) = Some q.
Proof.
  induction p as [|c p IH]; simpl; [by rewrite ?Ascii.eqb_refl|]. intros [Hc Hp]%andb_prop.
  rewrite ?str_app_cons. simpl. apply negb_true_iff in Hc as ->. by apply IH.
Qed.

Lemma url_path_app p q : char_free "?" p = true → url_path (p ++ String "?" q) = p.
Proof.
  induction p as [|c p IH]; simpl; [by rewrite ?Ascii.eqb_refl|]. intros [Hc Hp]%andb_prop.
  rewrite ?str_app_cons. simpl. apply negb_true_iff in Hc as ->. by rewrite IH.
Qed.

Lemma split_pair_app k v : char_free "=" k = true → split_pair (k ++ String "=" v) = (k, v).
Proof.
  induction k as [|c k IH]; simpl; [by rewrite ?Ascii.eqb_refl|]. intros [Hc Hk]%andb_prop.
  rewrite ?str_app_cons. simpl. apply negb_true_iff in Hc as ->. by rewrite IH.
Qed.

(** An encoded component holds none of the URL's delimiters, for every
    codec. *)
Lemma codec_char_free (c : Codec) sep s :
  is_unreserved sep = false → Ascii.eqb sep percent = false → char_free sep (encode c s) = true.
Proof.
  intros H1 H2. apply (str_forall_char_free (λ c, is_unreserved c || Ascii.eqb c percent)).
  - by rewrite H1, H2.
  - apply encode_safe.
Qed.

Lemma encode_char_free sep s :
  is_unreserved sep = false → Ascii.eqb sep percent = false →
  char_free sep (encodeURIComponent s) = true.
Proof. apply (codec_char_free uri_codec). Qed.
