(* ===== verification/Header.v ===== *)
(** * Header: the page header of Header.tsx

    [Header] takes four optional props with defaults (line 11): a back
    button, shown when [showBackButton]; a home button, shown when
    [showHomeButton]; a title; and [onBackClick].  The back button calls
    [onBackClick] when it is given and otherwise goes back in the
    browser history ([handleBackClick], lines 14-20).  The home button
    navigates to [/] (line 37).

    A callback prop is modelled by the navigation it performs, which is
    all FacilityDetailPage's callback does.
*)

From Stdlib Require Import String.
From stdpp Require Import base list.
From S2P Require Import Prelude.

Local Open Scope string_scope.

(** A navigation: to a route, or back in the history ([navigate(-1)]). *)
Inductive NavAction := NavTo (route : string) | NavBack.

(** [HeaderProps]: every prop is optional. *)
Record HeaderProps := mkHeaderProps {
  showBackButton : option bool;
  showHomeButton : option bool;
  title : option string;
  onBackClick : option NavAction
}.

(** The defaults of the destructuring (line 11). *)
Definition show_back (p : HeaderProps) : bool := default false (showBackButton p).
Definition show_home (p : HeaderProps) : bool := default false (showHomeButton p).
Definition header_title (p : HeaderProps) : string := default "Campus Compass" (title p).

(** [handleBackClick] *)
Definition handleBackClick (p : HeaderProps) : NavAction :=
  match onBackClick p with
  | Some a => a
  | None => NavBack
  end.

Inductive HeaderButton := BackButton | HomeButton.

(** What the header renders: its buttons in order and its title. *)
Definition header_view (p : HeaderProps) : list HeaderButton * string :=
  (((if show_back p then [BackButton] else []) ++ (if show_home p then [HomeButton] else []))%list,
   header_title p).

(** A click on one of the rendered buttons. *)
Definition header_click (p : HeaderProps) (b : HeaderButton) : NavAction :=
  match b with
  | BackButton => handleBackClick p
  | HomeButton => NavTo "/"
  end.
