(* ===== verification/Favorites.v ===== *)
(** * Favorites: the favourite toggle and the favourites tab

    - [toggleFavorite] is App's [onToggleFavorite(facilityId)], which every
      heart button calls.  App.tsx is not among the staged sources; the
      function is modelled from the spec (section 4.4): the facility with
      that id gets its flag flipped, every other facility is unchanged.
      The flipped flag is [!facility.isFavorite], so an absent flag
      ([undefined]) becomes [true].  The facility is copied
      ([{ ...f, isFavorite }]), as React state updates are written; the
      spec's design notes (section 9) describe the flag as mutated in
      place, which would also change the objects a stored
      [GroupedFacility] holds (see [HomePage.home_sheet_stale]).
    - [favoriteFacilities], [favorites_header] and [favorites_body] are
      FavoritesList.tsx: [facilities.filter(f => f.isFavorite)] (line 28),
      the header's count (line 42) and the three-way body (lines 58-145:
      log-in prompt, empty list, list of favourites).
*)

From Stdlib Require Import String ZArith QArith.
From stdpp Require Import base list sets strings.
From S2P Require Import Prelude Facility FloorKey.

(** [{ ...f, isFavorite: b }] *)
Definition set_favorite (f : Facility.t) (b : bool) : Facility.t :=
  Facility.mk (Facility.id f) (Facility.name f) (Facility.category f) (Facility.building f)
    (Facility.floor f) (Facility.latitude f) (Facility.longitude f) (Facility.hours f)
    (Facility.contact f) (Facility.description f) (Facility.image f) (Some b).

(** [f.id === facilityId ? { ...f, isFavorite: !f.isFavorite } : f] *)
Definition toggle_one (facilityId : Z) (f : Facility.t) : Facility.t :=
  if (Facility.id f =? facilityId)%Z
  then set_favorite f (negb (truthy (Facility.isFavorite f))) else f.

(** App's [onToggleFavorite]: [facilities.map(toggle_one)]. *)
Definition toggleFavorite (facilityId : Z) (facilities : list Facility.t) : list Facility.t :=
  toggle_one facilityId <$> facilities.

(** [facilities.filter((f) => f.isFavorite)] *)
Definition favoriteFacilities (facilities : list Facility.t) : list Facility.t :=
  List.filter (λ f, truthy (Facility.isFavorite f)) facilities.

(** The header's subtitle (line 42). *)
Definition favorites_header (currentUser : option User) (facilities : list Facility.t) : string :=
  match currentUser with
  | Some _ => (decimal (length (favoriteFacilities facilities)) ++ "개 시설")%string
  | None => "로그인이 필요합니다"%string
  end.

(** What the list area shows (lines 58-145). *)
Inductive FavoritesBody :=
| NeedLogin
| EmptyFavorites
| FavoriteItems (items : list Facility.t).

Definition favorites_body (currentUser : option User) (facilities : list Facility.t) : FavoritesBody :=
  match currentUser with
  | None => NeedLogin
  | Some _ =>
      let favs := favoriteFacilities facilities in
      if (length favs =? 0)%nat then EmptyFavorites else FavoriteItems favs
  end.

(** The number of facilities the favourites tab lists. *)
Definition body_count (b : FavoritesBody) : nat :=
  match b with FavoriteItems fs => length fs | _ => 0 end.

(** ** Lemmas *)

Lemma toggle_one_flag i f :
  truthy (Facility.isFavorite (toggle_one i f)) = xorb (Facility.id f =? i)%Z (truthy (Facility.isFavorite f)).
Proof. unfold toggle_one. by destruct (Facility.id f =? i)%Z, (truthy (Facility.isFavorite f)). Qed.

Lemma toggle_one_id i f : Facility.id (toggle_one i f) = Facility.id f.
Proof. unfold toggle_one. by destruct (Facility.id f =? i)%Z. Qed.

Lemma toggle_one_other i f : (Facility.id f =? i)%Z = false → toggle_one i f = f.
Proof. unfold toggle_one. by intros ->. Qed.

Lemma set_favorite_toggle_one i f b : set_favorite (toggle_one i f) b = set_favorite f b.
Proof. unfold toggle_one. by destruct (Facility.id f =? i)%Z. Qed.

Lemma toggle_one_twice i f :
  toggle_one i (toggle_one i f) =
    if (Facility.id f =? i)%Z then set_favorite f (truthy (Facility.isFavorite f)) else f.
Proof.
  unfold toggle_one. destruct (Facility.id f =? i)%Z eqn:E; rewrite ?E; [|done].
  simpl. rewrite E. by destruct (truthy (Facility.isFavorite f)).
Qed.

Lemma length_filter_le {A} (p : A → bool) l : (length (List.filter p l) <= length l)%nat.
Proof. induction l as [|x l IH]; simpl; [lia|]. destruct (p x); simpl; lia. Qed.

(** ** Properties *)

(** C15 (spec section 8). Toggling the same facility twice restores every
    favourite flag, and every other field: the only trace left is that an
    absent flag of that facility is now an explicit [false]. *)
Theorem toggleFavorite_twice (i : Z) (l : list Facility.t) :
  toggleFavorite i (toggleFavorite i l) =
    (λ f, if (Facility.id f =? i)%Z then set_favorite f (truthy (Facility.isFavorite f)) else f) <$> l ∧
  (λ f, truthy (Facility.isFavorite f)) <$> toggleFavorite i (toggleFavorite i l) =
    (λ f, truthy (Facility.isFavorite f)) <$> l.
Proof.
  unfold toggleFavorite. rewrite <-!list_fmap_compose.
  split; apply list_fmap_ext; intros _ f _; unfold compose;
    [apply toggle_one_twice|rewrite toggle_one_flag, toggle_one_id, toggle_one_flag;
      by destruct (Facility.id f =? i)%Z, (truthy (Facility.isFavorite f))].
Qed.

(** A toggle flips exactly the flags of the facilities with that id
    and changes nothing else of any facility. *)
Theorem toggleFavorite_flags (i : Z) (l : list Facility.t) :
  (λ f, (Facility.id f, truthy (Facility.isFavorite f))) <$> toggleFavorite i l =
    (λ f, (Facility.id f, xorb (Facility.id f =? i)%Z (truthy (Facility.isFavorite f)))) <$> l ∧
  (λ f, set_favorite f false) <$> toggleFavorite i l = (λ f, set_favorite f false) <$> l.
Proof.
  unfold toggleFavorite. rewrite <-!list_fmap_compose. split; apply list_fmap_ext; intros _ f _;
    unfold compose; [by rewrite toggle_one_id, toggle_one_flag|apply set_favorite_toggle_one].
Qed.

(** With unique ids, toggling the heart of a listed facility adds it
    to, or removes it from, the favourites tab: the count the header shows
    moves by exactly one, and the tab shows exactly the favourites, in the
    order of the facility list. *)
Theorem toggleFavorite_count (l : list Facility.t) (f : Facility.t) (u : User) :
  NoDup (Facility.id <$> l) → f ∈ l →
  length (favoriteFacilities (toggleFavorite (Facility.id f) l)) =
    (if truthy (Facility.isFavorite f) then length (favoriteFacilities l) - 1
     else S (length (favoriteFacilities l)))%nat ∧
  body_count (favorites_body (Some u) (toggleFavorite (Facility.id f) l)) =
    length (favoriteFacilities (toggleFavorite (Facility.id f) l)).
Proof.
  intros Hnd Hf. split.
  - induction l as [|g l IH]; [set_solver|]. csimpl in Hnd. apply NoDup_cons in Hnd as [Hn Hnd].
    apply elem_of_cons in Hf as [->|Hf].
    + unfold toggleFavorite, favoriteFacilities. csimpl. rewrite (list_fmap_id_in (toggle_one (Facility.id g)) l).
      * simpl. unfold toggle_one at 1. rewrite Z.eqb_refl. simpl.
        destruct (truthy (Facility.isFavorite g)); simpl; lia.
      * intros h Hh. apply toggle_one_other, Z.eqb_neq. intros Heq. apply Hn.
        rewrite <-Heq. by apply list_elem_of_fmap_2.
    + assert (Hne : (Facility.id g =? Facility.id f)%Z = false).
      { apply Z.eqb_neq. intros Heq. apply Hn. rewrite Heq. by apply list_elem_of_fmap_2. }
      specialize (IH Hnd Hf). unfold toggleFavorite, favoriteFacilities in *. csimpl.
      rewrite toggle_one_other by done. simpl.
      pose proof (length_filter_le (λ f0, truthy (Facility.isFavorite f0)) l).
      destruct (truthy (Facility.isFavorite g)); simpl; [|exact IH].
      rewrite IH. destruct (truthy (Facility.isFavorite f)) eqn:Hff; [|lia].
      assert (0 < length (List.filter (λ f0, truthy (Facility.isFavorite f0)) l))%nat; [|lia].
      destruct (List.filter _ l) eqn:E; [|simpl; lia].
      assert (Hin : f ∈ List.filter (λ f0, truthy (Facility.isFavorite f0)) l)
        by (apply elem_filter; split; done). rewrite E in Hin. set_solver.
  - simpl. by destruct (length _ =? 0)%nat eqn:E; [apply Nat.eqb_eq in E|].
Qed.

(** The header's count and the listed items always agree. *)
Lemma favorites_header_count (u : User) (l : list Facility.t) :
  favorites_header (Some u) l = (decimal (body_count (favorites_body (Some u) l)) ++ "개 시설")%string.
Proof. simpl. by destruct (length _ =? 0)%nat eqn:E; [apply Nat.eqb_eq in E as ->|]. Qed.

(** ** Witnesses *)

Definition sample_fav (i : Z) (fav : option bool) : Facility.t :=
  Facility.mk i "" cafe "A" "1층" 0 0 "" None None None fav.

Definition sample_favs : list Facility.t :=
  [sample_fav 1 None; sample_fav 2 (Some true); sample_fav 3 (Some false)].

Lemma toggleFavorite_count_witness :
  NoDup (Facility.id <$> sample_favs) ∧ sample_fav 2 (Some true) ∈ sample_favs ∧
  length (favoriteFacilities (toggleFavorite (Facility.id (sample_fav 2 (Some true))) sample_favs)) = 0%nat.
Proof.
  assert (Hnd : NoDup (Facility.id <$> sample_favs))
    by (apply (bool_decide_eq_true_1 (NoDup _)); vm_compute; reflexivity).
  assert (Hin : sample_fav 2 (Some true) ∈ sample_favs)
    by (apply (bool_decide_eq_true_1 (_ ∈ _)); vm_compute; reflexivity).
  split_and!; [exact Hnd|exact Hin|].
  rewrite (proj1 (toggleFavorite_count _ _ (mkUser "홍길동" "a@b.kr") Hnd Hin)). reflexivity.
Defined.
