(* ===== verification/Grouping.v ===== *)
(** * Grouping: [groupFacilitiesByBuilding] (MapView.tsx lines 23-80)

    The source walks the facility list once, keeping a JS [Map] from
    building name to a [GroupedFacility] that it mutates in place:
    - a building seen for the first time gets a group initialised from
      that facility (category, coordinates, favourite flag);
    - the facility is pushed onto the floor entry of its floor label,
      created (at the end of [floors]) when the label is new;
    - a favourite facility marks its group favourite;
    and at the end sorts every group's floors by [getFloorNumber].

    The model keeps that structure: [forEach_step] is the loop body over
    the [Map] of [Prelude] ([map_has], [map_get], [map_set]),
    [add_to_group] the mutation of the group, [sort_floors] the final sort.
    The mutation in place is sound to model by replacing the map's value:
    each group object is reachable only from the map until the function
    returns.

    [group_spec] is the declarative reading (one group per building in
    order of first occurrence; one floor entry per label in order of first
    occurrence; the facilities of a floor in input order), and
    [groupFacilitiesByBuilding_spec] proves the loop computes it.
*)

From Stdlib Require Import String ZArith QArith.
From stdpp Require Import base list sets strings.
From S2P Require Import Prelude StableSort Facility FloorKey.

Local Open Scope campus_scope.

(** ** The source's loop *)

(** [grouped.set(key, { building, category, latitude, longitude,
    floors: [], isFavorite: facility.isFavorite || false })] *)
Definition new_group (f : Facility.t) : GroupedFacility.t :=
  GroupedFacility.mk (Facility.building f) (Facility.category f)
    (Facility.latitude f) (Facility.longitude f) [] (truthy (Facility.isFavorite f)).

(** [floorInfo.facilities.push(facility)] on the entry that
    [group.floors.find(f => f.floor === facility.floor)] returned. *)
Fixpoint push_at_floor (fl : string) (f : Facility.t) (floors : list FloorGroup.t)
    : list FloorGroup.t :=
  match floors with
  | [] => []
  | g :: gs =>
      if FloorGroup.floor g === fl
      then FloorGroup.mk (FloorGroup.floor g) (FloorGroup.facilities g ++ [f]) :: gs
      else g :: push_at_floor fl f gs
  end.

(** Lines 44-60: find or create the floor entry, push the facility, and
    mark the group favourite if the facility is. *)
Definition add_to_group (g : GroupedFacility.t) (f : Facility.t) : GroupedFacility.t :=
  let floors0 := GroupedFacility.floors g in
  let floors1 :=
    match List.find (λ x, FloorGroup.floor x === Facility.floor f) floors0 with
    | Some _ => floors0
    | None => floors0 ++ [FloorGroup.mk (Facility.floor f) []]
    end in
  GroupedFacility.mk (GroupedFacility.building g) (GroupedFacility.category g)
    (GroupedFacility.latitude g) (GroupedFacility.longitude g)
    (push_at_floor (Facility.floor f) f floors1)
    (if truthy (Facility.isFavorite f) then true else GroupedFacility.isFavorite g).

(** The body of [facilities.forEach(facility => ...)] (lines 26-61). *)
Definition forEach_step (grouped : list (string * GroupedFacility.t)) (f : Facility.t)
    : list (string * GroupedFacility.t) :=
  let key := Facility.building f in
  let grouped1 := if map_has key grouped then grouped else map_set key (new_group f) grouped in
  match map_get key grouped1 with
  | Some group => map_set key (add_to_group group f) grouped1
  | None => grouped1   (* unreachable: [grouped.get(key)!] *)
  end.

(** [group.floors.sort((a, b) => getFloorNumber(a.floor) - getFloorNumber(b.floor))] *)
Definition sort_floors (g : GroupedFacility.t) : GroupedFacility.t :=
  GroupedFacility.mk (GroupedFacility.building g) (GroupedFacility.category g)
    (GroupedFacility.latitude g) (GroupedFacility.longitude g)
    (sort_by (λ fg, getFloorNumber (FloorGroup.floor fg)) (GroupedFacility.floors g))
    (GroupedFacility.isFavorite g).

(** [groupFacilitiesByBuilding] *)
Definition groupFacilitiesByBuilding (facilities : list Facility.t) : list GroupedFacility.t :=
  let grouped := fold_left forEach_step facilities [] in
  sort_floors <$> (snd <$> grouped).

(** ** The declarative reading *)

Definition facilities_in (b : string) (l : list Facility.t) : list Facility.t :=
  List.filter (λ f, Facility.building f === b) l.

Definition on_floor (fl : string) (fs : list Facility.t) : list Facility.t :=
  List.filter (λ f, Facility.floor f === fl) fs.

(** One entry per floor label, in order of first occurrence. *)
Definition floor_groups (fs : list Facility.t) : list FloorGroup.t :=
  (λ r, FloorGroup.mk (Facility.floor r) (on_floor (Facility.floor r) fs))
    <$> uniq_by Facility.floor fs.

(** The group of the building of [r], the first facility of that building. *)
Definition group_spec (l : list Facility.t) (r : Facility.t) : GroupedFacility.t :=
  let fs := facilities_in (Facility.building r) l in
  GroupedFacility.mk (Facility.building r) (Facility.category r)
    (Facility.latitude r) (Facility.longitude r) (floor_groups fs)
    (existsb (λ f, truthy (Facility.isFavorite f)) fs).

(** The content of the [Map] after the loop, declaratively. *)
Definition grouped_spec (l : list Facility.t) : list (string * GroupedFacility.t) :=
  keyed Facility.building (group_spec l) (uniq_by Facility.building l).

(** ** From the loop to the declarative reading *)

Definition push_fg (f : Facility.t) (g : FloorGroup.t) : FloorGroup.t :=
  FloorGroup.mk (FloorGroup.floor g) (FloorGroup.facilities g ++ [f]).

(** With distinct floor labels, pushing onto the first entry of a label
    pushes onto the only one. *)
Lemma push_at_floor_distinct fl f gs :
  NoDup (FloorGroup.floor <$> gs) →
  push_at_floor fl f gs = (λ g, if FloorGroup.floor g === fl then push_fg f g else g) <$> gs.
Proof.
  induction gs as [|g gs IH]; intros Hnd; [done|]. csimpl in Hnd.
  apply NoDup_cons in Hnd as [Hn Hnd]. simpl. case_str.
  - f_equal. symmetry. apply list_fmap_id_in. intros g' Hg'. case_str; [|done].
    exfalso. apply Hn. rewrite <-e. by apply list_elem_of_fmap_2.
  - f_equal. by apply IH.
Qed.

Lemma push_at_floor_absent fl f gs :
  fl ∉ FloorGroup.floor <$> gs → push_at_floor fl f gs = gs.
Proof.
  induction gs as [|g gs IH]; intros Hn; [done|]. csimpl in Hn. simpl.
  case_str; [set_solver|]. f_equal. apply IH. set_solver.
Qed.

Lemma push_at_floor_app fl f gs hs :
  fl ∉ FloorGroup.floor <$> gs → push_at_floor fl f (gs ++ hs) = gs ++ push_at_floor fl f hs.
Proof.
  induction gs as [|g gs IH]; intros Hn; [done|]. csimpl in Hn. simpl.
  case_str; [set_solver|]. f_equal. apply IH. set_solver.
Qed.

Lemma find_floor_None fl gs :
  List.find (λ x, FloorGroup.floor x === fl) gs = None ↔ fl ∉ FloorGroup.floor <$> gs.
Proof.
  induction gs as [|g gs IH]; simpl; [set_solver|]. case_str; [split; [done|set_solver]|].
  rewrite IH. set_solver.
Qed.

Lemma floor_groups_keys fs : FloorGroup.floor <$> floor_groups fs = Facility.floor <$> uniq_by Facility.floor fs.
Proof. unfold floor_groups. rewrite <-list_fmap_compose. done. Qed.

Lemma floor_groups_NoDup fs : NoDup (FloorGroup.floor <$> floor_groups fs).
Proof. rewrite floor_groups_keys. apply uniq_by_keys_NoDup. Qed.

Lemma elem_uniq_keys {A} `{EqDecision B} (f : A → B) l b : b ∈ f <$> uniq_by f l ↔ b ∈ f <$> l.
Proof. destruct (uniq_by_keys f l). set_solver. Qed.

Lemma on_floor_snoc fl fs x :
  on_floor fl (fs ++ [x]) = on_floor fl fs ++ (if Facility.floor x === fl then [x] else []).
Proof. unfold on_floor. by rewrite filter_snoc. Qed.

Lemma on_floor_nil fl fs : fl ∉ Facility.floor <$> fs → on_floor fl fs = [].
Proof.
  induction fs as [|y fs IH]; intros Hn; [done|]. csimpl in Hn. unfold on_floor. simpl.
  case_str; [set_solver|]. apply IH. set_solver.
Qed.

(** Adding [x] to the floor entries of [fs] gives the floor entries of [fs ++ [x]]. *)
Lemma floor_groups_snoc fs x :
  let floors0 := floor_groups fs in
  push_at_floor (Facility.floor x) x
    (match List.find (λ g, FloorGroup.floor g === Facility.floor x) floors0 with
     | Some _ => floors0
     | None => floors0 ++ [FloorGroup.mk (Facility.floor x) []]
     end) = floor_groups (fs ++ [x]).
Proof.
  intros floors0. subst floors0.
  assert (Hr : floor_groups (fs ++ [x]) =
    (λ r, FloorGroup.mk (Facility.floor r) (on_floor (Facility.floor r) (fs ++ [x])))
      <$> uniq_by Facility.floor (fs ++ [x])) by done.
  rewrite Hr, uniq_by_snoc. clear Hr.
  destruct (List.find _ _) as [g|] eqn:Hfind.
  - assert (Hin : Facility.floor x ∈ Facility.floor <$> fs).
    { apply elem_uniq_keys. rewrite <-floor_groups_keys.
      destruct (decide (Facility.floor x ∈ FloorGroup.floor <$> floor_groups fs)) as [|Hn];
        [done|]. apply find_floor_None in Hn. congruence. }
    rewrite bool_decide_true, app_nil_r by done.
    rewrite push_at_floor_distinct by apply floor_groups_NoDup.
    unfold floor_groups. rewrite <-list_fmap_compose. apply list_fmap_ext_in.
    intros r Hr. simpl. rewrite on_floor_snoc. rewrite String.eqb_sym. case_str.
    + done.
    + by rewrite app_nil_r.
  - apply find_floor_None in Hfind. rewrite floor_groups_keys, elem_uniq_keys in Hfind.
    rewrite bool_decide_false by done.
    rewrite push_at_floor_app by (by rewrite floor_groups_keys, elem_uniq_keys).
    rewrite fmap_app. simpl. rewrite str_eqb_refl'. f_equal.
    + unfold floor_groups. apply list_fmap_ext_in. intros r Hr. rewrite on_floor_snoc.
      case_str; [|by rewrite app_nil_r]. exfalso. apply Hfind.
      rewrite e. apply list_elem_of_fmap_2.
      by eapply uniq_by_elem.
    + rewrite on_floor_snoc, str_eqb_refl', on_floor_nil by done. done.
Qed.

Lemma facilities_in_snoc b l x :
  facilities_in b (l ++ [x]) = facilities_in b l ++ (if Facility.building x === b then [x] else []).
Proof. unfold facilities_in. by rewrite filter_snoc. Qed.

Lemma facilities_in_nil b l : b ∉ Facility.building <$> l → facilities_in b l = [].
Proof.
  induction l as [|y l IH]; intros Hn; [done|]. csimpl in Hn. unfold facilities_in. simpl.
  case_str; [set_solver|]. apply IH. set_solver.
Qed.

Lemma existsb_snoc {A} (p : A → bool) l x : existsb p (l ++ [x]) = existsb p l || p x.
Proof. rewrite existsb_app. simpl. by rewrite orb_false_r. Qed.

Lemma if_truthy_or (b c : bool) : (if b then true else c) = c || b.
Proof. by destruct b, c. Qed.

(** Adding a facility of [r]'s building updates [r]'s group as [add_to_group] does. *)
Lemma group_spec_snoc_same l x r :
  Facility.building x = Facility.building r →
  group_spec (l ++ [x]) r = add_to_group (group_spec l r) x.
Proof.
  intros Hb. unfold group_spec, add_to_group. cbn [GroupedFacility.floors
    GroupedFacility.building GroupedFacility.category GroupedFacility.latitude
    GroupedFacility.longitude GroupedFacility.isFavorite].
  rewrite facilities_in_snoc, Hb, str_eqb_refl', <-floor_groups_snoc.
  by rewrite existsb_snoc, if_truthy_or.
Qed.

Lemma group_spec_snoc_other l x r :
  Facility.building x ≠ Facility.building r → group_spec (l ++ [x]) r = group_spec l r.
Proof.
  intros Hb. unfold group_spec. rewrite facilities_in_snoc.
  case_str; [done|]. by rewrite app_nil_r.
Qed.

(** The first facility of a building creates its group. *)
Lemma group_spec_new l x :
  Facility.building x ∉ Facility.building <$> l →
  group_spec (l ++ [x]) x = add_to_group (new_group x) x.
Proof.
  intros Hn. unfold group_spec, add_to_group, new_group.
  rewrite facilities_in_snoc, str_eqb_refl', facilities_in_nil by done.
  unfold floor_groups, on_floor. simpl. rewrite !str_eqb_refl'. simpl.
  by destruct (truthy (Facility.isFavorite x)).
Qed.

(** One iteration of the loop on the declarative map. *)
Lemma forEach_step_spec l x : forEach_step (grouped_spec l) x = grouped_spec (l ++ [x]).
Proof.
  unfold forEach_step, grouped_spec. rewrite uniq_by_snoc.
  pose proof (uniq_by_keys_NoDup Facility.building l) as Hnd.
  pose proof (keyed_keys Facility.building (group_spec l) (uniq_by Facility.building l)) as Hk.
  destruct (decide (Facility.building x ∈ Facility.building <$> l)) as [Hin|Hnin].
  - rewrite bool_decide_true, app_nil_r by done.
    apply elem_uniq_keys, list_elem_of_fmap in Hin as (r0 & Hb0 & Hr0).
    unfold map_has. rewrite Hb0, map_get_keyed by done. cbv beta iota.
    rewrite map_get_keyed by done. cbv beta iota. rewrite map_set_keyed by done.
    apply list_fmap_ext_in. intros r Hr. f_equal. case_decide as Hbr.
    + assert (r = r0) as -> by by eapply NoDup_fmap_eq.
      symmetry. by apply group_spec_snoc_same.
    + symmetry. apply group_spec_snoc_other. congruence.
  - rewrite bool_decide_false by done.
    assert (Hnk : Facility.building x ∉ fst <$> keyed Facility.building (group_spec l)
                                       (uniq_by Facility.building l)).
    { by rewrite Hk, elem_uniq_keys. }
    unfold map_has. rewrite (proj2 (map_get_None_not_elem _ _) Hnk). cbv beta iota.
    rewrite map_get_set_eq. cbv beta iota.
    rewrite (map_set_new _ (new_group x)), map_set_last by done.
    unfold keyed. rewrite fmap_app. f_equal.
    + apply list_fmap_ext_in. intros r Hr. f_equal. symmetry. apply group_spec_snoc_other.
      intros Hb. apply Hnin. rewrite Hb. apply list_elem_of_fmap_2. by eapply uniq_by_elem.
    + simpl. by rewrite group_spec_new.
Qed.

Lemma fold_forEach_spec l : fold_left forEach_step l [] = grouped_spec l.
Proof.
  induction l as [|x l IH] using rev_ind; [done|].
  rewrite fold_left_app. simpl. rewrite IH. apply forEach_step_spec.
Qed.

Lemma groupFacilitiesByBuilding_eq (l : list Facility.t) :
  groupFacilitiesByBuilding l =
    (λ r, sort_floors (group_spec l r)) <$> uniq_by Facility.building l.
Proof.
  unfold groupFacilitiesByBuilding. rewrite fold_forEach_spec.
  unfold grouped_spec, keyed. by rewrite <-!list_fmap_compose.
Qed.

(** C1 (refinement). [groupFacilitiesByBuilding] computes one group per
    building, in the order in which buildings first occur in the input;
    the group of a building is initialised from its first facility, holds
    one floor entry per floor label with that label's facilities in input
    order, is favourite iff one of its facilities is, and its floors are
    sorted by [getFloorNumber]. *)
Theorem groupFacilitiesByBuilding_spec (l : list Facility.t) :
  groupFacilitiesByBuilding l =
    (λ r, sort_floors (group_spec l r)) <$> uniq_by Facility.building l.
Proof. apply groupFacilitiesByBuilding_eq. Qed.

(** ** Properties of the grouping *)

Lemma facilities_in_same_key l r :
  facilities_in (Facility.building r) l = same_key Facility.building l r.
Proof. done. Qed.

Lemma elem_groupFacilitiesByBuilding l g :
  g ∈ groupFacilitiesByBuilding l ↔
    ∃ r, r ∈ uniq_by Facility.building l ∧ g = sort_floors (group_spec l r).
Proof. rewrite groupFacilitiesByBuilding_eq, list_elem_of_fmap. naive_solver. Qed.

Lemma concat_concat_fmap {A B} (h : A → list (list B)) (xs : list A) :
  concat (concat (h <$> xs)) = concat ((λ x, concat (h x)) <$> xs).
Proof. induction xs as [|x xs IH]; [done|]. csimpl. by rewrite concat_app, IH. Qed.

Lemma floor_of_group_perm l r :
  concat (FloorGroup.facilities <$> GroupedFacility.floors (sort_floors (group_spec l r)))
    ≡ₚ facilities_in (Facility.building r) l.
Proof.
  simpl. rewrite sort_by_perm. unfold floor_groups. rewrite <-list_fmap_compose.
  apply concat_same_key_perm.
Qed.

(** C4. Buildings come out once each, in the order of their first
    occurrence in the input. *)
Theorem groupFacilitiesByBuilding_buildings (l : list Facility.t) :
  GroupedFacility.building <$> groupFacilitiesByBuilding l =
    Facility.building <$> uniq_by Facility.building l ∧
  NoDup (GroupedFacility.building <$> groupFacilitiesByBuilding l).
Proof.
  assert (Hb : GroupedFacility.building <$> groupFacilitiesByBuilding l =
               Facility.building <$> uniq_by Facility.building l).
  { rewrite groupFacilitiesByBuilding_eq, <-list_fmap_compose. done. }
  split; [done|]. rewrite Hb. apply uniq_by_keys_NoDup.
Qed.

(** C3. Every facility lands in exactly one floor entry of one group:
    the facilities of all floor entries of all groups are a permutation
    of the input. *)
Theorem groupFacilitiesByBuilding_partition (l : list Facility.t) :
  concat (concat ((λ g, FloorGroup.facilities <$> GroupedFacility.floors g)
                    <$> groupFacilitiesByBuilding l)) ≡ₚ l.
Proof.
  rewrite groupFacilitiesByBuilding_eq, <-list_fmap_compose, concat_concat_fmap.
  rewrite <-(concat_same_key_perm Facility.building l) at 2.
  apply concat_fmap_perm. intros r _. apply floor_of_group_perm.
Qed.

Lemma on_floor_facilities_in l b fl :
  on_floor fl (facilities_in b l) =
    List.filter (λ f, (Facility.building f === b) && (Facility.floor f === fl)) l.
Proof.
  unfold on_floor, facilities_in. induction l as [|y l IH]; [done|]. simpl.
  destruct (Facility.building y === b); simpl; [destruct (Facility.floor y === fl)|];
    simpl; by rewrite IH.
Qed.

Lemma on_floor_self fs r : r ∈ fs → on_floor (Facility.floor r) fs ≠ [].
Proof.
  intros Hr Hnil. assert (Hin : List.In r (on_floor (Facility.floor r) fs)).
  { apply List.filter_In. split; [by apply list_elem_of_In|apply str_eqb_refl']. }
  by rewrite Hnil in Hin.
Qed.

(** C2. The floor entries of every group are sorted by [getFloorNumber],
    have distinct labels, and each holds, in input order, exactly the
    facilities of that building and floor label (never none). *)
Theorem groupFacilitiesByBuilding_floors (l : list Facility.t) (g : GroupedFacility.t) :
  g ∈ groupFacilitiesByBuilding l →
  key_sorted (λ fg, getFloorNumber (FloorGroup.floor fg)) (GroupedFacility.floors g) ∧
  NoDup (FloorGroup.floor <$> GroupedFacility.floors g) ∧
  (∀ fg, fg ∈ GroupedFacility.floors g →
     FloorGroup.facilities fg =
       List.filter (λ f, (Facility.building f === GroupedFacility.building g) &&
                         (Facility.floor f === FloorGroup.floor fg)) l ∧
     FloorGroup.facilities fg ≠ []).
Proof.
  intros (r & Hr & ->)%elem_groupFacilitiesByBuilding. simpl. split_and!.
  - apply sort_by_sorted.
  - rewrite sort_by_perm. apply floor_groups_NoDup.
  - intros fg Hfg. rewrite sort_by_perm in Hfg. unfold floor_groups in Hfg.
    apply list_elem_of_fmap in Hfg as (r' & -> & Hr'). simpl. split.
    + apply on_floor_facilities_in.
    + apply on_floor_self. by eapply uniq_by_elem.
Qed.

(** Each group is the group of the first facility of its building:
    its category and coordinates are that facility's, and it is favourite
    exactly when some facility of the building is. *)
Theorem groupFacilitiesByBuilding_group (l : list Facility.t) (g : GroupedFacility.t) :
  g ∈ groupFacilitiesByBuilding l →
  ∃ r, List.find (λ f, Facility.building f === GroupedFacility.building g) l = Some r ∧
    GroupedFacility.building g = Facility.building r ∧
    GroupedFacility.category g = Facility.category r ∧
    GroupedFacility.latitude g = Facility.latitude r ∧
    GroupedFacility.longitude g = Facility.longitude r ∧
    GroupedFacility.isFavorite g =
      existsb (λ f, truthy (Facility.isFavorite f)) (facilities_in (GroupedFacility.building g) l).
Proof.
  intros (r & Hr & ->)%elem_groupFacilitiesByBuilding. exists r. simpl.
  split_and!; try done. by apply uniq_by_find.
Qed.

(** What a client of the grouping relies on: a group's representative
    is one of the input facilities, and so is everything in its floors. *)
Lemma group_rep_elem l g :
  g ∈ groupFacilitiesByBuilding l →
  ∃ r, r ∈ l ∧ GroupedFacility.building g = Facility.building r ∧
       GroupedFacility.category g = Facility.category r.
Proof.
  intros (r & Hr & ->)%elem_groupFacilitiesByBuilding. exists r.
  split_and!; [by eapply uniq_by_elem|done|done].
Qed.

Lemma group_member_elem l g fg f :
  g ∈ groupFacilitiesByBuilding l → fg ∈ GroupedFacility.floors g →
  f ∈ FloorGroup.facilities fg →
  f ∈ l ∧ Facility.building f = GroupedFacility.building g ∧ Facility.floor f = FloorGroup.floor fg.
Proof.
  intros (r & Hr & ->)%elem_groupFacilitiesByBuilding Hfg Hf. simpl in *.
  rewrite sort_by_perm in Hfg. unfold floor_groups in Hfg.
  apply list_elem_of_fmap in Hfg as (r' & -> & Hr'). simpl in *.
  rewrite on_floor_facilities_in in Hf. apply list_elem_of_In, List.filter_In in Hf as [Hf Hc].
  apply andb_prop in Hc as [Hb Hfl]. apply String.eqb_eq in Hb, Hfl.
  split_and!; [by apply list_elem_of_In|done|done].
Qed.

Lemma group_floors_NoDup l g :
  g ∈ groupFacilitiesByBuilding l → NoDup (FloorGroup.floor <$> GroupedFacility.floors g).
Proof.
  intros (r & Hr & ->)%elem_groupFacilitiesByBuilding. simpl.
  rewrite sort_by_perm. apply floor_groups_NoDup.
Qed.

Lemma group_facilities_perm l g :
  g ∈ groupFacilitiesByBuilding l →
  concat (FloorGroup.facilities <$> GroupedFacility.floors g) ≡ₚ
    facilities_in (GroupedFacility.building g) l.
Proof. intros (r & Hr & ->)%elem_groupFacilitiesByBuilding. apply floor_of_group_perm. Qed.

Lemma group_isFavorite l g :
  g ∈ groupFacilitiesByBuilding l →
  GroupedFacility.isFavorite g =
    existsb (λ f, truthy (Facility.isFavorite f)) (facilities_in (GroupedFacility.building g) l).
Proof. by intros (r & Hr & ->)%elem_groupFacilitiesByBuilding. Qed.

Lemma group_of_building l b :
  b ∈ Facility.building <$> l →
  ∃ g, g ∈ groupFacilitiesByBuilding l ∧ GroupedFacility.building g = b.
Proof.
  intros Hb. apply elem_uniq_keys, list_elem_of_fmap in Hb as (r & -> & Hr).
  exists (sort_floors (group_spec l r)). split; [|done].
  apply elem_groupFacilitiesByBuilding. by exists r.
Qed.

(** ** Sample data and witnesses *)

Definition fac (i : Z) (b fl : string) (c : Category) (fav : option bool) : Facility.t :=
  Facility.mk i "" c b fl 0 0 "" None None None fav.

Definition sample_facilities : list Facility.t :=
  [fac 1 "A" "지하1층" cafe None; fac 2 "A" "2층" library (Some true);
   fac 3 "B" "1층" gym None; fac 4 "A" "1층" cafe (Some false)].

Definition sample_groupA : GroupedFacility.t :=
  Eval vm_compute in sort_floors (group_spec sample_facilities (fac 1 "A" "지하1층" cafe None)).

Lemma sample_groupA_elem : sample_groupA ∈ groupFacilitiesByBuilding sample_facilities.
Proof. apply (bool_decide_eq_true_1 (_ ∈ _)). vm_compute. reflexivity. Qed.

Lemma sample_ids_NoDup : NoDup (Facility.id <$> sample_facilities).
Proof. apply (bool_decide_eq_true_1 (NoDup _)). vm_compute. reflexivity. Qed.

Lemma groupFacilitiesByBuilding_floors_witness :
  sample_groupA ∈ groupFacilitiesByBuilding sample_facilities ∧
  key_sorted (λ fg, getFloorNumber (FloorGroup.floor fg)) (GroupedFacility.floors sample_groupA).
Proof.
  assert (H : sample_groupA ∈ groupFacilitiesByBuilding sample_facilities)
    by (apply (bool_decide_eq_true_1 (_ ∈ _)); vm_compute; reflexivity).
  split; [exact H|]. apply (groupFacilitiesByBuilding_floors _ _ H).
Defined.

Lemma groupFacilitiesByBuilding_group_witness :
  sample_groupA ∈ groupFacilitiesByBuilding sample_facilities ∧
  GroupedFacility.isFavorite sample_groupA =
    existsb (λ f, truthy (Facility.isFavorite f)) (facilities_in "A" sample_facilities).
Proof.
  assert (H : sample_groupA ∈ groupFacilitiesByBuilding sample_facilities)
    by (apply (bool_decide_eq_true_1 (_ ∈ _)); vm_compute; reflexivity).
  split; [exact H|].
  destruct (groupFacilitiesByBuilding_group _ _ H) as (r & _ & _ & _ & _ & _ & Hfav).
  exact Hfav.
Defined.

(** The scenario of the spec: three facilities of building "A" on
    floors "지하1층", "2층", "1층" give one group whose floors are ordered
    "지하1층", "1층", "2층". *)
Example groupFacilitiesByBuilding_scenario :
  (λ g, (GroupedFacility.building g, FloorGroup.floor <$> GroupedFacility.floors g)) <$>
    groupFacilitiesByBuilding
      [fac 1 "A" "지하1층" cafe None; fac 2 "A" "2층" cafe None; fac 3 "A" "1층" cafe None] =
  [("A", ["지하1층"; "1층"; "2층"])]%string.
Proof. vm_compute. reflexivity. Qed.
