(* ===== verification/DetailSheet.v ===== *)
(** * DetailSheet: the bottom sheet of FacilityDetailSheet.tsx

    The sheet renders either a building ([groupedFacility], lines 172-372)
    or a single facility (lines 374-555), and nothing when it has neither
    (line 49).  Modelled here:
    - [categoryLabels] (lines 36-46);
    - the [openFloors] state: its initial value (lines 52-59) and
      [toggleFloor] (lines 61-67);
    - [isOpen] (lines 70-93) on an explicit day of the week and hour, the
      values of [new Date()];
    - the two [handleShare]s' texts (lines 123-140 and 183-189), and
      [handleCall] (lines 142-146);
    - [handleToggleFavoriteAll] (lines 191-195) over App's toggle;
    - what each of the two layouts shows, as a record of the rendered
      values ([grouped_sheet], [single_sheet]).
    The browser actions (directions, the [copied] timer, the download)
    are in [SheetActions].
*)

From Stdlib Require Import String Ascii ZArith QArith.
From stdpp Require Import base list sets strings.
From S2P Require Import Prelude Facility FloorKey Favorites Grouping.

Local Open Scope campus_scope.
Local Open Scope string_scope.

(** [categoryLabels[category]] *)
Definition categoryLabels (c : Category) : string :=
  match c with
  | cafe => "카페" | restaurant => "식당" | library => "도서관" | atm => "ATM"
  | convenience => "편의점" | medical => "의무실" | gym => "체육관"
  | lounge => "휴게실" | transport => "통학버스"
  end.

(** [Array.prototype.includes] on strings. *)
Definition str_includes (l : list string) (x : string) : bool := existsb (λ y, y === x) l.

(** [useState(() => { if (groupedFacility && floors.length > 0)
    setOpenFloors([floors[0].floor]) })]: the first floor starts open. *)
Definition initial_openFloors (groupedFacility : option GroupedFacility.t) : list string :=
  match groupedFacility with
  | Some g =>
      match GroupedFacility.floors g with
      | fg :: _ => [FloorGroup.floor fg]
      | [] => []
      end
  | None => []
  end.

(** [toggleFloor] *)
Definition toggleFloor (floor : string) (prev : list string) : list string :=
  if str_includes prev floor then List.filter (λ f, negb (f === floor)) prev
  else prev ++ [floor].

(** [isOpen()], with [currentDay = now.getDay()] (0 is Sunday) and
    [currentHour = now.getHours()]. *)
Definition isOpen (facility : option Facility.t) (currentDay currentHour : Z) : bool :=
  match facility with
  | None => false
  | Some f =>
      if (currentDay =? 0)%Z || (currentDay =? 6)%Z then false
      else if includes (Facility.hours f) "24시간" then true
      else if includes (Facility.hours f) "평일" then (9 <=? currentHour)%Z && (currentHour <? 18)%Z
      else false
  end.

(** Truthiness of an optional string: [undefined] and [''] are falsy. *)
Definition str_truthy (s : option string) : bool :=
  match s with Some v => negb (v === "") | None => false end.

(** [s || ''] *)
Definition or_empty (s : option string) : string :=
  match s with Some v => v | None => "" end.

Definition newline : string := String (ascii_of_nat 10) "".
Definition backslash : string := String (ascii_of_nat 92) "".

(** A single facility's [handleShare]: [navigator.share(shareData)] when
    the browser has it, otherwise the text copied to the clipboard. *)
Inductive ShareAction :=
| NativeShare (title text : string)
| Clipboard (text : string).

Definition handleShare_single (hasNativeShare : bool) (f : Facility.t) : ShareAction :=
  if hasNativeShare
  then NativeShare (Facility.name f)
         (Facility.building f ++ " " ++ Facility.floor f ++ " - " ++ or_empty (Facility.description f))
  else Clipboard (Facility.name f ++ newline ++ Facility.building f ++ " " ++ Facility.floor f
                    ++ newline ++ Facility.hours f).

(** The building's [handleShare] (line 184): the template literal writes
    [\\n], a backslash followed by [n], not a line break. *)
Definition handleShare_grouped (g : GroupedFacility.t) : ShareAction :=
  Clipboard (GroupedFacility.building g ++ backslash ++ "n"
             ++ categoryLabels (GroupedFacility.category g) ++ backslash ++ "n"
             ++ "층별 시설: " ++ int_to_string (Z.of_nat (length (GroupedFacility.floors g))) ++ "개 층").

(** [handleCall]: the [tel:] URL it navigates to, if any. *)
Definition handleCall (facility : option Facility.t) : option string :=
  match facility with
  | Some f => if str_truthy (Facility.contact f) then Some ("tel:" ++ or_empty (Facility.contact f)) else None
  | None => None
  end.

(** [groupedFacility.floors.flatMap(floor => floor.facilities)] *)
Definition allFacilities (g : GroupedFacility.t) : list Facility.t :=
  concat (FloorGroup.facilities <$> GroupedFacility.floors g).

(** [handleToggleFavoriteAll]: [onToggleFavorite(fac.id)] for every
    facility of the building, each applied to the list the previous one
    produced. *)
Definition handleToggleFavoriteAll (g : GroupedFacility.t) (facilities : list Facility.t)
    : list Facility.t :=
  fold_left (λ l fac, toggleFavorite (Facility.id fac) l) (allFacilities g) facilities.

(** An optional text as the sheet renders it: [{x && (...x...)}] shows
    nothing for a falsy [x]. *)
Definition shown (s : option string) : option string := if str_truthy s then s else None.

(** One facility row of an open floor section (lines 295-349). *)
Record FacilityRow := mkFacilityRow {
  it_name : string;
  it_heart : bool;
  it_hours : string;
  it_contact : option string;
  it_description : option string;
  it_image : option string
}.

Definition facility_row (fac : Facility.t) : FacilityRow :=
  mkFacilityRow (Facility.name fac) (truthy (Facility.isFavorite fac)) (Facility.hours fac)
    (shown (Facility.contact fac)) (shown (Facility.description fac)) (shown (Facility.image fac)).

(** One collapsible floor section (lines 268-353); Radix's
    [CollapsibleContent] renders its rows only while open. *)
Record FloorSection := mkSection {
  sec_floor : string;
  sec_count : string;
  sec_open : bool;
  sec_items : list FacilityRow
}.

Definition floor_section (openFloors : list string) (floorInfo : FloorGroup.t) : FloorSection :=
  let open_ := str_includes openFloors (FloorGroup.floor floorInfo) in
  mkSection (FloorGroup.floor floorInfo)
    (int_to_string (Z.of_nat (length (FloorGroup.facilities floorInfo))) ++ "개 시설")
    open_ (if open_ then facility_row <$> FloorGroup.facilities floorInfo else []).

(** The building layout (lines 197-371). *)
Record GroupedSheet := mkGroupedSheet {
  gs_title : string;
  gs_label : string;
  gs_heart : bool;
  gs_copied : bool;
  gs_badge : string;
  gs_summary : string;
  gs_sections : list FloorSection
}.

Definition grouped_sheet (g : GroupedFacility.t) (openFloors : list string) (copied : bool)
    : GroupedSheet :=
  let nfloors := int_to_string (Z.of_nat (length (GroupedFacility.floors g))) in
  mkGroupedSheet (GroupedFacility.building g) (categoryLabels (GroupedFacility.category g))
    (GroupedFacility.isFavorite g) copied (nfloors ++ "개 층")
    (nfloors ++ "개 층에 걸쳐 " ++ int_to_string (Z.of_nat (length (allFacilities g)))
       ++ "개의 시설이 있습니다")
    (floor_section openFloors <$> GroupedFacility.floors g).

(** The single-facility layout (lines 377-554). *)
Record SingleSheet := mkSingleSheet {
  ss_title : string;
  ss_label : string;
  ss_image : option string;
  ss_download : bool;
  ss_heart : bool;
  ss_copied : bool;
  ss_status : string;
  ss_location : string;
  ss_hours : string;
  ss_contact : option string;
  ss_description : option string;
  ss_call_button : bool
}.

Definition single_sheet (f : Facility.t) (copied operatingStatus : bool) : SingleSheet :=
  mkSingleSheet (Facility.name f) (categoryLabels (Facility.category f))
    (shown (Facility.image f)) (str_truthy (Facility.image f))
    (truthy (Facility.isFavorite f)) copied
    (if operatingStatus then "운영 중" else "운영 종료")
    (Facility.building f ++ " " ++ Facility.floor f) (Facility.hours f)
    (shown (Facility.contact f)) (shown (Facility.description f))
    (str_truthy (Facility.contact f)).

Inductive Sheet :=
| NoSheet
| GroupedView (v : GroupedSheet)
| SingleView (v : SingleSheet).

(** [FacilityDetailSheet]: nothing without a facility or a building
    (line 49), the building layout when there is a building, otherwise the
    facility's layout with [operatingStatus = isOpen()] (line 169). *)
Definition FacilityDetailSheet (facility : option Facility.t) (groupedFacility : option GroupedFacility.t)
    (openFloors : list string) (copied : bool) (currentDay currentHour : Z) : Sheet :=
  match groupedFacility, facility with
  | Some g, _ => GroupedView (grouped_sheet g openFloors copied)
  | None, Some f => SingleView (single_sheet f copied (isOpen (Some f) currentDay currentHour))
  | None, None => NoSheet
  end.

(** [text.split('\n')]: the lines of a text. *)
Notation split_nl := (split_on (ascii_of_nat 10)).
Notation nl_free := (char_free (ascii_of_nat 10)).

(** The facility with its favourite flag flipped. *)
Definition flip (f : Facility.t) : Facility.t :=
  set_favorite f (negb (truthy (Facility.isFavorite f))).

(** ** Lemmas *)

Lemma str_includes_true l x : str_includes l x = true ↔ x ∈ l.
Proof.
  unfold str_includes. rewrite existsb_exists. split.
  - intros (y & Hy%list_elem_of_In & Heq%String.eqb_eq). by subst.
  - intros Hx. exists x. split; [by apply list_elem_of_In|apply String.eqb_refl].
Qed.

Lemma str_includes_false l x : str_includes l x = false ↔ x ∉ l.
Proof. rewrite <-str_includes_true. destruct (str_includes l x); naive_solver. Qed.

Lemma split_nl_app a b : nl_free a = true → split_nl (a ++ newline ++ b) = a :: split_nl b.
Proof. apply split_on_app. Qed.

Lemma all_digits_nl_free s : all_digits s = true → nl_free s = true.
Proof.
  induction s as [|c s IH]; [done|]. rewrite all_digits_cons. intros [Hc Hs]%andb_prop.
  simpl. rewrite IH by done. destruct (Ascii.eqb_spec c (ascii_of_nat 10)) as [->|]; [|done].
  vm_compute in Hc. discriminate.
Qed.

Lemma int_to_string_nat n : int_to_string (Z.of_nat n) = decimal n.
Proof.
  unfold int_to_string. replace (Z.of_nat n <? 0)%Z with false by (symmetry; apply Z.ltb_ge; lia).
  by rewrite Nat2Z.id.
Qed.

Lemma prefix_app s t : String.prefix s (s ++ t) = true.
Proof.
  induction s as [|c s IH]; [by destruct t|]. rewrite str_app_cons. simpl.
  destruct (ascii_dec c c); [exact IH|congruence].
Qed.

Lemma categoryLabels_nl_free c : nl_free (categoryLabels c) = true.
Proof. by destruct c. Qed.

Lemma fold_left_fmap {A B C} (h : A → B → A) (k : C → B) (l : list C) (a : A) :
  fold_left (λ acc x, h acc (k x)) l a = fold_left h (k <$> l) a.
Proof. induction l as [|x l IH] in a |- *; [done|]. apply IH. Qed.

Lemma flip_id f : Facility.id (flip f) = Facility.id f.
Proof. done. Qed.

Lemma flip_building f : Facility.building (flip f) = Facility.building f.
Proof. done. Qed.

Lemma truthy_flip f : truthy (Facility.isFavorite (flip f)) = negb (truthy (Facility.isFavorite f)).
Proof. unfold flip. by destruct (truthy (Facility.isFavorite f)). Qed.

(** Toggling each of distinct ids in turn flips exactly the facilities
    with one of these ids. *)
Lemma fold_toggle ids l :
  NoDup ids →
  fold_left (λ l i, toggleFavorite i l) ids l =
    (λ f, if bool_decide (Facility.id f ∈ ids) then flip f else f) <$> l.
Proof.
  induction ids as [|i ids IH] in l |- *; intros Hnd.
  - symmetry. apply list_fmap_id_in. intros f _. by rewrite bool_decide_false by set_solver.
  - apply NoDup_cons in Hnd as [Hi Hnd]. simpl. rewrite IH by done.
    unfold toggleFavorite. rewrite <-list_fmap_compose. apply list_fmap_ext. intros _ f _.
    unfold compose, toggle_one. destruct (Z.eqb_spec (Facility.id f) i) as [Heq|Hne].
    + rewrite bool_decide_false by (simpl; by rewrite Heq).
      rewrite bool_decide_true by (rewrite Heq; set_solver). done.
    + destruct (decide (Facility.id f ∈ ids)).
      * by rewrite !bool_decide_true by set_solver.
      * rewrite !bool_decide_false by set_solver. done.
Qed.

(** The facilities a building's sheet lists are, among facilities with
    unique ids, exactly those of the building. *)
Lemma allFacilities_ids l g f :
  g ∈ groupFacilitiesByBuilding l → NoDup (Facility.id <$> l) → f ∈ l →
  Facility.id f ∈ Facility.id <$> allFacilities g ↔ Facility.building f = GroupedFacility.building g.
Proof.
  intros Hg Hnd Hf. unfold allFacilities. rewrite (group_facilities_perm _ _ Hg). split.
  - intros (f' & Heq & Hf')%list_elem_of_fmap. apply elem_filter in Hf' as [Hf'l Hb].
    assert (f = f') as -> by (eapply NoDup_fmap_eq; eauto). by apply String.eqb_eq in Hb.
  - intros Hb. apply list_elem_of_fmap_2, elem_filter. split; [done|]. by apply String.eqb_eq.
Qed.

Lemma allFacilities_ids_NoDup l g :
  g ∈ groupFacilitiesByBuilding l → NoDup (Facility.id <$> l) →
  NoDup (Facility.id <$> allFacilities g).
Proof.
  intros Hg Hnd. unfold allFacilities. rewrite (group_facilities_perm _ _ Hg).
  eapply sublist_NoDup; [exact Hnd|]. apply fmap_sublist, filter_sublist.
Qed.

(** [handleToggleFavoriteAll] flips the flag of every facility of the
    building and of nothing else. *)
Lemma toggle_all_eq l g :
  g ∈ groupFacilitiesByBuilding l → NoDup (Facility.id <$> l) →
  handleToggleFavoriteAll g l =
    (λ f, if Facility.building f === GroupedFacility.building g then flip f else f) <$> l.
Proof.
  intros Hg Hnd. unfold handleToggleFavoriteAll.
  transitivity (fold_left (λ l i, toggleFavorite i l) (Facility.id <$> allFacilities g) l);
    [exact (fold_left_fmap (λ l i, toggleFavorite i l) Facility.id _ _)|].
  rewrite fold_toggle by (by eapply allFacilities_ids_NoDup). apply list_fmap_ext_in. intros f Hf.
  pose proof (allFacilities_ids l g f Hg Hnd Hf).
  destruct (String.eqb_spec (Facility.building f) (GroupedFacility.building g)).
  - rewrite bool_decide_true; naive_solver.
  - rewrite bool_decide_false; naive_solver.
Qed.

Lemma facilities_in_flip_building l b :
  facilities_in b ((λ f, if Facility.building f === b then flip f else f) <$> l) =
    flip <$> facilities_in b l.
Proof.
  unfold facilities_in. induction l as [|f l IH]; [done|]. csimpl.
  destruct (Facility.building f === b) eqn:E; simpl; rewrite E; [|done]. csimpl. by f_equal.
Qed.

Lemma existsb_flip fs :
  existsb (λ f, truthy (Facility.isFavorite f)) (flip <$> fs) =
    existsb (λ f, negb (truthy (Facility.isFavorite f))) fs.
Proof.
  induction fs as [|f fs IH]; [done|]. csimpl. rewrite IH.
  by destruct (truthy (Facility.isFavorite f)).
Qed.

(** ** Properties *)

(** With unique facility ids, the building sheet's heart
    ([handleToggleFavoriteAll]) flips the favourite flag of every facility
    of the building and changes no other facility. *)
Theorem handleToggleFavoriteAll_flips (l : list Facility.t) (g : GroupedFacility.t) :
  g ∈ groupFacilitiesByBuilding l → NoDup (Facility.id <$> l) →
  handleToggleFavoriteAll g l =
    (λ f, if Facility.building f === GroupedFacility.building g then flip f else f) <$> l.
Proof. apply toggle_all_eq. Qed.

(** C16. After the building's heart is pressed, the building is still
    drawn, and it is favourite exactly when some facility of it was not
    favourite before: a building with both favourite and other facilities
    stays favourite, so the heart does not clear it. *)
Theorem handleToggleFavoriteAll_group (l : list Facility.t) (g : GroupedFacility.t) :
  g ∈ groupFacilitiesByBuilding l → NoDup (Facility.id <$> l) →
  (∃ g', g' ∈ groupFacilitiesByBuilding (handleToggleFavoriteAll g l) ∧
         GroupedFacility.building g' = GroupedFacility.building g) ∧
  ∀ g', g' ∈ groupFacilitiesByBuilding (handleToggleFavoriteAll g l) →
    GroupedFacility.building g' = GroupedFacility.building g →
    GroupedFacility.isFavorite g' =
      existsb (λ f, negb (truthy (Facility.isFavorite f)))
        (facilities_in (GroupedFacility.building g) l).
Proof.
  intros Hg Hnd. rewrite toggle_all_eq by done. split.
  - apply group_of_building. destruct (group_rep_elem _ _ Hg) as (r & Hr & Hb & _).
    apply list_elem_of_fmap. eexists; split;
      [|apply list_elem_of_fmap; exists r; split; [reflexivity|exact Hr]].
    rewrite Hb. by destruct (_ === _).
  - intros g' Hg' Hb. rewrite (group_isFavorite _ _ Hg'), Hb.
    by rewrite facilities_in_flip_building, existsb_flip.
Qed.

(** C32. [isOpen] says "open" exactly on weekdays (Monday to Friday), for
    a facility whose hours mention 24시간, or whose hours mention 평일
    between 9:00 and 17:59.  In particular a 24-hour facility is shown
    closed all weekend. *)
Theorem isOpen_spec (f : Facility.t) (currentDay currentHour : Z) :
  isOpen (Some f) currentDay currentHour = true ↔
    currentDay ≠ 0%Z ∧ currentDay ≠ 6%Z ∧
    (includes (Facility.hours f) "24시간" = true ∨
     (includes (Facility.hours f) "평일" = true ∧ (9 <= currentHour < 18)%Z)).
Proof.
  simpl. destruct (Z.eqb_spec currentDay 0), (Z.eqb_spec currentDay 6); simpl;
    try (split; [discriminate|lia]).
  destruct (includes _ "24시간"), (includes _ "평일"); simpl;
    rewrite ?andb_true_iff, ?Z.leb_le, ?Z.ltb_lt; intuition (try discriminate; lia).
Qed.

(** C33. The clipboard text of a facility is three lines: its name, its
    building and floor, its hours.  The building's clipboard text is a
    single line: its template writes a backslash and an [n] where a line
    break was meant. *)
Theorem share_texts (f : Facility.t) (g : GroupedFacility.t) :
  nl_free (Facility.name f) = true → nl_free (Facility.building f) = true →
  nl_free (Facility.floor f) = true → nl_free (Facility.hours f) = true →
  nl_free (GroupedFacility.building g) = true →
  (∃ t, handleShare_single false f = Clipboard t ∧
        split_nl t = [Facility.name f; Facility.building f ++ " " ++ Facility.floor f; Facility.hours f]) ∧
  (∃ t, handleShare_grouped g = Clipboard t ∧ split_nl t = [t] ∧
        includes t (backslash ++ "n") = true).
Proof.
  intros Hn Hb Hf Hh Hg. split; eexists; (split; [reflexivity|]).
  - rewrite split_nl_app by done. rewrite !str_app_assoc, <-(str_app_assoc _ newline).
    rewrite split_nl_app by (rewrite !char_free_app, Hb, Hf; done). by rewrite split_on_free.
  - split.
    + apply split_on_free. rewrite !char_free_app, Hg, categoryLabels_nl_free, int_to_string_nat.
      by rewrite (all_digits_nl_free _ (proj2 (decimal_digits _))).
    + apply includes_app_l, includes_prefix. rewrite str_app_assoc. apply prefix_app.
Qed.

(** When a building's sheet opens, it has one section per floor of
    the building in the sorted order, only the first (lowest) floor is
    expanded, and its summary counts every facility of the building. *)
Theorem grouped_sheet_opens (l : list Facility.t) (g : GroupedFacility.t) (currentDay currentHour : Z) :
  g ∈ groupFacilitiesByBuilding l →
  ∃ v, FacilityDetailSheet None (Some g) (initial_openFloors (Some g)) false currentDay currentHour
         = GroupedView v ∧
    gs_summary v = int_to_string (Z.of_nat (length (GroupedFacility.floors g))) ++ "개 층에 걸쳐 "
        ++ int_to_string (Z.of_nat (length (facilities_in (GroupedFacility.building g) l)))
        ++ "개의 시설이 있습니다" ∧
    sec_floor <$> gs_sections v = FloorGroup.floor <$> GroupedFacility.floors g ∧
    sec_open <$> gs_sections v =
      match GroupedFacility.floors g with [] => [] | _ :: rest => true :: ((λ _, false) <$> rest) end.
Proof.
  intros Hg. eexists; split; [reflexivity|]. cbn [gs_summary gs_sections grouped_sheet].
  pose proof (group_floors_NoDup _ _ Hg) as Hnd. split_and!.
  - unfold allFacilities. by rewrite (Permutation_length (group_facilities_perm _ _ Hg)).
  - rewrite <-list_fmap_compose. by apply list_fmap_ext.
  - simpl. destruct (GroupedFacility.floors g) as [|fg rest]; [done|]. csimpl in *.
    apply NoDup_cons in Hnd as [Hn _]. f_equal; [by rewrite String.eqb_refl|].
    rewrite <-list_fmap_compose. apply list_fmap_ext_in. intros x Hx. unfold compose. simpl.
    destruct (String.eqb_spec (FloorGroup.floor fg) (FloorGroup.floor x)) as [Heq|]; [|done].
    exfalso. apply Hn. rewrite Heq. by apply list_elem_of_fmap_2.
Qed.

(** Pressing a floor's header flips whether that floor is expanded
    and leaves every other floor as it was; the list of expanded floors
    never holds a floor twice, and pressing twice on a closed floor
    restores the list. *)
Theorem toggleFloor_spec (floor : string) (prev : list string) :
  NoDup prev →
  (∀ x, x ∈ toggleFloor floor prev ↔ (x ∈ prev ∧ x ≠ floor) ∨ (x = floor ∧ floor ∉ prev)) ∧
  NoDup (toggleFloor floor prev) ∧
  (floor ∉ prev → toggleFloor floor (toggleFloor floor prev) = prev).
Proof.
  intros Hnd. unfold toggleFloor. destruct (str_includes prev floor) eqn:E.
  - apply str_includes_true in E. split_and!.
    + intros x. rewrite elem_filter. destruct (String.eqb_spec x floor); naive_solver.
    + eapply sublist_NoDup; [exact Hnd|apply filter_sublist].
    + done.
  - apply str_includes_false in E. split_and!.
    + intros x. rewrite elem_of_app, list_elem_of_singleton. naive_solver.
    + apply NoDup_app. split_and!; [done|set_solver|apply NoDup_singleton].
    + intros _. assert (Hin : str_includes (prev ++ [floor]) floor = true)
        by (apply str_includes_true; set_solver).
      rewrite Hin, filter_snoc. simpl. rewrite String.eqb_refl. simpl.
      rewrite app_nil_r. apply filter_all. intros x Hx.
      destruct (String.eqb_spec x floor); [subst; done|done].
Qed.

(** The single-facility layout shows "운영 중" exactly when [isOpen]
    holds; its call button is shown exactly when [handleCall] has a number
    to call, together with the contact row; its download button exactly
    when it shows an image. *)
Theorem single_sheet_spec (f : Facility.t) (openFloors : list string) (copied : bool)
    (currentDay currentHour : Z) :
  ∃ v, FacilityDetailSheet (Some f) None openFloors copied currentDay currentHour = SingleView v ∧
    (ss_status v = "운영 중" ↔ isOpen (Some f) currentDay currentHour = true) ∧
    (ss_call_button v = true ↔ ∃ url, handleCall (Some f) = Some url) ∧
    (ss_contact v = None ↔ ss_call_button v = false) ∧
    (ss_download v = true ↔ ss_image v ≠ None).
Proof.
  eexists; split; [reflexivity|]. cbn [single_sheet ss_status ss_call_button ss_contact ss_download ss_image].
  unfold handleCall, shown. split_and!.
  - destruct (isOpen _ _ _); split; (discriminate || done).
  - destruct (str_truthy (Facility.contact f)); split; (done || naive_solver).
  - destruct (str_truthy (Facility.contact f)) eqn:E; [|done]. split; [|discriminate].
    destruct (Facility.contact f); [discriminate|done].
  - destruct (str_truthy (Facility.image f)) eqn:E; [|done]. split; [|done].
    intros _. destruct (Facility.image f); [discriminate|done].
Qed.

(** ** Witnesses on the sample data of [Grouping] *)

Lemma handleToggleFavoriteAll_flips_witness :
  sample_groupA ∈ groupFacilitiesByBuilding sample_facilities ∧
  NoDup (Facility.id <$> sample_facilities) ∧
  handleToggleFavoriteAll sample_groupA sample_facilities =
    (λ f, if Facility.building f === "A" then flip f else f) <$> sample_facilities.
Proof.
  split_and!; [exact sample_groupA_elem|exact sample_ids_NoDup|].
  exact (handleToggleFavoriteAll_flips _ _ sample_groupA_elem sample_ids_NoDup).
Defined.

(** Building "A" has a favourite and two other facilities: after its
    heart is pressed it is still favourite. *)
Lemma handleToggleFavoriteAll_group_witness :
  sample_groupA ∈ groupFacilitiesByBuilding sample_facilities ∧
  NoDup (Facility.id <$> sample_facilities) ∧
  ∀ g', g' ∈ groupFacilitiesByBuilding (handleToggleFavoriteAll sample_groupA sample_facilities) →
    GroupedFacility.building g' = "A" → GroupedFacility.isFavorite g' = true.
Proof.
  split_and!; [exact sample_groupA_elem|exact sample_ids_NoDup|].
  intros g' Hg' Hb.
  rewrite (proj2 (handleToggleFavoriteAll_group _ _ sample_groupA_elem sample_ids_NoDup) g' Hg' Hb).
  reflexivity.
Defined.

Example toggle_all_mixed_stays_favourite :
  GroupedFacility.isFavorite sample_groupA = true ∧
  GroupedFacility.isFavorite
    (sort_floors (group_spec (handleToggleFavoriteAll sample_groupA sample_facilities)
                             (fac 1 "A" "지하1층" cafe None))) = true.
Proof. split; vm_compute; reflexivity. Qed.

Definition sample_24h : Facility.t :=
  Facility.mk 7 "편의점" convenience "학생회관" "1층" 0 0 "24시간 운영" None None None None.

(** A 24-hour shop is shown closed on Saturday noon, open on Wednesday at
    3:00. *)
Example isOpen_24h_weekend :
  isOpen (Some sample_24h) 6 12 = false ∧ isOpen (Some sample_24h) 3 3 = true ∧
  ss_status (single_sheet sample_24h false (isOpen (Some sample_24h) 6 12)) = "운영 종료".
Proof. split_and!; vm_compute; reflexivity. Qed.

Lemma share_texts_witness :
  nl_free (Facility.name sample_24h) = true ∧
  (∃ t, handleShare_single false sample_24h = Clipboard t ∧
        split_nl t = ["편의점"; "학생회관 1층"; "24시간 운영"]).
Proof.
  assert (H : nl_free (Facility.name sample_24h) = true) by reflexivity.
  split; [exact H|].
  destruct (share_texts sample_24h sample_groupA H eq_refl eq_refl eq_refl eq_refl) as [Hs _].
  exact Hs.
Defined.

Lemma grouped_sheet_opens_witness :
  sample_groupA ∈ groupFacilitiesByBuilding sample_facilities ∧
  ∃ v, FacilityDetailSheet None (Some sample_groupA) (initial_openFloors (Some sample_groupA))
         false 1 10 = GroupedView v ∧
    sec_open <$> gs_sections v = [true; false; false].
Proof.
  split; [exact sample_groupA_elem|].
  destruct (grouped_sheet_opens _ _ 1 10 sample_groupA_elem) as (v & Hv & _ & _ & Ho).
  exists v. split; [exact Hv|]. rewrite Ho. reflexivity.
Defined.

Lemma toggleFloor_spec_witness :
  NoDup ["1층"] ∧ toggleFloor "2층" (toggleFloor "2층" ["1층"]) = ["1층"].
Proof.
  assert (H : NoDup ["1층"]) by apply NoDup_singleton.
  split; [exact H|]. apply (toggleFloor_spec "2층" ["1층"] H).
  apply (bool_decide_eq_true_1 (_ ∉ _)). vm_compute. reflexivity.
Defined.
