(* ===== verification/FavoritesScreen.v ===== *)
(** * FavoritesScreen: what FavoritesList.tsx renders and its buttons

    [Favorites] models the list's data ([favoriteFacilities],
    [favorites_header], [favorites_body]).  This file adds the screen
    built from it (lines 30-148):
    - the header (lines 32-55): the title, the subtitle and a home button
      whose click calls [navigate('/')];
    - the body: the log-in prompt with its button ([navigate('/login')],
      lines 58-78), the empty notice (lines 80-94), or one card per
      favourite (lines 96-143), whose click calls [onFacilityClick(facility)];
    - the list's own copy of [categoryLabels] (lines 14-24), which the
      cards show.
    A button is modelled by the action its [onClick] performs.
*)

From Stdlib Require Import String ZArith QArith.
From stdpp Require Import base list sets strings.
From S2P Require Import Prelude Facility Favorites DetailSheet.

Local Open Scope campus_scope.
Local Open Scope string_scope.

(** FavoritesList's [categoryLabels] (lines 14-24). *)
Definition favorites_categoryLabels (c : Category) : string :=
  match c with
  | cafe => "카페" | restaurant => "식당" | library => "도서관" | atm => "ATM"
  | convenience => "편의점" | medical => "의무실" | gym => "체육관" | lounge => "휴게실"
  | transport => "통학버스"
  end.

(** A favourite's card (lines 97-142): the image, or the pin icon when
    [facility.image] is falsy; the name; the category badge; the place
    ([{facility.building} {facility.floor}]); the hours. *)
Record FavoriteCard := mkFavoriteCard {
  fc_image : option string;
  fc_name : string;
  fc_label : string;
  fc_place : string;
  fc_hours : string
}.

Definition favorite_card (f : Facility.t) : FavoriteCard :=
  mkFavoriteCard (shown (Facility.image f)) (Facility.name f)
    (favorites_categoryLabels (Facility.category f))
    (Facility.building f ++ " " ++ Facility.floor f) (Facility.hours f).

(** The buttons of the screen. *)
Inductive FavoritesButton :=
| FavHome                     (* the header's home button *)
| FavLogin                    (* "로그인하기" of the log-in prompt *)
| FavCard (f : Facility.t).   (* a favourite's card *)

#[export] Instance FavoritesButton_eq_dec : EqDecision FavoritesButton.
Proof. solve_decision. Defined.

(** What a click does: a navigation, or App's [onFacilityClick]. *)
Inductive FavoritesAction :=
| FavNavigate (route : string)
| FavOnFacilityClick (f : Facility.t).

Definition favorites_click (b : FavoritesButton) : FavoritesAction :=
  match b with
  | FavHome => FavNavigate "/"
  | FavLogin => FavNavigate "/login"
  | FavCard f => FavOnFacilityClick f
  end.

Inductive FavoritesContent :=
| LoginPrompt
| EmptyPrompt
| Cards (cards : list FavoriteCard).

Record FavoritesView := mkFavoritesView {
  fv_title : string;
  fv_subtitle : string;
  fv_content : FavoritesContent;
  fv_buttons : list FavoritesButton   (* in document order *)
}.

(** [FavoritesList({ facilities, onFacilityClick, currentUser })] *)
Definition favorites_view (currentUser : option User) (facilities : list Facility.t) : FavoritesView :=
  let '(content, buttons) :=
    match favorites_body currentUser facilities with
    | NeedLogin => (LoginPrompt, [FavLogin])
    | EmptyFavorites => (EmptyPrompt, [])
    | FavoriteItems fs => (Cards (favorite_card <$> fs), FavCard <$> fs)
    end in
  mkFavoritesView "즐겨찾기" (favorites_header currentUser facilities) content (FavHome :: buttons).

(** ** Lemmas *)

(** The cards of a signed-in user are those of the favourites, in the
    list's order, and each has its button. *)
Lemma favorites_view_cards (u : User) (l : list Facility.t) :
  favoriteFacilities l ≠ [] →
  fv_content (favorites_view (Some u) l) = Cards (favorite_card <$> favoriteFacilities l) ∧
  fv_buttons (favorites_view (Some u) l) = FavHome :: (FavCard <$> favoriteFacilities l).
Proof.
  intros Hne. unfold favorites_view, favorites_body.
  destruct (length (favoriteFacilities l) =? 0)%nat eqn:E; [|done].
  apply Nat.eqb_eq, nil_length_inv in E. done.
Qed.

(** A card button is rendered only for a favourite of a signed-in user. *)
Lemma favorites_card_button u l f :
  FavCard f ∈ fv_buttons (favorites_view u l) →
  u ≠ None ∧ f ∈ l ∧ truthy (Facility.isFavorite f) = true.
Proof.
  unfold favorites_view, favorites_body. destruct u as [u|]; simpl.
  - destruct (length _ =? 0)%nat; [set_solver|].
    intros [Hc|Hc]%elem_of_cons; [done|].
    apply list_elem_of_fmap in Hc as (f' & [= ->] & Hf). by apply elem_filter in Hf.
  - set_solver.
Qed.
