(* ===== verification/SheetActions.v ===== *)
(** * SheetActions: the browser actions of FacilityDetailSheet.tsx

    The sheet's buttons act on the browser rather than on React state.
    Each handler is modelled as the list of effects it performs, in
    order ([SheetEffect]):
    - [handleGetDirections] (lines 95-121, single facility) and its
      grouped version (lines 174-179) build Naver map links with
      [encodeURIComponent] ([Uri]) and [`${latitude}`].  The number
      printing is the parameter [num].  On a phone, the single version
      sets [window.location.href] to the app link and opens the web link
      after 2 s whatever happened.  On a desktop it opens the web link at
      once.
    - [handleShare] (lines 123-140 and 183-189) with its [copied] flag:
      [setCopied(true)], then [setTimeout(() => setCopied(false), 2000)].
      [Share] is a state machine over the flag, the pending timers and a
      clock in milliseconds.
    - [handleDownload] (lines 148-168): [fetch] then a link click,
      [catch] reporting the error.  The outcome of [fetch] is an input.
*)

From Stdlib Require Import String Ascii ZArith QArith.
From stdpp Require Import base list sets strings.
From S2P Require Import Prelude Facility FloorKey DetailSheet Uri.

Local Open Scope campus_scope.
Local Open Scope string_scope.

Inductive SheetEffect :=
| SetHref (url : string)               (* window.location.href = url *)
| OpenWindow (url : string)            (* window.open(url, '_blank') *)
| OpenAfter (ms : Z) (url : string)    (* setTimeout(() => window.open(url, '_blank'), ms) *)
| CallNativeShare (title text : string)  (* navigator.share(shareData) *)
| WriteClipboard (text : string)       (* navigator.clipboard.writeText(text) *)
| DownloadFile (filename : string)     (* link.download = filename; link.click() *)
| ConsoleError                         (* console.error('Download failed:', error) *)
| Toast (success : bool) (msg : string).  (* toast.success / toast.error *)

(** ASCII lower case, the canonical form [/.../i] compares (non-ASCII
    characters never fold to ASCII ones). *)
Definition ascii_lower (c : ascii) : ascii :=
  let n := nat_of_ascii c in
  if ((65 <=? n) && (n <=? 90))%nat then ascii_of_nat (n + 32) else c.

Fixpoint str_lower (s : string) : string :=
  match s with
  | EmptyString => EmptyString
  | String c s' => String (ascii_lower c) (str_lower s')
  end.

(** [/iPhone|iPad|iPod|Android/i.test(navigator.userAgent)] *)
Definition is_mobile (userAgent : string) : bool :=
  existsb (includes (str_lower userAgent)) ["iphone"; "ipad"; "ipod"; "android"].

Section Directions.

(** [`${x}`] for a coordinate: [Number.prototype.toString]. *)
Variable num : Q → string.

(** [naverMapAppUrl] *)
Definition naverMapAppUrl (latitude longitude : Q) (name : string) : string :=
  "nmap://place?lat=" ++ num latitude ++ "&lng=" ++ num longitude ++ "&name=" ++
  encodeURIComponent name ++ "&appname=com.campuscompass".

(** [naverMapWebUrl] *)
Definition naverMapWebUrl (latitude longitude : Q) (name : string) : string :=
  "https://map.naver.com/v5/search/" ++ encodeURIComponent name ++ "?c=" ++
  num longitude ++ "," ++ num latitude ++ ",16,0,0,0,dh".

(** The single facility's [handleGetDirections]. *)
Definition handleGetDirections (userAgent : string) (facility : option Facility.t) : list SheetEffect :=
  match facility with
  | None => []
  | Some f =>
      let app := naverMapAppUrl (Facility.latitude f) (Facility.longitude f) (Facility.name f) in
      let web := naverMapWebUrl (Facility.latitude f) (Facility.longitude f) (Facility.name f) in
      (if is_mobile userAgent then [SetHref app; OpenAfter 2000 web] else [OpenWindow web]) ++
      [Toast true "네이버 지도로 이동합니다"]
  end.

(** The building's [handleGetDirections]. *)
Definition handleGetDirections_grouped (g : GroupedFacility.t) : list SheetEffect :=
  [OpenWindow (naverMapWebUrl (GroupedFacility.latitude g) (GroupedFacility.longitude g)
                 (GroupedFacility.building g));
   Toast true "네이버 지도로 이동합니다"].

End Directions.

Module Share.

(** The [copied] state, the deadlines of the pending [setTimeout]s in
    the order they were set, and the current time. *)
Record State := mk { copied : bool; timers : list Z; clock : Z }.

Definition init : State := mk false [] 0.

Inductive Event :=
| Click (a : ShareAction)   (* a share button, with what its handler computed *)
| Advance (now : Z).        (* time passes; due timers fire in order *)

Definition copied_msg : string := "정보가 클립보드에 복사되었습니다".

Definition share_step (st : State) (e : Event) : State * list SheetEffect :=
  match e with
  | Click (NativeShare title text) => (st, [CallNativeShare title text])
  | Click (Clipboard text) =>
      (mk true (timers st ++ [(clock st + 2000)%Z]) (clock st),
       [WriteClipboard text; Toast true copied_msg])
  | Advance now =>
      if (clock st <=? now)%Z then
        match List.filter (λ d, d <=? now)%Z (timers st) with
        | [] => (mk (copied st) (timers st) now, [])
        | _ :: _ => (mk false (List.filter (λ d, now <? d)%Z (timers st)) now, [])
        end
      else (st, [])
  end.

Definition share_run (st : State) (es : list Event) : State :=
  fold_left (λ s e, fst (share_step s e)) es st.

Inductive share_reachable : State → Prop :=
| share_reach_init : share_reachable init
| share_reach_step s e : share_reachable s → share_reachable (fst (share_step s e)).

End Share.

(** What [fetch(facility.image)] does: it rejects only on a network
    failure; an HTTP error status still resolves with a response. *)
Inductive FetchResult := NetworkError | Response (status : Z).

(** [handleDownload] *)
Definition handleDownload (facility : option Facility.t) (fetched : FetchResult) : list SheetEffect :=
  match facility with
  | Some f =>
      if str_truthy (Facility.image f) then
        match fetched with
        | Response _ => [DownloadFile (Facility.name f ++ ".png"); Toast true "이미지가 다운로드되었습니다"]
        | NetworkError => [ConsoleError; Toast false "이미지 다운로드에 실패했습니다"]
        end
      else []
  | None => []
  end.

(** [handleCall]'s effect: [window.location.href = `tel:${contact}`]. *)
Definition call_effects (facility : option Facility.t) : list SheetEffect :=
  match handleCall facility with Some u => [SetHref u] | None => [] end.

(** The bottom action buttons: "길찾기" in both layouts (lines 358-366 and
    530-537), and "전화하기" under [{facility.contact && ...}] in the
    facility layout (lines 539-549). *)
Inductive SheetButton := DirectionsButton | CallButton.

#[export] Instance SheetButton_eq_dec : EqDecision SheetButton.
Proof. solve_decision. Defined.

Definition bottom_actions (sh : Sheet) : list SheetButton :=
  match sh with
  | NoSheet => []
  | GroupedView _ => [DirectionsButton]
  | SingleView v => DirectionsButton :: (if ss_call_button v then [CallButton] else [])
  end.

(** A bottom button's click.  The building layout's button calls that
    layout's own [handleGetDirections] (lines 174-179), which shadows the
    component's. *)
Definition bottom_press (num : Q → string) (userAgent : string) (facility : option Facility.t)
    (groupedFacility : option GroupedFacility.t) (b : SheetButton) : list SheetEffect :=
  match b, groupedFacility with
  | DirectionsButton, Some g => handleGetDirections_grouped num g
  | DirectionsButton, None => handleGetDirections num userAgent facility
  | CallButton, _ => call_effects facility
  end.

(** ** Reading the links back *)

(** The characters [Number.prototype.toString] writes for a finite
    number. *)
Definition is_number_char (c : ascii) : bool :=
  is_digit c || existsb (λ d, Ascii.eqb c d) ["."; "-"; "e"; "+"]%char.

(** What the Naver app reads from an [nmap://place] link: the decoded
    name and the raw latitude and longitude. *)
Definition app_link_target (url : string) : option (string * string * string) :=
  match query_params url with
  | [(k1, lat); (k2, lng); (k3, n); (k4, _)] =>
      if (k1 === "lat") && (k2 === "lng") && (k3 === "name") && (k4 === "appname")
      then name ← decodeURIComponent n; Some (name, lat, lng) else None
  | _ => None
  end.

(** What the Naver web map reads from a search link: the decoded last
    path segment and the first two fields of its [c] parameter. *)
Definition web_link_target (url : string) : option (string * string * string) :=
  match last (split_on "/" (url_path url)), query_params url with
  | Some seg, [(k, v)] =>
      if k === "c" then
        match split_on "," v with
        | [lng; lat; _; _; _; _; _] => name ← decodeURIComponent seg; Some (name, lat, lng)
        | _ => None
        end
      else None
  | _, _ => None
  end.

(** The target a link effect leads to, by kind of link. *)
Definition effect_target (e : SheetEffect) : option (option (string * string * string)) :=
  match e with
  | SetHref u => Some (app_link_target u)
  | OpenWindow u | OpenAfter _ u => Some (web_link_target u)
  | _ => None
  end.

(** ** Lemmas *)

Lemma number_char_free (s : string) sep :
  is_number_char sep = false → str_forall is_number_char s = true → char_free sep s = true.
Proof. intros. by eapply str_forall_char_free. Qed.

Lemma app_link_target_url num lat lng name :
  str_forall is_number_char (num lat) = true → str_forall is_number_char (num lng) = true →
  app_link_target (naverMapAppUrl num lat lng name) = Some (name, num lat, num lng).
Proof.
  intros Ha Hb. unfold naverMapAppUrl, app_link_target, query_params.
  rewrite ?str_app_cons, ?str_app_nil_l. simpl.
  do 3 (rewrite split_on_app by (first [by apply number_char_free | by apply encode_char_free]); simpl).
  by rewrite decode_encode_id.
Qed.

Lemma web_link_target_url num lat lng name :
  str_forall is_number_char (num lat) = true → str_forall is_number_char (num lng) = true →
  web_link_target (naverMapWebUrl num lat lng name) = Some (name, num lat, num lng).
Proof.
  intros Ha Hb. unfold naverMapWebUrl, web_link_target, query_params.
  rewrite ?str_app_cons, ?str_app_nil_l. simpl.
  rewrite url_path_app, query_of_app by (by apply encode_char_free). simpl.
  rewrite (split_on_free "/") by (by apply encode_char_free). simpl.
  rewrite (split_on_free "&"); cycle 1.
  { rewrite char_free_app, (number_char_free (num lng)) by done. simpl.
    by rewrite char_free_app, (number_char_free (num lat)). }
  simpl. do 2 (rewrite split_on_app by (by apply number_char_free); simpl).
  by rewrite decode_encode_id.
Qed.

Module ShareFacts.
Import Share.

(** Every pending timer fires within 2 s, and a shown check mark has a
    pending timer that will clear it. *)
Definition inv (st : State) : Prop :=
  (∀ d, d ∈ timers st → clock st < d ≤ clock st + 2000)%Z ∧ (copied st = true → timers st ≠ []).

Lemma inv_init : inv init.
Proof. split; [set_solver|done]. Qed.

Lemma inv_step st e : inv st → inv (fst (share_step st e)).
Proof.
  intros [Hd Hc]. destruct e as [[t x|t]|now]; simpl; [done| |].
  - split; [|intros _; by destruct (timers st)].
    intros d [Hin|Hin]%elem_of_app; [by apply Hd|]. apply list_elem_of_singleton in Hin as ->. simpl. lia.
  - destruct (Z.leb_spec (clock st) now); [|done].
    destruct (List.filter _ (timers st)) eqn:Ef; simpl.
    + split; [|done]. intros d Hin. pose proof (filter_nil_elem _ _ _ Ef Hin).
      pose proof (Hd d Hin). simpl in *. apply Z.leb_gt in H0. lia.
    + split; [|done]. intros d [Hin Hlt]%elem_filter. apply Z.ltb_lt in Hlt.
      pose proof (Hd d Hin). simpl. lia.
Qed.

Lemma share_reachable_inv st : share_reachable st → inv st.
Proof. induction 1; [apply inv_init|by apply inv_step]. Qed.

(** Advancing the clock to [now] fires a pending timer due by then. *)
Lemma advance_fires st now t :
  t ∈ timers st → (clock st <= now)%Z → (t <= now)%Z →
  copied (fst (share_step st (Advance now))) = false ∧ clock (fst (share_step st (Advance now))) = now.
Proof.
  intros Ht Hc Hn. simpl. apply Z.leb_le in Hc as ->.
  destruct (List.filter _ (timers st)) eqn:Ef; [|done].
  pose proof (filter_nil_elem _ _ _ Ef Ht). simpl in *. apply Z.leb_gt in H. lia.
Qed.

(** A timer not yet due stays pending. *)
Lemma advance_keeps st now t :
  t ∈ timers st → (clock st <= now)%Z → (now < t)%Z →
  t ∈ timers (fst (share_step st (Advance now))) ∧ clock (fst (share_step st (Advance now))) = now.
Proof.
  intros Ht Hc Hn. simpl. apply Z.leb_le in Hc as ->.
  destruct (List.filter _ (timers st)); simpl; [done|].
  split; [|done]. apply elem_filter. split; [done|]. by apply Z.ltb_lt.
Qed.

Lemma advance_clock st now : (clock st <= now)%Z → clock (fst (share_step st (Advance now))) = now.
Proof.
  intros Hc. simpl. apply Z.leb_le in Hc as ->. by destruct (List.filter _ (timers st)).
Qed.

Lemma click_timer st text :
  (clock st + 2000)%Z ∈ timers (fst (share_step st (Click (Clipboard text)))) ∧
  clock (fst (share_step st (Click (Clipboard text)))) = clock st.
Proof. simpl. split; [set_solver|done]. Qed.

Lemma click_keeps st text t : t ∈ timers st → t ∈ timers (fst (share_step st (Click (Clipboard text)))).
Proof. simpl. set_solver. Qed.

End ShareFacts.

(** ** Properties *)

(** C21. Every link the directions button of a facility opens leads to
    that facility: the app link and the web link both decode to its name,
    whatever characters the name holds ([&], [?], [/], Hangul), and carry
    its coordinates, as long as the coordinates print as numbers.  A web
    link is opened on every device, on a phone 2 s after the app link,
    whether or not the app opened. *)
Theorem directions_links (num : Q → string) (userAgent : string) (f : Facility.t) :
  str_forall is_number_char (num (Facility.latitude f)) = true →
  str_forall is_number_char (num (Facility.longitude f)) = true →
  (∀ e, e ∈ handleGetDirections num userAgent (Some f) →
     effect_target e = None ∨
     effect_target e = Some (Some (Facility.name f, num (Facility.latitude f), num (Facility.longitude f)))) ∧
  (∃ u, (OpenWindow u ∈ handleGetDirections num userAgent (Some f) ∨
         OpenAfter 2000 u ∈ handleGetDirections num userAgent (Some f)) ∧
        web_link_target u = Some (Facility.name f, num (Facility.latitude f), num (Facility.longitude f))).
Proof.
  intros Ha Hb. unfold handleGetDirections.
  pose proof (app_link_target_url num _ _ (Facility.name f) Ha Hb) as Happ.
  pose proof (web_link_target_url num _ _ (Facility.name f) Ha Hb) as Hweb.
  split.
  - intros e He. destruct (is_mobile userAgent); simpl in He; set_unfold in He;
      destruct_or!; subst; simpl; rewrite ?Happ, ?Hweb; auto.
  - eexists. split; [|exact Hweb]. destruct (is_mobile userAgent); [right|left]; set_solver.
Qed.

Module ShareProps.
Import Share ShareFacts.

(** C25. The check mark of the share button does not stay 2 s after the
    last copy: each copy starts its own timer and none is cancelled, so
    after copies at [t1] and then [t2 < t1 + 2000] the first copy's timer
    clears the mark at [t1 + 2000], less than 2 s after the second copy. *)
Theorem copied_cleared_early (st : State) (a b : string) (t1 t2 : Z) :
  (clock st <= t1)%Z → (t1 <= t2 < t1 + 2000)%Z →
  copied (share_run st [Advance t1; Click (Clipboard a); Advance t2;
                  Click (Clipboard b); Advance (t1 + 2000)]) = false.
Proof.
  intros H1 H2. unfold share_run. cbn [fold_left].
  pose proof (advance_clock st t1 H1) as C1.
  set (s1 := fst (share_step st (Advance t1))) in *.
  destruct (click_timer s1 a) as [T2 C2]. set (s2 := fst (share_step s1 (Click (Clipboard a)))) in *.
  rewrite C1 in T2, C2.
  destruct (advance_keeps s2 t2 (t1 + 2000) T2 ltac:(lia) ltac:(lia)) as [T3 C3].
  set (s3 := fst (share_step s2 (Advance t2))) in *.
  pose proof (click_keeps s3 b _ T3) as T4. destruct (click_timer s3 b) as [_ C4].
  set (s4 := fst (share_step s3 (Click (Clipboard b)))) in *.
  apply (advance_fires s4 (t1 + 2000) (t1 + 2000) T4); lia.
Qed.

(** C26. The check mark never outlives its timers: from any reachable
    state, once 2 s have passed since the current time, every timer has
    fired and the mark is cleared. *)
Theorem copied_clears (st : State) (now : Z) :
  share_reachable st → (clock st + 2000 <= now)%Z →
  copied (fst (share_step st (Advance now))) = false ∧ timers (fst (share_step st (Advance now))) = [].
Proof.
  intros Hr Hn. destruct (share_reachable_inv _ Hr) as [Hd Hc].
  destruct (timers st) as [|d ds] eqn:Et.
  - destruct (copied st) eqn:Ecp; [by destruct (Hc eq_refl)|].
    simpl. rewrite (proj2 (Z.leb_le _ _)) by lia. by rewrite Et, Ecp.
  - rewrite <-Et in Hd.
    assert (Hall : ∀ x, x ∈ timers st → (x <=? now)%Z = true).
    { intros x Hx. apply Z.leb_le. pose proof (Hd x Hx). lia. }
    assert (Hf : List.filter (λ x, now <? x)%Z (timers st) = []).
    { apply filter_all_false. intros x Hx. apply Z.ltb_ge. apply Z.leb_le, Hall, Hx. }
    simpl. rewrite (proj2 (Z.leb_le _ _)) by lia. rewrite (filter_all _ _ Hall), Hf, Et. done.
Qed.

End ShareProps.

(** C22. No bottom button of the sheet is dead: whatever the sheet shows,
    the "길찾기" button always ends with the success toast, after its
    link effects, and the "전화하기" button is rendered only for a
    facility with a non-empty [contact], whose click dials exactly it. *)
Theorem bottom_buttons_live (num : Q → string) (userAgent : string) (facility : option Facility.t)
    (groupedFacility : option GroupedFacility.t) (openFloors : list string) (copied : bool)
    (currentDay currentHour : Z) (b : SheetButton) :
  b ∈ bottom_actions (FacilityDetailSheet facility groupedFacility openFloors copied currentDay currentHour) →
  (b = DirectionsButton →
     ∃ links, bottom_press num userAgent facility groupedFacility b = (links ++ [Toast true "네이버 지도로 이동합니다"])%list ∧
              links ≠ [] ∧ Forall (λ e, effect_target e ≠ None) links) ∧
  (b = CallButton →
     ∃ f c, facility = Some f ∧ Facility.contact f = Some c ∧ c ≠ "" ∧
            bottom_press num userAgent facility groupedFacility b = [SetHref ("tel:" ++ c)]).
Proof.
  destruct groupedFacility as [g|]; [|destruct facility as [f|]]; simpl; try set_solver.
  - intros ->%list_elem_of_singleton. split; [|done]. intros _.
    eexists [_]. split; [reflexivity|]. split; [done|]. by repeat constructor.
  - intros Hb. split; intros ->.
    + unfold bottom_press, handleGetDirections. destruct (is_mobile userAgent); [eexists [_; _]|eexists [_]];
        (split; [reflexivity|]); split; try done; by repeat constructor.
    + unfold single_sheet in Hb. simpl in Hb. unfold call_effects, handleCall.
      destruct (str_truthy (Facility.contact f)) eqn:Ht; [|set_solver].
      unfold str_truthy in Ht. destruct (Facility.contact f) as [c|] eqn:Ec; [|done].
      exists f, c. split_and!; [done|done|intros ->; by compute in Ht|].
      unfold bottom_press, call_effects, handleCall. rewrite Ec. simpl. by rewrite Ht.
Qed.

(** ** Witnesses and examples *)

(** A printer of the coordinates used in the examples. *)
Definition sample_num (q : Q) : string := int_to_string (Qnum q).

Definition sample_shop : Facility.t :=
  Facility.mk 7 "A&B 카페/2호점?" cafe "학생회관" "1층" (368 # 10) (1271 # 10) "09:00-18:00"
    None None (Some "/images/ab.png") None.

Definition iphone_ua : string := "Mozilla/5.0 (iPhone; CPU iPhone OS 17_0 like Mac OS X)".

Lemma directions_links_witness :
  str_forall is_number_char (sample_num (Facility.latitude sample_shop)) = true ∧
  str_forall is_number_char (sample_num (Facility.longitude sample_shop)) = true ∧
  ∃ u, (OpenWindow u ∈ handleGetDirections sample_num iphone_ua (Some sample_shop) ∨
        OpenAfter 2000 u ∈ handleGetDirections sample_num iphone_ua (Some sample_shop)) ∧
       web_link_target u = Some ("A&B 카페/2호점?", "368", "1271").
Proof.
  split; [reflexivity|]. split; [reflexivity|].
  exact (proj2 (directions_links sample_num iphone_ua sample_shop eq_refl eq_refl)).
Defined.

(** The same name put into the link without [encodeURIComponent] splits
    the query string at its [&]. *)
Example unencoded_name_breaks_link :
  app_link_target ("nmap://place?lat=368&lng=1271&name=" ++ Facility.name sample_shop ++
                   "&appname=com.campuscompass") = None.
Proof. reflexivity. Qed.

(** On a phone the web link is opened 2 s after the app link, even if
    the app opened. *)
Example directions_phone_effects :
  handleGetDirections sample_num iphone_ua (Some sample_shop) =
    [SetHref (naverMapAppUrl sample_num (368 # 10) (1271 # 10) "A&B 카페/2호점?");
     OpenAfter 2000 (naverMapWebUrl sample_num (368 # 10) (1271 # 10) "A&B 카페/2호점?");
     Toast true "네이버 지도로 이동합니다"].
Proof. reflexivity. Qed.

Lemma copied_cleared_early_witness :
  (Share.clock Share.init <= 0)%Z ∧ (0 <= 1500 < 0 + 2000)%Z ∧
  Share.copied (Share.share_run Share.init
    [Share.Advance 0; Share.Click (Clipboard "a"); Share.Advance 1500;
     Share.Click (Clipboard "b"); Share.Advance (0 + 2000)]) = false.
Proof.
  assert (H1 : (Share.clock Share.init <= 0)%Z) by (simpl; lia).
  assert (H2 : (0 <= 1500 < 0 + 2000)%Z) by lia.
  split; [exact H1|]. split; [exact H2|]. exact (ShareProps.copied_cleared_early _ _ _ _ _ H1 H2).
Defined.

Definition sample_share_state : Share.State := fst (Share.share_step Share.init (Share.Click (Clipboard "a"))).

Lemma copied_clears_witness :
  Share.share_reachable sample_share_state ∧ (Share.clock sample_share_state + 2000 <= 2000)%Z ∧
  Share.copied (fst (Share.share_step sample_share_state (Share.Advance 2000))) = false.
Proof.
  assert (Hr : Share.share_reachable sample_share_state) by (apply Share.share_reach_step, Share.share_reach_init).
  assert (Hn : (Share.clock sample_share_state + 2000 <= 2000)%Z) by (simpl; lia).
  split; [exact Hr|]. split; [exact Hn|]. exact (proj1 (ShareProps.copied_clears _ _ Hr Hn)).
Defined.

(** [fetch] resolves on an HTTP error status, so a missing image (404)
    is downloaded as the error page and reported as a success. *)
Example download_http_error_reported_as_success :
  handleDownload (Some sample_shop) (Response 404) =
    [DownloadFile "A&B 카페/2호점?.png"; Toast true "이미지가 다운로드되었습니다"].
Proof. reflexivity. Qed.

(** The health office, with a phone number. *)
Definition sample_office : Facility.t :=
  Facility.mk 9 "보건실" medical "본관" "1층" (368 # 10) (1271 # 10) "평일 09:00-18:00"
    (Some "041-550-9114") None None None.

Lemma bottom_buttons_live_witness :
  CallButton ∈ bottom_actions (FacilityDetailSheet (Some sample_office) None [] false 1 10) ∧
  bottom_press sample_num iphone_ua (Some sample_office) None CallButton = [SetHref "tel:041-550-9114"].
Proof.
  assert (Hb : CallButton ∈ bottom_actions (FacilityDetailSheet (Some sample_office) None [] false 1 10))
    by (apply (bool_decide_eq_true_1 (_ ∈ _)); vm_compute; reflexivity).
  split; [exact Hb|].
  destruct (proj2 (bottom_buttons_live sample_num iphone_ua (Some sample_office) None [] false 1 10 CallButton Hb)
              eq_refl) as (f & c & Hf & Hc & _ & Hp).
  injection Hf as <-. injection Hc as <-. exact Hp.
Defined.
