(* ===== verification/Projection.v ===== *)
(** * Projection: the mock map's [latLngToPixel] (MapView.tsx lines 118-132)

    When the map SDK is unavailable, MapView draws each building's marker
    at a percentage position inside a fixed campus rectangle:
<<
      x = ((lng - west) / (east - west)) * 100
      y = ((north - lat) / (north - south)) * 100
      return { x: Math.max(0, Math.min(100, x)), y: Math.max(0, Math.min(100, y)) }
>>
    Coordinates are modelled as exact rationals [Q]; the code computes in
    binary64.  The theorems are about the exact projection; the rounding
    of doubles is not modelled (for the campus centre the double result is
    also exactly 50, 50).
*)

From Stdlib Require Import QArith Qminmax Lqa Morphisms.
From S2P Require Import Prelude.

Local Open Scope Q_scope.

(** [Math.min] and [Math.max] on numbers (no NaN arises here: the
    divisors are non-zero constants). *)
Definition Math_min (a b : Q) : Q := if Qle_bool a b then a else b.
Definition Math_max (a b : Q) : Q := if Qle_bool a b then b else a.

(** The campus rectangle of [latLngToPixel]. *)
Definition north : Q := 36770 # 1000.
Definition south : Q := 36765 # 1000.
Definition east : Q := 127077 # 1000.
Definition west : Q := 127072 # 1000.

(** [BAEKSEOK_CENTER] (MapView.tsx lines 83-86). *)
Definition center_lat : Q := 367675 # 10000.
Definition center_lng : Q := 1270745 # 10000.

Definition clamp100 (v : Q) : Q := Math_max 0 (Math_min 100 v).

(** [latLngToPixel] *)
Definition latLngToPixel (lat lng : Q) : Q * Q :=
  let x := ((lng - west) / (east - west)) * 100 in
  let y := ((north - lat) / (north - south)) * 100 in
  (clamp100 x, clamp100 y).

(** ** Lemmas *)

(** Case on every [Qle_bool] of the goal, as inequalities. *)
Ltac qle_cases :=
  repeat match goal with
  | |- context [Qle_bool ?a ?b] =>
      lazymatch b with
      | context [Qle_bool _ _] => fail
      | _ => let H := fresh "Hq" in destruct (Qle_bool a b) eqn:H
      end
  end;
  repeat match goal with
  | H : Qle_bool _ _ = true |- _ => apply Qle_bool_iff in H
  | H : Qle_bool ?a ?b = false |- _ =>
      assert (~ a <= b) by (let Hc := fresh in intro Hc; apply Qle_bool_iff in Hc; congruence);
      clear H
  end.

Lemma clamp100_bounds v : 0 <= clamp100 v /\ clamp100 v <= 100.
Proof. unfold clamp100, Math_max, Math_min. qle_cases; split; lra. Qed.

Lemma clamp100_inside v : 0 <= v -> v <= 100 -> clamp100 v == v.
Proof. intros H0 H100. unfold clamp100, Math_max, Math_min. qle_cases; lra. Qed.

Lemma clamp100_mono v w : v <= w -> clamp100 v <= clamp100 w.
Proof. intros Hvw. unfold clamp100, Math_max, Math_min. qle_cases; lra. Qed.

(** [clamp100] is [Qmax 0 (Qmin 100 v)]. *)
Lemma clamp100_Qminmax v : clamp100 v == Qmax 0 (Qmin 100 v).
Proof.
  destruct (Q.min_spec 100 v) as [[H1 ->]|[H1 ->]];
    [destruct (Q.max_spec 0 100) as [[H2 ->]|[H2 ->]]|destruct (Q.max_spec 0 v) as [[H2 ->]|[H2 ->]]];
    unfold clamp100, Math_max, Math_min; qle_cases; lra.
Qed.

(** [clamp100] respects equality of rationals, so [==] rewrites under it. *)
#[export] Instance clamp100_proper : Proper (Qeq ==> Qeq) clamp100.
Proof. intros v w Hvw. unfold clamp100, Math_max, Math_min. qle_cases; lra. Qed.

Lemma x_linear lng : ((lng - west) / (east - west)) * 100 == (lng - west) * 20000.
Proof.
  unfold Qdiv. assert (H : / (east - west) == 200) by (vm_compute; reflexivity).
  rewrite H. ring.
Qed.

Lemma y_linear lat : ((north - lat) / (north - south)) * 100 == (north - lat) * 20000.
Proof.
  unfold Qdiv. assert (H : / (north - south) == 200) by (vm_compute; reflexivity).
  rewrite H. ring.
Qed.

Lemma latLngToPixel_x lat lng : fst (latLngToPixel lat lng) == clamp100 ((lng - west) * 20000).
Proof. simpl. rewrite x_linear. reflexivity. Qed.

Lemma latLngToPixel_y lat lng : snd (latLngToPixel lat lng) == clamp100 ((north - lat) * 20000).
Proof. simpl. rewrite y_linear. reflexivity. Qed.

(** Inside the campus rectangle. *)
Definition on_campus (lat lng : Q) : Prop :=
  south <= lat /\ lat <= north /\ west <= lng /\ lng <= east.

Lemma latLngToPixel_linear (lat lng : Q) :
  on_campus lat lng ->
  fst (latLngToPixel lat lng) == (lng - west) * 20000 /\
  snd (latLngToPixel lat lng) == (north - lat) * 20000.
Proof.
  unfold on_campus, north, south, east, west. intros (H1 & H2 & H3 & H4).
  rewrite latLngToPixel_x, latLngToPixel_y.
  split; apply clamp100_inside; unfold north, west; lra.
Qed.

(** ** Properties of [latLngToPixel] *)

(** C36. The mock map's projection, for every coordinate: the
    longitude gives the horizontal percentage and the latitude, inverted,
    the vertical one, 0.005 degrees spanning 100% from the west edge
    127.072 and the north edge 36.770, each clamped to [0, 100].  So
    every mock marker lies in the map box, and positions beyond an edge
    are drawn on it. *)
Theorem latLngToPixel_spec (lat lng : Q) :
  fst (latLngToPixel lat lng) == Qmax 0 (Qmin 100 ((lng - (127072 # 1000)) * 20000)) /\
  snd (latLngToPixel lat lng) == Qmax 0 (Qmin 100 (((36770 # 1000) - lat) * 20000)) /\
  0 <= fst (latLngToPixel lat lng) <= 100 /\ 0 <= snd (latLngToPixel lat lng) <= 100.
Proof.
  rewrite latLngToPixel_x, latLngToPixel_y, !clamp100_Qminmax.
  repeat split; try reflexivity; rewrite <-clamp100_Qminmax; apply clamp100_bounds.
Qed.

(** Inside the rectangle the projection is the exact linear map: east is
    right, north is up, 0.005 degrees span 100%. *)
Theorem latLngToPixel_on_campus (lat lng : Q) :
  on_campus lat lng ->
  fst (latLngToPixel lat lng) == (lng - west) * 20000 /\
  snd (latLngToPixel lat lng) == (north - lat) * 20000.
Proof. apply latLngToPixel_linear. Qed.

Lemma latLngToPixel_on_campus_witness :
  on_campus center_lat center_lng /\
  fst (latLngToPixel center_lat center_lng) == (center_lng - west) * 20000.
Proof.
  assert (H : on_campus center_lat center_lng)
    by (unfold on_campus; vm_compute; repeat split; discriminate).
  split; [exact H|]. apply (latLngToPixel_on_campus _ _ H).
Defined.

(** Two places on campus never share a mock-map position. *)
Theorem latLngToPixel_injective (lat1 lng1 lat2 lng2 : Q) :
  on_campus lat1 lng1 -> on_campus lat2 lng2 ->
  fst (latLngToPixel lat1 lng1) == fst (latLngToPixel lat2 lng2) ->
  snd (latLngToPixel lat1 lng1) == snd (latLngToPixel lat2 lng2) ->
  lat1 == lat2 /\ lng1 == lng2.
Proof.
  intros H1 H2 Hx Hy.
  destruct (latLngToPixel_linear _ _ H1) as [Hx1 Hy1].
  destruct (latLngToPixel_linear _ _ H2) as [Hx2 Hy2].
  rewrite Hx1, Hx2 in Hx. rewrite Hy1, Hy2 in Hy. split; lra.
Qed.

(** The projection is monotone: further east is further right, further
    north is further up (smaller [y]). *)
Theorem latLngToPixel_monotone (lat1 lng1 lat2 lng2 : Q) :
  lng1 <= lng2 -> lat1 <= lat2 ->
  fst (latLngToPixel lat1 lng1) <= fst (latLngToPixel lat2 lng2) /\
  snd (latLngToPixel lat2 lng2) <= snd (latLngToPixel lat1 lng1).
Proof.
  intros Hlng Hlat. rewrite !latLngToPixel_x, !latLngToPixel_y.
  split; apply clamp100_mono; lra.
Qed.

(** The campus centre is drawn at the centre of the box. *)
Example latLngToPixel_center :
  fst (latLngToPixel center_lat center_lng) == 50 /\ snd (latLngToPixel center_lat center_lng) == 50.
Proof. split; vm_compute; reflexivity. Qed.

(** Off-campus places are clamped to the border: two buildings south of
    the rectangle are drawn at the same point. *)
Example latLngToPixel_offcampus_collide :
  latLngToPixel (36760 # 1000) center_lng = latLngToPixel (36750 # 1000) center_lng.
Proof. vm_compute. reflexivity. Qed.

Lemma latLngToPixel_injective_witness :
  on_campus center_lat center_lng /\ center_lat == center_lat /\ center_lng == center_lng.
Proof.
  assert (H : on_campus center_lat center_lng)
    by (unfold on_campus; vm_compute; repeat split; discriminate).
  split; [exact H|]. apply (latLngToPixel_injective _ _ _ _ H H); vm_compute; reflexivity.
Defined.

Lemma latLngToPixel_monotone_witness :
  west <= east /\ south <= north /\
  fst (latLngToPixel south west) <= fst (latLngToPixel north east).
Proof.
  assert (H1 : west <= east) by (vm_compute; discriminate).
  assert (H2 : south <= north) by (vm_compute; discriminate).
  split; [exact H1|]. split; [exact H2|].
  apply (latLngToPixel_monotone south west north east H1 H2).
Defined.
