(* ===== verification/MapView.v ===== *)
(** * MapView: filtering, markers, search and the location button

    The parts of [MapView] (MapView.tsx) that do not depend on the SDK
    loading state (that is [MapLoader]):
    - [categories] of CategoryFilter.tsx (lines 19-30), whose ids are what
      [selectedCategory] ranges over;
    - [filteredFacilities] (lines 107-112) and [groupedFacilities]
      (line 115): the category filter, then [groupFacilitiesByBuilding];
    - the markers of the two render modes: [sdk_markers] (the marker
      effect, lines 206-263) and [mock_markers] (lines 376-405);
    - [handleSearch] (lines 102-105), which only logs: the search box does
      not filter anything;
    - [handleCurrentLocation] (lines 266-311) on an explicit viewport.
*)

From Stdlib Require Import String ZArith QArith.
From stdpp Require Import base list sets strings.
From S2P Require Import Prelude Facility Grouping Projection.

Local Open Scope campus_scope.

(** The ids offered by CategoryFilter, "all" first. *)
Definition categories : list string :=
  ["all"; "cafe"; "restaurant"; "library"; "convenience"; "lounge"; "gym";
   "medical"; "transport"; "atm"]%string.

(** [filteredFacilities] *)
Definition filteredFacilities (facilities : list Facility.t) (selectedCategory : string)
    : list Facility.t :=
  if selectedCategory === "all" then facilities
  else List.filter (λ f, category_id (Facility.category f) === selectedCategory) facilities.

(** [groupedFacilities = groupFacilitiesByBuilding(filteredFacilities)] *)
Definition groupedFacilities (facilities : list Facility.t) (selectedCategory : string)
    : list GroupedFacility.t :=
  groupFacilitiesByBuilding (filteredFacilities facilities selectedCategory).

(** A marker: its title, its position (latitude/longitude for the SDK,
    percentages for the mock map) and the group its click handler
    passes to [onGroupedFacilityClick]. *)
Record Marker := mkMarker { title : string; position : Q * Q; onClick : GroupedFacility.t }.

(** [new naver.maps.Marker({position: LatLng(lat, lng), title: building})]
    with its click listener, one per group. *)
Definition sdk_markers (groups : list GroupedFacility.t) : list Marker :=
  (λ g, mkMarker (GroupedFacility.building g)
          (GroupedFacility.latitude g, GroupedFacility.longitude g) g) <$> groups.

(** The mock map's buttons, placed by [latLngToPixel]. *)
Definition mock_markers (groups : list GroupedFacility.t) : list Marker :=
  (λ g, mkMarker (GroupedFacility.building g)
          (latLngToPixel (GroupedFacility.latitude g) (GroupedFacility.longitude g)) g) <$> groups.

(** The component's local state relevant to searching: the SearchBar's
    [query] and the console output. *)
Record SearchState := mkSearch { query : string; console : list string }.

(** MapView's [handleSearch(query)]: [console.log("Searching for:",
    query)] and nothing else (the search itself is a TODO). *)
Definition handleSearch (query : string) (console : list string) : list string :=
  console ++ ["Searching for: " ++ query]%string.

(** SearchBar's [handleSearch(value)]: [setQuery(value)] then
    [onSearch?.(value)], which is MapView's [handleSearch]. *)
Definition search_input (value : string) (st : SearchState) : SearchState :=
  mkSearch value (handleSearch value (console st)).

(** What MapView draws: the markers of the selected category. *)
Definition visible_markers (useMockMap : bool) (facilities : list Facility.t)
    (selectedCategory : string) (_ : SearchState) : list Marker :=
  (if useMockMap then mock_markers else sdk_markers) (groupedFacilities facilities selectedCategory).

(** The SDK map's viewport. *)
Record Viewport := mkViewport { center : Q * Q; zoom : Z }.

(** The answer of [navigator.geolocation.getCurrentPosition]. *)
Inductive Geo := GeoOk (lat lng : Q) | GeoError.

(** [handleCurrentLocation]: nothing in mock mode or without the SDK;
    otherwise recentre on the position at zoom 17, or on the campus centre
    (zoom unchanged) when the position is refused. *)
Definition handleCurrentLocation (useMockMap sdkReady : bool) (answer : Geo)
    (vp : Viewport) : Viewport :=
  if useMockMap then vp
  else if negb sdkReady then vp
  else match answer with
       | GeoOk lat lng => mkViewport (lat, lng) 17
       | GeoError => mkViewport (center_lat, center_lng) (zoom vp)
       end.

(** ** Properties *)

(** C6. The category filter keeps, in order, exactly the facilities of the
    selected category; ["all"] keeps every facility. *)
Theorem filteredFacilities_spec (l : list Facility.t) (s : string) :
  filteredFacilities l s `sublist_of` l ∧
  ∀ f, f ∈ filteredFacilities l s ↔ f ∈ l ∧ (s = "all"%string ∨ category_id (Facility.category f) = s).
Proof.
  unfold filteredFacilities. case_str.
  - split; [done|]. naive_solver.
  - split; [apply filter_sublist|]. intros f. rewrite elem_filter.
    destruct (String.eqb_spec (category_id (Facility.category f)) s); naive_solver.
Qed.

Lemma filtered_category l c f :
  f ∈ filteredFacilities l (category_id c) → Facility.category f = c.
Proof.
  unfold filteredFacilities. case_str; [by destruct c|].
  intros [_ Hc]%elem_filter. by apply category_id_inj, String.eqb_eq.
Qed.

(** With a category selected, every marker's group is of that
    category, and so is every facility listed in the group. *)
Theorem groupedFacilities_category (l : list Facility.t) (c : Category) (g : GroupedFacility.t) :
  g ∈ groupedFacilities l (category_id c) →
  GroupedFacility.category g = c ∧
  ∀ fg f, fg ∈ GroupedFacility.floors g → f ∈ FloorGroup.facilities fg → Facility.category f = c.
Proof.
  intros Hg. split.
  - destruct (group_rep_elem _ _ Hg) as (r & Hr & _ & ->). by eapply filtered_category.
  - intros fg f Hfg Hf. destruct (group_member_elem _ _ _ _ Hg Hfg Hf) as [Hin _].
    by eapply filtered_category.
Qed.

(** The cafe group of building "A" in the sample data. *)
Definition sample_cafe_groupA : GroupedFacility.t :=
  Eval vm_compute in sort_floors (group_spec (filteredFacilities sample_facilities "cafe")
                                   (fac 1 "A" "지하1층" cafe None)).

Lemma groupedFacilities_category_witness :
  sample_cafe_groupA ∈ groupedFacilities sample_facilities (category_id cafe) ∧
  GroupedFacility.category sample_cafe_groupA = cafe.
Proof.
  assert (H : sample_cafe_groupA ∈ groupedFacilities sample_facilities (category_id cafe))
    by (apply (bool_decide_eq_true_1 (_ ∈ _)); vm_compute; reflexivity).
  split; [exact H|]. apply (proj1 (groupedFacilities_category _ _ _ H)).
Defined.

(** In both render modes MapView draws one marker per building of the
    selected category, titled with the building, whose click hands back
    that building's group; mock markers lie inside the map box. *)
Theorem visible_markers_spec (useMockMap : bool) (l : list Facility.t) (s : string) (st : SearchState) :
  onClick <$> visible_markers useMockMap l s st = groupedFacilities l s ∧
  NoDup (title <$> visible_markers useMockMap l s st) ∧
  (useMockMap = true → ∀ m, m ∈ visible_markers useMockMap l s st →
     (0 <= fst (position m) <= 100 ∧ 0 <= snd (position m) <= 100)%Q).
Proof.
  assert (Htitles : ∀ mk : GroupedFacility.t → Q * Q,
    title <$> ((λ g, mkMarker (GroupedFacility.building g) (mk g) g) <$> groupedFacilities l s) =
    GroupedFacility.building <$> groupedFacilities l s).
  { intros mk. by rewrite <-list_fmap_compose. }
  unfold visible_markers, mock_markers, sdk_markers. split_and!.
  - destruct useMockMap; rewrite <-list_fmap_compose; apply list_fmap_id.
  - destruct useMockMap; rewrite Htitles; unfold groupedFacilities;
      rewrite groupFacilitiesByBuilding_eq, <-list_fmap_compose; apply uniq_by_keys_NoDup.
  - intros -> m (g & -> & _)%list_elem_of_fmap. simpl.
    pose proof (clamp100_bounds (((GroupedFacility.longitude g - west) / (east - west)) * 100)).
    pose proof (clamp100_bounds (((north - GroupedFacility.latitude g) / (north - south)) * 100)).
    tauto.
Qed.

(** The search box filters nothing: typing a query changes no marker
    (MapView's [handleSearch] is a TODO that only logs). *)
Example search_filters_nothing :
  visible_markers false sample_facilities "all" (search_input "카페" (mkSearch "" [])) =
  visible_markers false sample_facilities "all" (mkSearch "" []) ∧
  console (search_input "카페" (mkSearch "" [])) = ["Searching for: 카페"]%string.
Proof. split; reflexivity. Qed.
