(* ===== verification/HomePage.v ===== *)
(** * HomePage: the tabbed home screen and the building sheet over it

    HomePage.tsx keeps three pieces of state, [currentView],
    [selectedGroupedFacility] and [selectedCategory] (lines 20-22), over
    App's facility list and user, which it receives as props.  [home_step]
    is the page's event handling over a [Session] holding both: the bottom
    navigation (lines 63-97), a click on one of MapView's markers
    ([handleGroupedFacilityClick], lines 29-31), the category buttons,
    and the events of the sheet it opens (lines 102-112): closing it, its
    hearts (App's [onToggleFavorite]), and a click on a facility
    ([handleFacilityClick], lines 25-27), which navigates.  [home_render]
    is what the page shows (lines 33-113).

    The sheet receives the group object stored when the marker was
    clicked; nothing recomputes it from the facility list afterwards.
*)

From Stdlib Require Import String ZArith QArith.
From stdpp Require Import base list sets strings.
From S2P Require Import Prelude Facility FloorKey Favorites Grouping DetailSheet MapView.

Local Open Scope campus_scope.

Inductive View := ViewMap | ViewFavorites | ViewSettings.

#[export] Instance View_eq_dec : EqDecision View.
Proof. solve_decision. Defined.

Record Home := mkHome {
  currentView : View;
  selectedGroupedFacility : option GroupedFacility.t;
  selectedCategory : string
}.

(** App's state as HomePage sees it, the open sheet's [openFloors], and
    the browser location. *)
Record Session := mkSession {
  facilities : list Facility.t;
  currentUser : option User;
  home : Home;
  openFloors : list string;
  location : string
}.

Definition home_init : Home := mkHome ViewMap None "all".

Inductive HomeEvent :=
| SetView (v : View)                  (* the bottom navigation *)
| MarkerClick (i : nat)               (* the i-th marker of the map *)
| CategoryChange (c : string)         (* [onCategoryChange={setSelectedCategory}] *)
| SheetClose                          (* [onClose] *)
| SheetFloorToggle (floor : string)   (* a floor header of the sheet *)
| SheetHeart                          (* the building's heart *)
| SheetFacilityHeart (id : Z)         (* a facility's heart in the sheet *)
| SheetFacilityClick (f : Facility.t)  (* a facility row of the sheet *)
| FavoriteClick (f : Facility.t)       (* an item of the favourites tab *)
| SettingsLogout.                     (* SettingsView's [handleLogout] *)

Definition set_home (s : Session) (h : Home) : Session :=
  mkSession (facilities s) (currentUser s) h (openFloors s) (location s).

Definition set_facilities (s : Session) (l : list Facility.t) : Session :=
  mkSession l (currentUser s) (home s) (openFloors s) (location s).

(** The sheet mounts with its initial [openFloors]. *)
Definition open_sheet (s : Session) (g : GroupedFacility.t) : Session :=
  let h := home s in
  mkSession (facilities s) (currentUser s) (mkHome (currentView h) (Some g) (selectedCategory h))
    (initial_openFloors (Some g)) (location s).

(** [navigate(`/facility/${facility.id}`)] *)
Definition facility_route (f : Facility.t) : string :=
  ("/facility/" ++ int_to_string (Facility.id f))%string.

Definition handleFacilityClick (s : Session) (f : Facility.t) : Session :=
  mkSession (facilities s) (currentUser s) (home s) (openFloors s) (facility_route f).

(** The groups the map shows (MapView's [groupedFacilities]). *)
Definition map_groups (s : Session) : list GroupedFacility.t :=
  groupedFacilities (facilities s) (selectedCategory (home s)).

(** The facility rows the sheet shows: those of its expanded floors. *)
Definition open_rows (g : GroupedFacility.t) (openFloors : list string) : list Facility.t :=
  concat ((λ fg, if str_includes openFloors (FloorGroup.floor fg) then FloorGroup.facilities fg else [])
            <$> GroupedFacility.floors g).

(** The sheet is modal: while it is open, the page behind it takes no
    clicks (a click outside the sheet closes it). *)
Definition sheet_closed (h : Home) : bool :=
  match selectedGroupedFacility h with Some _ => false | None => true end.

(** SettingsView's [handleLogout]: App's [onLogout] (the user becomes
    [null]), then [navigate('/map')]. *)
Definition handleLogout (s : Session) : Session :=
  mkSession (facilities s) None (home s) (openFloors s) "/map".

Definition home_step (s : Session) (e : HomeEvent) : Session :=
  let h := home s in
  match e with
  | SetView v =>
      if sheet_closed h then set_home s (mkHome v (selectedGroupedFacility h) (selectedCategory h))
      else s
  | MarkerClick i =>
      if sheet_closed h && bool_decide (currentView h = ViewMap) then
        match map_groups s !! i with
        | Some g => open_sheet s g
        | None => s
        end
      else s
  | CategoryChange c =>
      if sheet_closed h && bool_decide (currentView h = ViewMap)
      then set_home s (mkHome (currentView h) (selectedGroupedFacility h) c) else s
  | SheetClose => set_home s (mkHome (currentView h) None (selectedCategory h))
  | SheetFloorToggle fl =>
      match selectedGroupedFacility h with
      | Some g =>
          mkSession (facilities s) (currentUser s) h (toggleFloor fl (openFloors s)) (location s)
      | None => s
      end
  | SheetHeart =>
      match selectedGroupedFacility h with
      | Some g => set_facilities s (handleToggleFavoriteAll g (facilities s))
      | None => s
      end
  | SheetFacilityHeart i =>
      match selectedGroupedFacility h with
      | Some g =>
          if bool_decide (i ∈ Facility.id <$> open_rows g (openFloors s))
          then set_facilities s (toggleFavorite i (facilities s)) else s
      | None => s
      end
  | SheetFacilityClick f =>
      match selectedGroupedFacility h with
      | Some g =>
          if bool_decide (f ∈ open_rows g (openFloors s))
          then handleFacilityClick (set_home s (mkHome (currentView h) None (selectedCategory h))) f
          else s
      | None => s
      end
  | FavoriteClick f =>
      if sheet_closed h && bool_decide (currentView h = ViewFavorites) then
        match favorites_body (currentUser s) (facilities s) with
        | FavoriteItems fs => if bool_decide (f ∈ fs) then handleFacilityClick s f else s
        | _ => s
        end
      else s
  | SettingsLogout =>
      if sheet_closed h && bool_decide (currentView h = ViewSettings) && bool_decide (currentUser s ≠ None)
      then handleLogout s else s
  end.

Definition home_run (s : Session) (es : list HomeEvent) : Session := fold_left home_step es s.

(** What the main area shows. *)
Inductive Screen :=
| MapScreen (groups : list GroupedFacility.t)
| FavoritesScreen (header : string) (body : FavoritesBody)
| SettingsScreen (loggedIn : bool).

(** [home_render]: the main area, which of the three tabs is highlighted,
    and the sheet (rendered only with a selected building). *)
Definition home_render (s : Session) : Screen * list bool * Sheet :=
  let h := home s in
  let screen :=
    match currentView h with
    | ViewMap => MapScreen (map_groups s)
    | ViewFavorites => FavoritesScreen (favorites_header (currentUser s) (facilities s))
                         (favorites_body (currentUser s) (facilities s))
    | ViewSettings => SettingsScreen (bool_decide (currentUser s ≠ None))
    end in
  let tabs := (λ v, bool_decide (currentView h = v)) <$> [ViewMap; ViewFavorites; ViewSettings] in
  let sheet :=
    match selectedGroupedFacility h with
    | Some g => FacilityDetailSheet None (Some g) (openFloors s) false 0 0
    | None => NoSheet
    end in
  (screen, tabs, sheet).

(** The sessions the page can reach from its initial state. *)
Inductive home_reachable : Session → Prop :=
| hr_init l u loc : home_reachable (mkSession l u home_init [] loc)
| hr_step s e : home_reachable s → home_reachable (home_step s e).

(** Every facility of the open sheet has the id of a facility of App's
    list. *)
Definition sheet_ids_inv (s : Session) : Prop :=
  ∀ g, selectedGroupedFacility (home s) = Some g →
    ∀ f, f ∈ allFacilities g → Facility.id f ∈ Facility.id <$> facilities s.

(** The hearts of the facility rows the sheet shows. *)
Definition sheet_hearts (sh : Sheet) : list bool :=
  match sh with
  | GroupedView v => it_heart <$> concat (sec_items <$> gs_sections v)
  | _ => []
  end.

(** ** Lemmas *)

Lemma ids_toggleFavorite i l : Facility.id <$> toggleFavorite i l = Facility.id <$> l.
Proof.
  unfold toggleFavorite. rewrite <-list_fmap_compose. apply list_fmap_ext. intros. apply toggle_one_id.
Qed.

Lemma ids_toggle_all g l : Facility.id <$> handleToggleFavoriteAll g l = Facility.id <$> l.
Proof.
  unfold handleToggleFavoriteAll. generalize (allFacilities g). intros fs.
  induction fs as [|x fs IH] in l |- *; [done|]. simpl. by rewrite IH, ids_toggleFavorite.
Qed.

Lemma allFacilities_elem l g f : g ∈ groupFacilitiesByBuilding l → f ∈ allFacilities g → f ∈ l.
Proof.
  intros Hg Hf. unfold allFacilities in Hf. rewrite (group_facilities_perm _ _ Hg) in Hf.
  by apply elem_filter in Hf as [? _].
Qed.

Lemma filtered_elem l s f : f ∈ filteredFacilities l s → f ∈ l.
Proof. unfold filteredFacilities. case_str; [done|]. by intros [? _]%elem_filter. Qed.

Lemma open_rows_elem g o f : f ∈ open_rows g o → f ∈ allFacilities g.
Proof.
  unfold open_rows, allFacilities. rewrite !list_elem_of_In, !in_concat.
  intros (fs & (fg & <- & Hfg)%in_map_iff & Hf). exists (FloorGroup.facilities fg). split.
  - apply in_map_iff. by exists fg.
  - by destruct (str_includes _ _).
Qed.

Lemma sheet_ids_inv_mono s s' :
  selectedGroupedFacility (home s') = None ∨
    selectedGroupedFacility (home s') = selectedGroupedFacility (home s) →
  Facility.id <$> facilities s' = Facility.id <$> facilities s →
  sheet_ids_inv s → sheet_ids_inv s'.
Proof.
  intros Hsel Hids Hinv g Hg x Hx. rewrite Hids. destruct Hsel as [Hn|He]; [congruence|].
  rewrite He in Hg. exact (Hinv g Hg x Hx).
Qed.

Lemma sheet_ids_inv_step s e : sheet_ids_inv s → sheet_ids_inv (home_step s e).
Proof.
  intros Hinv. destruct e; simpl; repeat case_match;
    try (eapply sheet_ids_inv_mono;
         [simpl; by auto|simpl; by rewrite ?ids_toggle_all, ?ids_toggleFavorite|exact Hinv]).
  intros g' Hg x Hx. simpl in Hg. simplify_eq. apply list_elem_of_fmap_2.
  assert (Hg' : g' ∈ groupFacilitiesByBuilding
                  (filteredFacilities (facilities s) (selectedCategory (home s))))
    by (eapply list_elem_of_lookup_2; eassumption).
  apply filtered_elem with (s := selectedCategory (home s)). by eapply allFacilities_elem.
Qed.

Lemma reachable_sheet_ids s : home_reachable s → sheet_ids_inv s.
Proof.
  induction 1 as [l u loc|s e _ IH]; [by intros g Hg|]. by apply sheet_ids_inv_step.
Qed.

(** ** Properties *)

(** C17. A heart pressed in the building sheet changes App's facility list
    but not the sheet: it keeps the group object stored at the marker
    click, and renders exactly as before, so the hearts it shows are those
    of the moment it was opened. *)
Theorem home_sheet_stale (s : Session) (g : GroupedFacility.t) (e : HomeEvent) :
  selectedGroupedFacility (home s) = Some g →
  (e = SheetHeart ∨ ∃ i, e = SheetFacilityHeart i) →
  selectedGroupedFacility (home (home_step s e)) = Some g ∧
  snd (home_render (home_step s e)) = snd (home_render s) ∧
  (e = SheetHeart → facilities (home_step s e) = handleToggleFavoriteAll g (facilities s)).
Proof.
  intros Hg [->|[i ->]]; simpl; rewrite Hg; [|destruct (bool_decide _)];
    unfold set_facilities; simpl; rewrite ?Hg; split_and!; (done || discriminate).
Qed.

(** On the map tab with no sheet open, a click on the [i]-th marker
    opens the sheet on the [i]-th group of the category's facilities, a
    group of the current list, with its lowest floor expanded. *)
Theorem home_marker_click (s : Session) (i : nat) (g : GroupedFacility.t) :
  sheet_closed (home s) = true → currentView (home s) = ViewMap →
  map_groups s !! i = Some g →
  selectedGroupedFacility (home (home_step s (MarkerClick i))) = Some g ∧
  openFloors (home_step s (MarkerClick i)) = initial_openFloors (Some g) ∧
  facilities (home_step s (MarkerClick i)) = facilities s ∧
  g ∈ groupFacilitiesByBuilding (filteredFacilities (facilities s) (selectedCategory (home s))).
Proof.
  intros Hc Hv Hi. simpl. rewrite Hc, bool_decide_true by done. simpl. rewrite Hi.
  split_and!; try done. by eapply list_elem_of_lookup_2.
Qed.

(** C18. In every reachable state, a click on a facility row of the sheet
    closes the sheet and navigates to that facility's page, whose id is
    the id of a facility of App's current list, even after hearts were
    pressed in the sheet. *)
Theorem home_facility_click (s : Session) (g : GroupedFacility.t) (f : Facility.t) :
  home_reachable s →
  selectedGroupedFacility (home s) = Some g → f ∈ open_rows g (openFloors s) →
  location (home_step s (SheetFacilityClick f)) = facility_route f ∧
  selectedGroupedFacility (home (home_step s (SheetFacilityClick f))) = None ∧
  Facility.id f ∈ Facility.id <$> facilities (home_step s (SheetFacilityClick f)).
Proof.
  intros Hr Hg Hf. simpl. rewrite Hg, bool_decide_true by done. simpl. split_and!; [done|done|].
  eapply (reachable_sheet_ids s Hr g Hg). by eapply open_rows_elem.
Qed.

(** ** Witnesses on the sample data of [Grouping] *)

Definition sample_session : Session := mkSession sample_facilities None home_init [] "/map".

(** The sheet of building "A", opened from the first marker. *)
Definition sample_sheet_session : Session := home_step sample_session (MarkerClick 0).

Lemma sample_sheet_selected :
  selectedGroupedFacility (home sample_sheet_session) = Some sample_groupA.
Proof. vm_compute. reflexivity. Qed.

Lemma home_sheet_stale_witness :
  selectedGroupedFacility (home sample_sheet_session) = Some sample_groupA ∧
  snd (home_render (home_step sample_sheet_session (SheetFacilityHeart 1))) =
    snd (home_render sample_sheet_session).
Proof.
  split; [exact sample_sheet_selected|].
  exact (proj1 (proj2 (home_sheet_stale _ _ (SheetFacilityHeart 1) sample_sheet_selected
                         (or_intror (ex_intro _ 1%Z eq_refl))))).
Defined.

(** After the heart of facility 1 (on the expanded floor 지하1층) is
    pressed, App's list has it favourite while the open sheet still shows
    its heart empty. *)
Example home_sheet_heart_stale :
  (λ f, truthy (Facility.isFavorite f)) <$>
    facilities (home_step sample_sheet_session (SheetFacilityHeart 1)) = [true; true; false; false] ∧
  sheet_hearts (snd (home_render (home_step sample_sheet_session (SheetFacilityHeart 1)))) = [false].
Proof. split; vm_compute; reflexivity. Qed.

Lemma home_marker_click_witness :
  sheet_closed (home sample_session) = true ∧ currentView (home sample_session) = ViewMap ∧
  map_groups sample_session !! 0 = Some sample_groupA ∧
  openFloors (home_step sample_session (MarkerClick 0)) = ["지하1층"]%string.
Proof.
  assert (H1 : sheet_closed (home sample_session) = true) by reflexivity.
  assert (H2 : currentView (home sample_session) = ViewMap) by reflexivity.
  assert (H3 : map_groups sample_session !! 0 = Some sample_groupA) by (vm_compute; reflexivity).
  split_and!; [exact H1|exact H2|exact H3|].
  rewrite (proj1 (proj2 (home_marker_click _ _ _ H1 H2 H3))). reflexivity.
Defined.

Lemma home_facility_click_witness :
  home_reachable sample_sheet_session ∧
  location (home_step sample_sheet_session (SheetFacilityClick (fac 1 "A" "지하1층" cafe None))) =
    "/facility/1"%string.
Proof.
  assert (Hr : home_reachable sample_sheet_session) by (apply hr_step, hr_init).
  assert (Hf : fac 1 "A" "지하1층" cafe None ∈ open_rows sample_groupA (openFloors sample_sheet_session))
    by (apply (bool_decide_eq_true_1 (_ ∈ _)); vm_compute; reflexivity).
  split; [exact Hr|].
  rewrite (proj1 (home_facility_click _ _ _ Hr sample_sheet_selected Hf)). reflexivity.
Defined.
