(* ===== verification/Settings.v ===== *)
(** * Settings: SettingsView.tsx inside the home page

    SettingsView keeps three switches in [useState] (lines 28-30).
    HomePage renders it only while the settings tab is selected
    ([{currentView === 'settings' && <SettingsView .../>}], HomePage.tsx
    lines 52-57).  Leaving the tab unmounts the component, and React
    discards its state; coming back mounts it again with the initial
    values.

    [Shell] pairs HomePage's [Session] with the settings state of the
    mounted view ([None] when it is not mounted); [shell_step] runs
    HomePage's [home_step] or one of the view's handlers
    ([settings_step]) and mounts or unmounts the view as the tab changes.
    [settings_view] is what the view renders (lines 37-205).
*)

From Stdlib Require Import String ZArith.
From stdpp Require Import base list sets strings.
From S2P Require Import Prelude Facility HomePage.

Local Open Scope campus_scope.
Local Open Scope string_scope.

(** [darkMode], [notifications], [locationTracking] *)
Record Settings := mkSettings { darkMode : bool; notifications : bool; locationTracking : bool }.

Definition settings_init : Settings := mkSettings false true true.

Inductive SettingsEvent :=
| SetDarkMode (b : bool)           (* [onCheckedChange={setDarkMode}] *)
| SetNotifications (b : bool)      (* [onCheckedChange={setNotifications}] *)
| SetLocationTracking (b : bool)   (* [onCheckedChange={setLocationTracking}] *)
| HomeButton                       (* [navigate('/')] *)
| LoginButton                      (* [navigate('/login')], shown without a user *)
| LogoutButton                     (* [handleLogout], shown with a user *)
| AppInfo                          (* the "앱 정보" button, without [onClick] *)
| PrivacyPolicy.                   (* the "개인정보 처리방침" button, without [onClick] *)

(** [navigate(route)] *)
Definition navigate (s : Session) (route : string) : Session :=
  mkSession (facilities s) (currentUser s) (home s) (openFloors s) route.

(** The view's handlers.  The account card shows the log-out button
    only with a user and the log-in button only without one; the log-out
    click is HomePage's [SettingsLogout]. *)
Definition settings_step (s : Session) (st : Settings) (e : SettingsEvent) : Session * Settings :=
  match e with
  | SetDarkMode b => (s, mkSettings b (notifications st) (locationTracking st))
  | SetNotifications b => (s, mkSettings (darkMode st) b (locationTracking st))
  | SetLocationTracking b => (s, mkSettings (darkMode st) (notifications st) b)
  | HomeButton => (navigate s "/", st)
  | LoginButton => match currentUser s with None => (navigate s "/login", st) | Some _ => (s, st) end
  | LogoutButton => (home_step s SettingsLogout, st)
  | AppInfo | PrivacyPolicy => (s, st)
  end.

(** The account card: the user's name and e-mail, or the log-in prompt. *)
Inductive Account := SignedIn (name email : string) | SignedOut.

Record SettingsScreen := mkSettingsScreen {
  account : Account;
  switches : list (string * bool);
  menu : list string;
  version : string
}.

Definition settings_view (currentUser : option User) (st : Settings) : SettingsScreen :=
  mkSettingsScreen
    (match currentUser with
     | Some u => SignedIn (user_name u) (user_email u)
     | None => SignedOut
     end)
    [("다크모드", darkMode st); ("푸시 알림", notifications st); ("위치 추적", locationTracking st)]
    ["앱 정보"; "개인정보 처리방침"]
    "Version 1.0.0".

(** HomePage with the state of its mounted settings view. *)
Record Shell := mkShell { session : Session; settings : option Settings }.

Inductive ShellEvent :=
| OnHome (e : HomeEvent)
| OnSettings (e : SettingsEvent).

(** The settings view after a render of HomePage: kept while the tab
    stays selected, mounted fresh when it becomes selected, discarded
    otherwise. *)
Definition mounted_settings (s : Session) (prev : option Settings) : option Settings :=
  match currentView (home s) with
  | ViewSettings => match prev with Some st => Some st | None => Some settings_init end
  | _ => None
  end.

(** A click inside the settings view reaches it only while it is mounted
    and no sheet covers the page. *)
Definition shell_step (sh : Shell) (e : ShellEvent) : Shell :=
  match e with
  | OnHome e =>
      let s' := home_step (session sh) e in mkShell s' (mounted_settings s' (settings sh))
  | OnSettings e =>
      match settings sh with
      | Some st =>
          if sheet_closed (home (session sh)) then
            let (s', st') := settings_step (session sh) st e in
            mkShell s' (mounted_settings s' (Some st'))
          else sh
      | None => sh
      end
  end.

Definition shell_run (sh : Shell) (es : list ShellEvent) : Shell := fold_left shell_step es sh.

Definition shell_init (l : list Facility.t) (u : option User) (loc : string) : Shell :=
  mkShell (mkSession l u home_init [] loc) None.

Inductive shell_reachable : Shell → Prop :=
| sr_init l u loc : shell_reachable (shell_init l u loc)
| sr_step sh e : shell_reachable sh → shell_reachable (shell_step sh e).

(** ** Lemmas *)

(** The settings view is mounted exactly while its tab is selected. *)
Definition mount_inv (sh : Shell) : Prop :=
  settings sh ≠ None ↔ currentView (home (session sh)) = ViewSettings.

Lemma mounted_settings_inv s prev : mount_inv (mkShell s (mounted_settings s prev)).
Proof.
  unfold mount_inv, mounted_settings. simpl.
  destruct (currentView (home s)), prev; naive_solver.
Qed.

Lemma mount_inv_step sh e : mount_inv sh → mount_inv (shell_step sh e).
Proof.
  intros Hinv. destruct e as [e|e]; simpl; [apply mounted_settings_inv|].
  destruct (settings sh) as [st|]; [|done]. destruct (sheet_closed _); [|done].
  destruct (settings_step _ _ _). apply mounted_settings_inv.
Qed.

Lemma shell_reachable_mount sh : shell_reachable sh → mount_inv sh.
Proof.
  induction 1 as [l u loc|sh e _ IH]; [|by apply mount_inv_step].
  unfold mount_inv. simpl. naive_solver.
Qed.

(** A tab change with no sheet open only changes the tab. *)
Lemma home_step_SetView s v :
  sheet_closed (home s) = true →
  home_step s (SetView v) = set_home s (mkHome v (selectedGroupedFacility (home s)) (selectedCategory (home s))).
Proof. intros Hc. simpl. by rewrite Hc. Qed.

Lemma set_home_id s : set_home s (home s) = s.
Proof. by destruct s as [? ? [] ? ?]. Qed.

(** ** Properties *)

(** C27. The settings switches do not survive a visit to another tab:
    from the settings tab with no sheet open, going to the map and back
    gives the same session and the switches' initial values, whatever
    they were (dark mode off, notifications and location tracking on). *)
Theorem settings_forgotten (sh : Shell) (st : Settings) :
  settings sh = Some st → sheet_closed (home (session sh)) = true →
  currentView (home (session sh)) = ViewSettings →
  shell_run sh [OnHome (SetView ViewMap); OnHome (SetView ViewSettings)] =
    mkShell (session sh) (Some settings_init).
Proof.
  destruct sh as [[l u [v sel cat] fl loc] set]. simpl. intros -> Hc ->.
  destruct sel; [discriminate|]. reflexivity.
Qed.

(** Logging out from the settings view: the account card, which
    showed the user's name and e-mail, shows the log-in prompt; App's
    user is [null], the browser is at [/map], the switches keep their
    values and the facility list is unchanged. *)
Theorem settings_logout (sh : Shell) (st : Settings) (u : User) :
  shell_reachable sh → settings sh = Some st → sheet_closed (home (session sh)) = true →
  currentUser (session sh) = Some u →
  account (settings_view (currentUser (session sh)) st) = SignedIn (user_name u) (user_email u) ∧
  currentUser (session (shell_step sh (OnSettings LogoutButton))) = None ∧
  location (session (shell_step sh (OnSettings LogoutButton))) = "/map" ∧
  settings (shell_step sh (OnSettings LogoutButton)) = Some st ∧
  account (settings_view (currentUser (session (shell_step sh (OnSettings LogoutButton)))) st) = SignedOut ∧
  facilities (session (shell_step sh (OnSettings LogoutButton))) = facilities (session sh).
Proof.
  intros Hr Hs Hc Hu. pose proof (proj1 (shell_reachable_mount sh Hr)) as Hv.
  rewrite Hs in Hv. specialize (Hv ltac:(done)).
  destruct sh as [[l u' [v sel cat] fl loc] set]. simpl in *. subst.
  destruct sel; [discriminate|]. repeat split.
Qed.

(** ** Witnesses and examples *)

Definition sample_user : User := mkUser "홍길동" "hong@example.com".

(** Signed in, on the settings tab, with dark mode switched on. *)
Definition sample_dark_shell : Shell :=
  shell_run (shell_init [] (Some sample_user) "/map")
    [OnHome (SetView ViewSettings); OnSettings (SetDarkMode true)].

Lemma settings_forgotten_witness :
  settings sample_dark_shell = Some (mkSettings true true true) ∧
  shell_run sample_dark_shell [OnHome (SetView ViewMap); OnHome (SetView ViewSettings)] =
    mkShell (session sample_dark_shell) (Some settings_init).
Proof.
  assert (Hs : settings sample_dark_shell = Some (mkSettings true true true)) by reflexivity.
  split; [exact Hs|]. apply (settings_forgotten _ _ Hs); reflexivity.
Defined.

Lemma settings_logout_witness :
  currentUser (session (shell_step sample_dark_shell (OnSettings LogoutButton))) = None ∧
  location (session (shell_step sample_dark_shell (OnSettings LogoutButton))) = "/map".
Proof.
  assert (Hr : shell_reachable sample_dark_shell) by (repeat constructor).
  destruct (settings_logout sample_dark_shell (mkSettings true true true) sample_user Hr
              eq_refl eq_refl eq_refl) as (_ & H1 & H2 & _).
  split; [exact H1|exact H2].
Defined.

(** The switches act on nothing outside the view: turning location
    tracking off leaves the session, and so the map and its
    current-location button, as they were. *)
Example location_switch_inert :
  session (shell_step sample_dark_shell (OnSettings (SetLocationTracking false))) =
  session sample_dark_shell.
Proof. reflexivity. Qed.

(** The two information buttons have no handler. *)
Example info_buttons_inert :
  shell_step sample_dark_shell (OnSettings AppInfo) = sample_dark_shell ∧
  shell_step sample_dark_shell (OnSettings PrivacyPolicy) = sample_dark_shell.
Proof. split; reflexivity. Qed.
