(* ===== verification/DetailPage.v ===== *)
(** * DetailPage: the facility page of FacilityDetailPage.tsx

    The page at [/facility/:id] looks the facility up by [Number(id)]
    (lines 47-56) and shows its details beside a list of all buildings
    (lines 236-325), built with plain JavaScript objects used as maps:
    [groupedByBuilding] (lines 61-67) by [reduce] into [{}], then for
    each building an object of facilities by name (lines 78-100), and
    the sorted building names (line 102).

    Plain objects are not [Map]s, and the model keeps the two differences
    that matter here:
    - [acc[key]] on a key the object does not own reads the prototype
      chain: for the names of [Object.prototype]'s properties
      ([proto_keys]) [!acc[key]] is false, the array is never created, and
      [acc[key].push(fac)] throws a [TypeError];
    - [Object.keys] and [Object.entries] list the integer-like keys
      ([is_array_index]) first, in numeric order, then the other keys in
      insertion order ([object_keys]).
    Objects are association lists in insertion order ([map_get],
    [map_set] of [Prelude]); code that may throw returns a [js_result].
    [.sort()] on strings compares UTF-16 code units; the model compares
    the UTF-8 bytes, which orders every string the same way unless it
    holds characters beyond U+FFFF.

    [Number(id)] is a parameter ([Number]): the model only needs that it
    reads back the decimal numeral of an integer, which ECMAScript's
    StringToNumber guarantees.
*)

From Stdlib Require Import String Ascii ZArith QArith Sorting.
From stdpp Require Import base list sets strings.
From S2P Require Import Prelude StableSort Facility FloorKey Grouping DetailSheet HomePage.

Local Open Scope campus_scope.
Local Open Scope string_scope.

(** The properties every object inherits from [Object.prototype]. *)
Definition proto_keys : list string :=
  ["constructor"; "__defineGetter__"; "__defineSetter__"; "hasOwnProperty";
   "__lookupGetter__"; "__lookupSetter__"; "isPrototypeOf"; "propertyIsEnumerable";
   "toString"; "valueOf"; "__proto__"; "toLocaleString"].

(** [if (!acc[key]) { acc[key] = []; } acc[key].push(v);] *)
Definition push_key {V} (key : string) (v : V) (acc : list (string * list V))
    : js_result (list (string * list V)) :=
  match map_get key acc with
  | Some arr => JsOk (map_set key (arr ++ [v])%list acc)
  | None =>
      if str_includes proto_keys key
      then JsThrow "TypeError: acc[key].push is not a function"
      else JsOk (map_set key [v] acc)
  end.

(** A canonical array index: ["0"], or digits without a leading zero,
    below 2^32 - 1. *)
Definition is_array_index (s : string) : bool :=
  match s with
  | EmptyString => false
  | String c _ =>
      all_digits s && (negb (Ascii.eqb c "0") || (s === "0"))
      && (parseInt s <? 4294967295)%Z
  end.

(** [Object.keys(o)] *)
Definition object_keys {V} (o : list (string * V)) : list string :=
  let ks := fst <$> o in
  (sort_by parseInt (List.filter is_array_index ks) ++ List.filter (λ k, negb (is_array_index k)) ks)%list.

(** [Object.entries(o)] *)
Definition object_entries {V} (o : list (string * V)) : list (string * V) :=
  omap (λ k, (λ v, (k, v)) <$> map_get k o) (object_keys o).

(** [facilities.reduce(...)] of lines 61-67. *)
Definition groupedByBuilding (facilities : list Facility.t)
    : js_result (list (string * list Facility.t)) :=
  foldM_js (λ acc fac, push_key (Facility.building fac) fac acc) facilities [].

(** [GroupedFacilityItem] (lines 70-76). *)
Record GroupedFacilityItem := mkGroupedFacilityItem {
  item_name : string;
  item_floors : list string;
  facilityIds : list Z;
  firstFacilityId : Z;
  isCurrentFacility : bool
}.

Definition first_id (facs : list Facility.t) : Z :=
  match facs with f :: _ => Facility.id f | [] => 0 end.

(** The map of lines 93-99 over one entry of [nameGroups]. *)
Definition item_of (current : Facility.t) (e : string * list Facility.t) : GroupedFacilityItem :=
  let '(name, facs) := e in
  mkGroupedFacilityItem name (Facility.floor <$> facs) (Facility.id <$> facs) (first_id facs)
    (existsb (λ f, (Facility.id f =? Facility.id current)%Z) facs).

(** The items of one building (lines 81-99). *)
Definition building_items (current : Facility.t) (buildingFacilities : list Facility.t)
    : js_result (list GroupedFacilityItem) :=
  nameGroups ← foldM_js (λ acc fac, push_key (Facility.name fac) fac acc) buildingFacilities [];
  mret (item_of current <$> object_entries nameGroups).

(** [groupedByBuildingAndName] (lines 78-100). *)
Definition groupedByBuildingAndName (current : Facility.t) (byBuilding : list (string * list Facility.t))
    : js_result (list (string * list GroupedFacilityItem)) :=
  foldM_js (λ acc building,
      items ← building_items current (default [] (map_get building byBuilding));
      mret (map_set building items acc))
    (object_keys byBuilding) [].

(** [.sort()] on strings: insertion sort by [String.leb]. *)
Fixpoint insert_str (x : string) (l : list string) : list string :=
  match l with
  | [] => [x]
  | y :: l' => if String.leb x y then x :: y :: l' else y :: insert_str x l'
  end.

Definition sort_str (l : list string) : list string := fold_right insert_str [] l.

(** [toggleBuilding] (lines 104-110). *)
Definition toggleBuilding (building : string) (prev : list string) : list string :=
  if str_includes prev building then List.filter (λ b, negb (b === building)) prev
  else (prev ++ [building])%list.

(** [array.join(sep)] *)
Fixpoint join_with (sep : string) (l : list string) : string :=
  match l with
  | [] => ""
  | [x] => x
  | x :: l' => x ++ sep ++ join_with sep l'
  end.

(** The page's state (lines 43-45). *)
Record PageState := mkPage {
  facility : option Facility.t;
  expandedBuildings : list string;
  activeTab : string
}.

Definition page_init : PageState := mkPage None [] "details".

(** The details column (lines 144-233). *)
Record Details := mkDetails {
  dt_name : string;
  dt_label : string;
  dt_image : option string;
  dt_intro : string;
  dt_location : string;
  dt_hours : string;
  dt_contact : option string
}.

Definition default_intro : string :=
  "이 시설에 대한 상세 정보를 입력할 수 있습니다. 운영 시간, 이용 방법, 특징 등을 자세히 설명해주세요.".

(** The page's own [categoryLabels] (lines 26-36), a copy of the sheet's
    table. *)
Definition page_categoryLabels (c : Category) : string :=
  match c with
  | cafe => "카페" | restaurant => "식당" | library => "도서관" | atm => "ATM"
  | convenience => "편의점" | medical => "의무실" | gym => "체육관" | lounge => "휴게실"
  | transport => "통학버스"
  end.

Definition details_of (f : Facility.t) : Details :=
  mkDetails (Facility.name f) (page_categoryLabels (Facility.category f)) (shown (Facility.image f))
    (if str_truthy (Facility.description f) then or_empty (Facility.description f) else default_intro)
    (Facility.building f ++ " " ++ Facility.floor f) (Facility.hours f) (shown (Facility.contact f)).

(** One facility button of an expanded building (lines 273-316). *)
Record Row := mkRow {
  row_name : string;
  row_floors : string;
  row_current : bool;
  row_image : option string;
  row_target : string
}.

Definition row_of (facilities : list Facility.t) (group : GroupedFacilityItem) : Row :=
  let firstFacility := List.find (λ f, (Facility.id f =? firstFacilityId group)%Z) facilities in
  mkRow (item_name group) (join_with ", " (item_floors group)) (isCurrentFacility group)
    (match firstFacility with Some f => shown (Facility.image f) | None => None end)
    ("/facility/" ++ int_to_string (firstFacilityId group)).

(** One building of the list (lines 245-322): its header with the number
    of items, and its rows when expanded. *)
Record BuildingEntry := mkEntry {
  entry_building : string;
  entry_count : string;
  entry_expanded : bool;
  entry_rows : list Row
}.

Definition building_entry (facilities : list Facility.t) (expanded : list string)
    (byName : list (string * list GroupedFacilityItem)) (building : string) : BuildingEntry :=
  let items := default [] (map_get building byName) in
  let open_ := str_includes expanded building in
  mkEntry building (int_to_string (Z.of_nat (length items)) ++ "개") open_
    (if open_ then row_of facilities <$> items else []).

(** What the page renders: nothing before the lookup (line 58), else its
    details and its building list; building the list may throw. *)
Definition page_view (facilities : list Facility.t) (st : PageState)
    : js_result (option (Details * list BuildingEntry)) :=
  match facility st with
  | None => JsOk None
  | Some f =>
      byBuilding ← groupedByBuilding facilities;
      byName ← groupedByBuildingAndName f byBuilding;
      let buildingNames := sort_str (object_keys byName) in
      mret (Some (details_of f, building_entry facilities (expandedBuildings st) byName <$> buildingNames))
  end.

Section Lookup.
(** [Number(s)] as an integer; [None] for [NaN] and non-integers, which
    equal no facility id. *)
Variable Number : string → option Z.

(** The lookup effect (lines 47-56): the facility and its building
    expanded, or [navigate('/')] when no facility has the id. *)
Definition lookup_effect (facilities : list Facility.t) (id : string) (st : PageState)
    : PageState * option string :=
  match List.find (λ f, match Number id with Some n => (Facility.id f =? n)%Z | None => false end)
          facilities with
  | Some found => (mkPage (Some found) [Facility.building found] (activeTab st), None)
  | None => (st, Some "/")
  end.
End Lookup.

(** The [:id] parameter of the route [/facility/:id] (App.tsx). *)
Definition facility_param (loc : string) : option string :=
  if String.prefix "/facility/" loc
  then Some (substring 10 (String.length loc - 10) loc) else None.

(** A function with the one property the model needs of [Number]: it
    reads back the numerals [int_to_string] prints. *)
Definition decimal_reader (s : string) : option Z :=
  match s with
  | EmptyString => None
  | String c r =>
      if Ascii.eqb c "-" then (if all_digits r && negb (r === "") then Some (- parseInt r)%Z else None)
      else if all_digits s then Some (parseInt s) else None
  end.

(** ** Building an object of arrays by a key *)

Section PushGroup.
Context {V : Type} (key : V → string).

(** [push_key] when it does not throw. *)
Definition push_ok (acc : list (string * list V)) (v : V) : list (string * list V) :=
  match map_get (key v) acc with
  | Some arr => map_set (key v) (arr ++ [v])%list acc
  | None => map_set (key v) [v] acc
  end.

(** The object holding, for each key in order of first occurrence, the
    elements with that key in input order. *)
Definition grouped_by (l : list V) : list (string * list V) :=
  keyed key (same_key key l) (uniq_by key l).

Definition no_proto_keys (acc : list (string * list V)) : Prop :=
  ∀ k, k ∈ fst <$> acc → str_includes proto_keys k = false.

Lemma push_ok_spec l x : push_ok (grouped_by l) x = grouped_by (l ++ [x]).
Proof.
  unfold push_ok, grouped_by. rewrite uniq_by_snoc.
  pose proof (uniq_by_keys_NoDup key l) as Hnd.
  pose proof (keyed_keys key (same_key key l) (uniq_by key l)) as Hk.
  destruct (decide (key x ∈ key <$> l)) as [Hin|Hnin].
  - rewrite bool_decide_true, app_nil_r by done.
    apply elem_uniq_keys, list_elem_of_fmap in Hin as (r0 & Hb0 & Hr0).
    rewrite Hb0, map_get_keyed, map_set_keyed by done.
    unfold keyed. apply list_fmap_ext_in. intros r Hr. f_equal. unfold same_key. rewrite filter_snoc.
    case_decide as Hbr; [by rewrite Hbr, Hb0, String.eqb_refl|].
    destruct (String.eqb_spec (key x) (key r)); [congruence|]. by rewrite app_nil_r.
  - rewrite bool_decide_false by done.
    assert (Hnk : key x ∉ fst <$> keyed key (same_key key l) (uniq_by key l))
      by (by rewrite Hk, elem_uniq_keys).
    rewrite (proj2 (map_get_None_not_elem _ _) Hnk), map_set_new by done.
    unfold keyed. rewrite fmap_app. f_equal.
    + apply list_fmap_ext_in. intros r Hr. f_equal. unfold same_key. rewrite filter_snoc.
      destruct (String.eqb_spec (key x) (key r)) as [Heq|]; [|by rewrite app_nil_r].
      exfalso. apply Hnin. rewrite Heq. apply list_elem_of_fmap_2. by eapply uniq_by_elem.
    + simpl. f_equal. f_equal. unfold same_key. rewrite filter_snoc, String.eqb_refl.
      rewrite filter_all_false; [done|]. intros y Hy. destruct (String.eqb_spec (key y) (key x)) as [Heq|];
        [|done]. exfalso. apply Hnin. rewrite <-Heq. by apply list_elem_of_fmap_2.
Qed.

Lemma fold_push_ok l : fold_left push_ok l [] = grouped_by l.
Proof.
  induction l as [|x l IH] using rev_ind; [done|].
  rewrite fold_left_app, IH. apply push_ok_spec.
Qed.

Lemma push_key_ok acc x :
  str_includes proto_keys (key x) = false → push_key (key x) x acc = JsOk (push_ok acc x).
Proof. unfold push_key, push_ok. intros Hp. by destruct (map_get _ _); [|rewrite Hp]. Qed.

Lemma push_key_throw acc x :
  no_proto_keys acc → is_throw (push_key (key x) x acc) = str_includes proto_keys (key x).
Proof.
  unfold push_key. intros Hacc. destruct (map_get (key x) acc) eqn:E.
  - symmetry. apply Hacc. by eapply map_get_Some_elem.
  - by destruct (str_includes proto_keys (key x)).
Qed.

Lemma push_key_keeps acc x acc' :
  no_proto_keys acc → push_key (key x) x acc = JsOk acc' → no_proto_keys acc'.
Proof.
  unfold push_key. intros Hacc Hpush k Hk. destruct (map_get (key x) acc) eqn:E.
  - injection Hpush as <-. rewrite map_set_keys, bool_decide_true in Hk by (by eapply map_get_Some_elem).
    by apply Hacc.
  - destruct (str_includes proto_keys (key x)) eqn:Ep; [discriminate|]. injection Hpush as <-.
    rewrite map_set_keys in Hk. destruct (bool_decide _); [by apply Hacc|].
    apply elem_of_app in Hk as [Hk| ->%list_elem_of_singleton]; [by apply Hacc|done].
Qed.

(** Building the object throws exactly when a key is the name of a
    property of [Object.prototype]; otherwise it is [grouped_by]. *)
Lemma foldM_push l :
  is_throw (foldM_js (λ acc v, push_key (key v) v acc) l []) =
    existsb (λ v, str_includes proto_keys (key v)) l ∧
  (existsb (λ v, str_includes proto_keys (key v)) l = false →
   foldM_js (λ acc v, push_key (key v) v acc) l [] = JsOk (grouped_by l)).
Proof.
  split.
  - apply (foldM_js_throw no_proto_keys); [apply push_key_throw|apply push_key_keeps|].
    intros k Hk. simpl in Hk. set_solver.
  - intros Hno. rewrite <-fold_push_ok. apply foldM_js_ok. intros a x Hx. apply push_key_ok.
    destruct (str_includes proto_keys (key x)) eqn:E; [|done].
    exfalso. assert (existsb (λ v, str_includes proto_keys (key v)) l = true); [|congruence].
    apply existsb_exists. exists x. split; [by apply list_elem_of_In|done].
Qed.
End PushGroup.

(** ** Lemmas *)

Lemma filter_split_perm {A} (p : A → bool) (l : list A) :
  (List.filter p l ++ List.filter (λ x, negb (p x)) l)%list ≡ₚ l.
Proof.
  induction l as [|x l IH]; [done|]. simpl. destruct (p x); simpl; [by rewrite IH|].
  by rewrite <-Permutation_middle, IH.
Qed.

Lemma object_keys_perm {W} (o : list (string * W)) : object_keys o ≡ₚ fst <$> o.
Proof. unfold object_keys. rewrite sort_by_perm. apply filter_split_perm. Qed.

Lemma is_throw_bind {A B} (m : js_result A) (k : A → js_result B) :
  is_throw (m ≫= k) = match m with JsOk a => is_throw (k a) | JsThrow _ => true end.
Proof. by destruct m. Qed.

Lemma existsb_Permutation {A} (p : A → bool) (l1 l2 : list A) :
  l1 ≡ₚ l2 → existsb p l1 = existsb p l2.
Proof. induction 1; simpl; try congruence. by destruct (p x), (p y). Qed.

Lemma existsb_fmap {A B} (p : B → bool) (f : A → B) (l : list A) :
  existsb p (f <$> l) = existsb (λ x, p (f x)) l.
Proof. induction l as [|x l IH]; [done|]. csimpl. by rewrite IH. Qed.

Lemma existsb_ext_in {A} (p q : A → bool) (l : list A) :
  (∀ x, x ∈ l → p x = q x) → existsb p l = existsb q l.
Proof.
  induction l as [|x l IH]; intros Hpq; [done|]. simpl.
  rewrite Hpq, IH by set_solver. done.
Qed.

Lemma existsb_concat {A} (p : A → bool) (ls : list (list A)) :
  existsb p (concat ls) = existsb (existsb p) ls.
Proof. induction ls as [|l ls IH]; [done|]. simpl. by rewrite existsb_app, IH. Qed.

(** The group of each key of [grouped_by]. *)
Lemma map_get_grouped_by {V} (key : V → string) (l : list V) r :
  r ∈ uniq_by key l → map_get (key r) (grouped_by key l) = Some (same_key key l r).
Proof. intros Hr. apply map_get_keyed; [apply uniq_by_keys_NoDup|done]. Qed.

Lemma grouped_by_keys {V} (key : V → string) (l : list V) :
  fst <$> grouped_by key l = key <$> uniq_by key l.
Proof. apply keyed_keys. Qed.

(** A test over every group is a test over the elements. *)
Lemma existsb_grouped_by {V} (key : V → string) (p : V → bool) (l : list V) :
  existsb (λ b, existsb p (default [] (map_get b (grouped_by key l)))) (fst <$> grouped_by key l) =
    existsb p l.
Proof.
  rewrite grouped_by_keys, existsb_fmap.
  rewrite (existsb_ext_in _ (λ r, existsb p (same_key key l r)))
    by (intros r Hr; by rewrite map_get_grouped_by).
  rewrite <-existsb_fmap, <-existsb_concat. apply existsb_Permutation, concat_same_key_perm.
Qed.

(** Setting distinct keys one after the other builds them in order. *)
Lemma fold_map_set {W} (g : string → W) (ks : list string) :
  NoDup ks → fold_left (λ acc b, map_set b (g b) acc) ks [] = (λ b, (b, g b)) <$> ks.
Proof.
  induction ks as [|k ks IH] using rev_ind; intros Hnd; [done|].
  apply NoDup_app in Hnd as (Hnd & Hk & _). rewrite fold_left_app, IH by done. simpl.
  rewrite map_set_new, fmap_app; [done|]. rewrite <-list_fmap_compose, list_fmap_id.
  intros Hin. by apply (Hk k); [|set_solver].
Qed.

Lemma insert_str_perm x l : insert_str x l ≡ₚ x :: l.
Proof.
  induction l as [|y l IH]; simpl; [done|]. case_match; [done|].
  rewrite IH. apply perm_swap.
Qed.

Lemma sort_str_perm l : sort_str l ≡ₚ l.
Proof. induction l as [|x l IH]; [done|]. simpl. by rewrite insert_str_perm, IH. Qed.

Lemma leb_flip a b : String.leb a b = false → String.leb b a = true.
Proof. intros H. destruct (String.leb_total a b); congruence. Qed.

Lemma insert_str_sorted x l :
  Sorted (λ a b, String.leb a b = true) l → Sorted (λ a b, String.leb a b = true) (insert_str x l).
Proof.
  induction l as [|y l IH]; intros Hs; simpl; [repeat constructor|].
  case_match eqn:E; [constructor; [done|by constructor]|].
  apply Sorted_inv in Hs as [Hs Hhd]. constructor; [by apply IH|].
  destruct l as [|z l]; simpl; [constructor; by apply leb_flip|].
  case_match; constructor; [by apply leb_flip|by inversion Hhd].
Qed.

Lemma sort_str_sorted l : Sorted (λ a b, String.leb a b = true) (sort_str l).
Proof. induction l as [|x l IH]; simpl; [constructor|]. by apply insert_str_sorted. Qed.

Lemma existsb_orb {A} (p q : A → bool) (l : list A) :
  existsb (λ x, p x || q x) l = existsb p l || existsb q l.
Proof.
  induction l as [|x l IH]; [done|]. simpl. rewrite IH.
  by destruct (p x), (q x), (existsb p l), (existsb q l).
Qed.

Lemma is_throw_false {A} (m : js_result A) : is_throw m = false → ∃ a, m = JsOk a.
Proof. destruct m as [a|e]; [by exists a|discriminate]. Qed.

Definition name_proto (x : Facility.t) : bool := str_includes proto_keys (Facility.name x).
Definition building_proto (x : Facility.t) : bool := str_includes proto_keys (Facility.building x).

(** The items of a building when no name is a prototype property. *)
Definition items_of (current : Facility.t) (byBuilding : list (string * list Facility.t)) (b : string)
    : list GroupedFacilityItem :=
  item_of current <$> object_entries (grouped_by Facility.name (default [] (map_get b byBuilding))).

Lemma building_items_throw cur fs : is_throw (building_items cur fs) = existsb name_proto fs.
Proof. unfold building_items. rewrite is_throw_bind_ret. apply (foldM_push Facility.name). Qed.

Lemma building_items_ok cur fs :
  existsb name_proto fs = false →
  building_items cur fs = JsOk (item_of cur <$> object_entries (grouped_by Facility.name fs)).
Proof. intros H. unfold building_items. by rewrite (proj2 (foldM_push Facility.name fs) H). Qed.

Lemma byName_throw cur byB :
  is_throw (groupedByBuildingAndName cur byB) =
    existsb (λ b, existsb name_proto (default [] (map_get b byB))) (object_keys byB).
Proof.
  apply (foldM_js_throw (λ _, True)); [|done|done].
  intros acc b _. rewrite is_throw_bind_ret. apply building_items_throw.
Qed.

Lemma byName_ok cur byB :
  NoDup (object_keys byB) →
  existsb (λ b, existsb name_proto (default [] (map_get b byB))) (object_keys byB) = false →
  groupedByBuildingAndName cur byB = JsOk ((λ b, (b, items_of cur byB b)) <$> object_keys byB).
Proof.
  intros Hnd Hno. rewrite <-fold_map_set by done. apply foldM_js_ok. intros acc b Hb.
  rewrite building_items_ok; [reflexivity|].
  destruct (existsb name_proto (default [] (map_get b byB))) eqn:E; [|reflexivity].
  rewrite <-Hno. symmetry. apply existsb_exists. exists b. split; [by apply list_elem_of_In|exact E].
Qed.

Lemma grouped_by_object_keys_NoDup {V} (key : V → string) (l : list V) :
  NoDup (object_keys (grouped_by key l)).
Proof. rewrite object_keys_perm, grouped_by_keys. apply uniq_by_keys_NoDup. Qed.

Lemma page_view_throw_eq (l : list Facility.t) (st : PageState) (f : Facility.t) :
  facility st = Some f →
  is_throw (page_view l st) = existsb building_proto l || existsb name_proto l.
Proof.
  intros Hf. unfold page_view. rewrite Hf, is_throw_bind. unfold groupedByBuilding.
  destruct (foldM_push Facility.building l) as [Ht Hok]. fold building_proto in Ht, Hok.
  destruct (existsb building_proto l) eqn:E.
  - by destruct (foldM_js _ l []).
  - rewrite Hok by done. rewrite is_throw_bind_ret, byName_throw.
    rewrite (existsb_Permutation _ _ _ (object_keys_perm _)). apply existsb_grouped_by.
Qed.

Lemma page_view_ok (l : list Facility.t) (st : PageState) (f : Facility.t) :
  facility st = Some f → existsb building_proto l || existsb name_proto l = false →
  let byB := grouped_by Facility.building l in
  let byName := (λ b, (b, items_of f byB b)) <$> object_keys byB in
  page_view l st =
    JsOk (Some (details_of f, building_entry l (expandedBuildings st) byName <$> sort_str (object_keys byName))).
Proof.
  intros Hf [Eb En]%orb_false_iff byB byName. unfold page_view. rewrite Hf. unfold groupedByBuilding.
  rewrite (proj2 (foldM_push Facility.building l) Eb). simpl.
  rewrite byName_ok; [done|apply grouped_by_object_keys_NoDup|].
  rewrite (existsb_Permutation _ _ _ (object_keys_perm _)). by rewrite existsb_grouped_by.
Qed.

Lemma page_view_entries l st f d entries :
  facility st = Some f → page_view l st = JsOk (Some (d, entries)) →
  let byB := grouped_by Facility.building l in
  let byName := (λ b, (b, items_of f byB b)) <$> object_keys byB in
  entries = building_entry l (expandedBuildings st) byName <$> sort_str (object_keys byName).
Proof.
  intros Hf Hv byB byName.
  assert (Hno : existsb building_proto l || existsb name_proto l = false).
  { rewrite <-(page_view_throw_eq l st f Hf), Hv. done. }
  rewrite (page_view_ok l st f Hf Hno) in Hv. by injection Hv.
Qed.

Lemma object_keys_byName f l :
  let byB := grouped_by Facility.building l in
  object_keys ((λ b, (b, items_of f byB b)) <$> object_keys byB) ≡ₚ
    Facility.building <$> uniq_by Facility.building l.
Proof.
  simpl. rewrite object_keys_perm, <-list_fmap_compose, list_fmap_id, object_keys_perm.
  by rewrite grouped_by_keys.
Qed.

Lemma map_get_pairs {W} (g : string → W) (ks : list string) k :
  k ∈ ks → map_get k ((λ b, (b, g b)) <$> ks) = Some (g k).
Proof.
  induction ks as [|k' ks IH]; intros Hk; [set_solver|]. simpl.
  destruct (decide (k = k')) as [->|Hne]; [done|]. apply IH. set_solver.
Qed.

Lemma entry_rows_eq (l : list Facility.t) (st : PageState) (f : Facility.t)
    (d : Details) (entries : list BuildingEntry) (e : BuildingEntry) :
  facility st = Some f → page_view l st = JsOk (Some (d, entries)) → e ∈ entries →
  entry_rows e =
    if str_includes (expandedBuildings st) (entry_building e)
    then row_of l <$> (item_of f <$> object_entries
                         (grouped_by Facility.name (facilities_in (entry_building e) l)))
    else [].
Proof.
  intros Hf Hv He. rewrite (page_view_entries l st f d entries Hf Hv) in He.
  apply list_elem_of_fmap in He as (b & -> & Hb). rewrite sort_str_perm, object_keys_byName in Hb.
  apply list_elem_of_fmap in Hb as (r & -> & Hr). unfold building_entry. simpl.
  case_match; [|done]. f_equal.
  assert (Hk : Facility.building r ∈ object_keys (grouped_by Facility.building l)).
  { rewrite object_keys_perm, grouped_by_keys. by apply list_elem_of_fmap_2. }
  rewrite map_get_pairs by done. unfold items_of. by rewrite map_get_grouped_by.
Qed.

(** ** Properties *)

(** C20. Once the facility is found, the page renders unless a building
    or a facility name is the name of a property of [Object.prototype]
    ("constructor", "toString", ...): then building its building list
    throws a [TypeError] and the page is lost. *)
Theorem page_view_throws (l : list Facility.t) (st : PageState) (f : Facility.t) :
  facility st = Some f →
  is_throw (page_view l st) =
    existsb (λ x, str_includes proto_keys (Facility.building x) ||
                  str_includes proto_keys (Facility.name x)) l.
Proof. intros Hf. rewrite (page_view_throw_eq l st f Hf). symmetry. apply existsb_orb. Qed.

(** The building list shows every building of the facility list once,
    sorted by [String.leb]. *)
Theorem page_view_buildings (l : list Facility.t) (st : PageState) (f : Facility.t)
    (d : Details) (entries : list BuildingEntry) :
  facility st = Some f → page_view l st = JsOk (Some (d, entries)) →
  Sorted (λ a b, String.leb a b = true) (entry_building <$> entries) ∧
  NoDup (entry_building <$> entries) ∧
  ∀ b, b ∈ entry_building <$> entries ↔ b ∈ Facility.building <$> l.
Proof.
  intros Hf Hv. rewrite (page_view_entries l st f d entries Hf Hv), <-list_fmap_compose.
  rewrite list_fmap_id. split_and!.
  - apply sort_str_sorted.
  - rewrite sort_str_perm, object_keys_byName. apply uniq_by_keys_NoDup.
  - intros b. rewrite sort_str_perm, object_keys_byName. apply elem_uniq_keys.
Qed.

(** An expanded building lists one row per distinct facility name of
    the building, in [Object.entries] order (names that are array indices
    first, by value, then the others in order of first occurrence), each
    with the floors and ids of the facilities of that name in list order;
    a collapsed building lists nothing. *)
Theorem page_view_rows (l : list Facility.t) (st : PageState) (f : Facility.t)
    (d : Details) (entries : list BuildingEntry) (e : BuildingEntry) :
  facility st = Some f → page_view l st = JsOk (Some (d, entries)) → e ∈ entries →
  entry_rows e =
    if str_includes (expandedBuildings st) (entry_building e)
    then row_of l <$> (item_of f <$> object_entries
                         (grouped_by Facility.name (facilities_in (entry_building e) l)))
    else [].
Proof. apply entry_rows_eq. Qed.

Lemma substring_full s : substring 0 (String.length s) s = s.
Proof. induction s as [|c s IH]; [done|]. simpl. by rewrite IH. Qed.

Lemma substring_app a b : substring (String.length a) (String.length b) (a ++ b) = b.
Proof. induction a as [|c a IH]; [apply substring_full|]. rewrite str_app_cons. exact IH. Qed.

Lemma facility_param_route f : facility_param (facility_route f) = Some (int_to_string (Facility.id f)).
Proof.
  unfold facility_param, facility_route. rewrite prefix_app. f_equal.
  rewrite str_length_app. replace (10 + _ - 10)%nat with (String.length (int_to_string (Facility.id f))) by
    (simpl; lia). apply (substring_app "/facility/").
Qed.

Lemma decimal_head n : ∃ c r, decimal n = String c r ∧ is_digit c = true ∧ all_digits r = true.
Proof.
  destruct (decimal_digits n) as [Hne Hd]. destruct (decimal n) as [|c r]; [done|].
  exists c, r. rewrite all_digits_cons in Hd. apply andb_prop in Hd as [Hc Hr]. done.
Qed.

Lemma decimal_reader_int z : decimal_reader (int_to_string z) = Some z.
Proof.
  unfold int_to_string. destruct (Z.ltb_spec z 0) as [Hz|Hz].
  - rewrite str_app_cons, str_app_nil_l. simpl.
    destruct (decimal_digits (Z.to_nat (- z))) as [Hne Hd]. rewrite Hd.
    destruct (String.eqb_spec (decimal (Z.to_nat (- z))) ""); [done|]. simpl.
    rewrite parseInt_decimal. f_equal. lia.
  - destruct (decimal_head (Z.to_nat z)) as (c & r & Hdec & Hc & Hr).
    destruct (decimal_digits (Z.to_nat z)) as [_ Hd].
    pose proof (parseInt_decimal (Z.to_nat z)) as Hp. rewrite Hdec in Hd, Hp |- *.
    unfold decimal_reader. cbv beta iota.
    destruct (Ascii.eqb_spec c "-") as [->|]; [discriminate|].
    rewrite Hd, Hp. f_equal. lia.
Qed.

Lemma find_id l i :
  i ∈ Facility.id <$> l →
  ∃ g, List.find (λ g, (Facility.id g =? i)%Z) l = Some g ∧ g ∈ l ∧ Facility.id g = i.
Proof.
  induction l as [|x l IH]; intros Hi; [set_solver|]. simpl.
  destruct (Z.eqb_spec (Facility.id x) i) as [Heq|Hne]; [exists x; set_solver|].
  destruct IH as (g & Hg & Hgl & Hid); [set_solver|]. exists g. set_solver.
Qed.

(** The lookup effect at the route of a facility finds it. *)
Lemma lookup_effect_found (Number : string → option Z) (l : list Facility.t) (f : Facility.t)
    (st : PageState) :
  (∀ z, Number (int_to_string z) = Some z) → NoDup (Facility.id <$> l) → f ∈ l →
  lookup_effect Number l (int_to_string (Facility.id f)) st =
    (mkPage (Some f) [Facility.building f] (activeTab st), None).
Proof.
  intros HN Hnd Hf. unfold lookup_effect. rewrite HN.
  destruct (find_id l (Facility.id f)) as (g & Hg & Hgl & Hid); [by apply list_elem_of_fmap_2|].
  rewrite Hg. assert (g = f) as -> by (eapply NoDup_fmap_eq; eauto). done.
Qed.

(** For any [Number] that reads back integer numerals, the page at
    the route of a facility shows that facility, with its building
    expanded, when ids are unique; and an id no facility has sends the
    browser back to ["/"]. *)
Theorem lookup_effect_spec (Number : string → option Z) (l : list Facility.t) (f : Facility.t)
    (st : PageState) :
  (∀ z, Number (int_to_string z) = Some z) →
  NoDup (Facility.id <$> l) → f ∈ l →
  lookup_effect Number l (int_to_string (Facility.id f)) st =
    (mkPage (Some f) [Facility.building f] (activeTab st), None) ∧
  ∀ s, (∀ g, g ∈ l → Number s ≠ Some (Facility.id g)) → lookup_effect Number l s st = (st, Some "/").
Proof.
  intros HN Hnd Hf. split; [by apply lookup_effect_found|].
  intros s Hs. unfold lookup_effect.
  destruct (List.find _ l) as [g|] eqn:E; [|done].
  apply List.find_some in E as [Hgl Hg]. destruct (Number s) as [n|] eqn:En; [|discriminate].
  apply Z.eqb_eq in Hg. subst n. exfalso. by apply (Hs g); [apply list_elem_of_In|].
Qed.

(** C19. In every reachable state of the home page, a click on a facility
    row of the building sheet navigates to a route whose page finds a
    facility of App's current list with the clicked facility's id, for
    any [Number] that reads back integer numerals. *)
Theorem sheet_click_opens_page (Number : string → option Z) (s : Session) (g : GroupedFacility.t)
    (f : Facility.t) (st : PageState) :
  (∀ z, Number (int_to_string z) = Some z) →
  home_reachable s → selectedGroupedFacility (home s) = Some g → f ∈ open_rows g (openFloors s) →
  ∃ param g',
    facility_param (location (home_step s (SheetFacilityClick f))) = Some param ∧
    lookup_effect Number (facilities s) param st =
      (mkPage (Some g') [Facility.building g'] (activeTab st), None) ∧
    g' ∈ facilities s ∧ Facility.id g' = Facility.id f.
Proof.
  intros HN Hr Hg Hf. simpl. rewrite Hg, bool_decide_true by done. simpl.
  exists (int_to_string (Facility.id f)).
  destruct (find_id (facilities s) (Facility.id f)) as (g' & Hfind & Hg'l & Hid).
  { eapply (reachable_sheet_ids s Hr g Hg). by eapply open_rows_elem. }
  exists g'. split_and!; [apply facility_param_route| |done|done].
  unfold lookup_effect. by rewrite HN, Hfind.
Qed.

(** ** Examples and witnesses *)

Definition named (i : Z) (n b : string) : Facility.t :=
  Facility.mk i n cafe b "1층" 0 0 "" None None None None.

(** A facility called "constructor" makes the page throw. *)
Example page_view_constructor :
  is_throw (page_view [named 1 "constructor" "본관"] (mkPage (Some (named 1 "constructor" "본관")) [] "details"))
    = true.
Proof. vm_compute. reflexivity. Qed.

(** Names that are array indices come first, in numeric order: in
    building "B", "2" is listed before "10", and both before "a". *)
Example page_view_name_order :
  (λ e, row_name <$> entry_rows e) <$>
    (match page_view [named 1 "a" "B"; named 2 "10" "B"; named 3 "2" "B"]
                     (mkPage (Some (named 1 "a" "B")) ["B"] "details") with
     | JsOk (Some (_, es)) => es | _ => [] end) = [["2"; "10"; "a"]].
Proof. vm_compute. reflexivity. Qed.

Definition sample_page : PageState := mkPage (Some (fac 1 "A" "지하1층" cafe None)) ["A"] "details".

Lemma page_view_buildings_witness :
  ∃ d entries, facility sample_page = Some (fac 1 "A" "지하1층" cafe None) ∧
    page_view sample_facilities sample_page = JsOk (Some (d, entries)) ∧
    NoDup (entry_building <$> entries).
Proof.
  destruct (page_view sample_facilities sample_page) as [[[d entries]|]|] eqn:E;
    try (vm_compute in E; discriminate).
  exists d, entries. assert (Hf : facility sample_page = Some (fac 1 "A" "지하1층" cafe None)) by reflexivity.
  split_and!; [exact Hf|reflexivity|].
  exact (proj1 (proj2 (page_view_buildings _ _ _ _ _ Hf E))).
Defined.

Lemma page_view_throws_witness :
  facility (mkPage (Some (named 1 "constructor" "본관")) [] "details") = Some (named 1 "constructor" "본관") ∧
  is_throw (page_view [named 1 "constructor" "본관"] (mkPage (Some (named 1 "constructor" "본관")) [] "details"))
    = true.
Proof.
  assert (Hf : facility (mkPage (Some (named 1 "constructor" "본관")) [] "details") =
                 Some (named 1 "constructor" "본관")) by reflexivity.
  split; [exact Hf|]. rewrite (page_view_throws _ _ _ Hf). reflexivity.
Defined.

Lemma page_view_rows_witness :
  ∃ d entries e, facility sample_page = Some (fac 1 "A" "지하1층" cafe None) ∧
    page_view sample_facilities sample_page = JsOk (Some (d, entries)) ∧ e ∈ entries ∧
    entry_building e = "A" ∧ length (entry_rows e) = 1%nat.
Proof.
  destruct (page_view sample_facilities sample_page) as [[[d entries]|]|] eqn:E;
    try (vm_compute in E; discriminate).
  assert (Hf : facility sample_page = Some (fac 1 "A" "지하1층" cafe None)) by reflexivity.
  assert (He : entries !! 0%nat = Some (building_entry sample_facilities ["A"]
     ((λ b, (b, items_of (fac 1 "A" "지하1층" cafe None) (grouped_by Facility.building sample_facilities) b))
        <$> object_keys (grouped_by Facility.building sample_facilities)) "A"))
    by (vm_compute in E; injection E as _ <-; reflexivity).
  apply list_elem_of_lookup_2 in He. eexists d, entries, _.
  split_and!; [exact Hf|reflexivity|exact He|reflexivity|].
  rewrite (page_view_rows _ _ _ _ _ _ Hf E He). reflexivity.
Defined.

Lemma lookup_effect_spec_witness :
  (∀ z, decimal_reader (int_to_string z) = Some z) ∧
  NoDup (Facility.id <$> sample_facilities) ∧
  lookup_effect decimal_reader sample_facilities "4" page_init =
    (mkPage (Some (fac 4 "A" "1층" cafe (Some false))) ["A"] "details", None).
Proof.
  split_and!; [exact decimal_reader_int|exact sample_ids_NoDup|].
  assert (Hin : fac 4 "A" "1층" cafe (Some false) ∈ sample_facilities)
    by (apply (bool_decide_eq_true_1 (_ ∈ _)); vm_compute; reflexivity).
  exact (proj1 (lookup_effect_spec decimal_reader _ _ page_init decimal_reader_int sample_ids_NoDup Hin)).
Defined.

Lemma sheet_click_opens_page_witness :
  home_reachable sample_sheet_session ∧
  ∃ param g', facility_param (location (home_step sample_sheet_session
                 (SheetFacilityClick (fac 1 "A" "지하1층" cafe None)))) = Some param ∧
    lookup_effect decimal_reader (facilities sample_sheet_session) param page_init =
      (mkPage (Some g') [Facility.building g'] "details", None) ∧
    g' ∈ facilities sample_sheet_session ∧ Facility.id g' = 1%Z.
Proof.
  assert (Hr : home_reachable sample_sheet_session) by (apply hr_step, hr_init).
  assert (Hf : fac 1 "A" "지하1층" cafe None ∈ open_rows sample_groupA (openFloors sample_sheet_session))
    by (apply (bool_decide_eq_true_1 (_ ∈ _)); vm_compute; reflexivity).
  split; [exact Hr|].
  exact (sheet_click_opens_page decimal_reader _ _ _ page_init decimal_reader_int Hr sample_sheet_selected Hf).
Defined.
