(* ===== verification/PageNav.v ===== *)
(** * PageNav: events and layouts of FacilityDetailPage.tsx

    [DetailPage] models what the page computes and its lookup effect.
    This file adds its event handling and its two layouts.
    - A click on a row of the building list ([handleFacilityClick],
      lines 112-114) navigates to [/facility/<id>].  The route pattern
      stays the same, so React Router keeps the component mounted: its
      state ([expandedBuildings], [activeTab]) survives, and only the
      lookup effect runs again, because its dependency [id] changed
      (lines 47-56).  A route outside [/facility/] unmounts the page.
    - A building header toggles [expandedBuildings] ([toggleBuilding]);
      the mobile tabs set [activeTab] ([onValueChange={setActiveTab}],
      line 349).  The page's [Header] ([detail_header], line 330) has a
      back button whose [onBackClick] navigates to [/map].
    - The call and download buttons are the sheet's [handleCall] and
      [handleDownload] (lines 116-141), over the page's facility.
    - [page_screen] is the layout (lines 327-370): on a desktop the
      details and the list side by side; on a phone the tab [activeTab]
      selects.
*)

From Stdlib Require Import String ZArith QArith.
From stdpp Require Import base list sets strings.
From S2P Require Import Prelude Facility FloorKey Header Grouping DetailSheet SheetActions HomePage DetailPage.

Local Open Scope campus_scope.
Local Open Scope string_scope.

Inductive PageEvent :=
| RowClick (r : Row)                 (* a facility row of the building list *)
| BuildingClick (building : string)  (* a building header *)
| TabChange (tab : string)           (* a tab trigger: "details" or "list" *)
| BackClick                          (* the header's back button *)
| CallClick                          (* the contact link *)
| DownloadClick (fetched : FetchResult).  (* the image's download button *)

(** The browser location and the page's state. *)
Record Nav := mkNav { nav_route : string; nav_page : PageState }.

(** What the page shows. *)
Inductive PageScreen :=
| PageBlank                                      (* [if (!facility) return null] *)
| PageCrashed                                    (* a [TypeError] while rendering *)
| PageDesktop (d : Details) (entries : list BuildingEntry)
| PageMobile (tab : string) (content : option (Details + list BuildingEntry)).

(** [<Header showBackButton={true} onBackClick={() => navigate('/map')} />]
    (line 330). *)
Definition detail_header : HeaderProps := mkHeaderProps (Some true) None None (Some (NavTo "/map")).

Section Nav.
Variable Number : string → option Z.
Variable facilities : list Facility.t.

(** [navigate(loc)] as the page sees it: the same location changes
    nothing, another facility route reruns the lookup effect on the
    mounted page, any other route unmounts it. *)
Definition route_to (n : Nav) (loc : string) : Nav :=
  if loc === nav_route n then n
  else match facility_param loc with
       | Some id =>
           match lookup_effect Number facilities id (nav_page n) with
           | (st', None) => mkNav loc st'
           | (_, Some redirect) => mkNav redirect page_init
           end
       | None => mkNav loc page_init
       end.

(** The page has rendered its buttons. *)
Definition rendered (st : PageState) : bool :=
  match page_view facilities st with JsOk (Some _) => true | _ => false end.

Definition page_step (n : Nav) (e : PageEvent) : Nav * list SheetEffect :=
  let st := nav_page n in
  if rendered st then
    match e with
    | RowClick r => (route_to n (row_target r), [])
    | BuildingClick b =>
        (mkNav (nav_route n) (mkPage (facility st) (toggleBuilding b (expandedBuildings st)) (activeTab st)), [])
    | TabChange t => (mkNav (nav_route n) (mkPage (facility st) (expandedBuildings st) t), [])
    | BackClick =>
        (match header_click detail_header BackButton with
         | NavTo r => route_to n r
         | NavBack => n   (* not taken: the page passes [onBackClick] *)
         end, [])
    | CallClick => (n, call_effects (facility st))
    | DownloadClick r => (n, handleDownload (facility st) r)
    end
  else (n, []).

Definition page_screen (desktop : bool) (st : PageState) : PageScreen :=
  match page_view facilities st with
  | JsThrow _ => PageCrashed
  | JsOk None => PageBlank
  | JsOk (Some (d, entries)) =>
      if desktop then PageDesktop d entries
      else PageMobile (activeTab st)
             (if activeTab st === "details" then Some (inl d)
              else if activeTab st === "list" then Some (inr entries) else None)
  end.

End Nav.

(** ** Lemmas *)

Lemma object_entries_get {W} (o : list (string * W)) k v :
  (k, v) ∈ object_entries o → map_get k o = Some v.
Proof.
  unfold object_entries. intros (k' & _ & Hk)%list_elem_of_omap.
  destruct (map_get k' o) eqn:E; simplify_eq/=. done.
Qed.

(** Each group of [grouped_by] is the run of some element's key. *)
Lemma grouped_by_value {V} (key : V → string) (l : list V) k v :
  map_get k (grouped_by key l) = Some v → ∃ r, r ∈ l ∧ v = same_key key l r.
Proof.
  intros Hg. apply map_get_Some_pair in Hg. unfold grouped_by, keyed in Hg.
  apply list_elem_of_fmap in Hg as (r & Heq & Hr). simplify_eq.
  exists r. split; [by eapply uniq_by_elem|done].
Qed.

Lemma same_key_head {V} (key : V → string) (l : list V) r :
  r ∈ l → ∃ h t, same_key key l r = h :: t ∧ h ∈ l.
Proof.
  intros Hr. assert (Hin : r ∈ same_key key l r) by (apply elem_filter; by rewrite String.eqb_refl).
  destruct (same_key key l r) as [|h t] eqn:E; [set_solver|].
  exists h, t. split; [done|]. assert (Hh : h ∈ same_key key l r) by (rewrite E; set_solver).
  by apply elem_filter in Hh as [? _].
Qed.

(** Every row of the building list links to the page of a facility of
    the list. *)
Lemma page_rows_target l st f d entries e r :
  facility st = Some f → page_view l st = JsOk (Some (d, entries)) → e ∈ entries →
  r ∈ entry_rows e → ∃ g, g ∈ l ∧ row_target r = facility_route g.
Proof.
  intros Hf Hv He Hr. rewrite (entry_rows_eq l st f d entries e Hf Hv He) in Hr.
  case_match; [|set_solver]. rewrite <-list_fmap_compose in Hr.
  apply list_elem_of_fmap in Hr as ([k facs] & -> & Hp).
  apply object_entries_get, grouped_by_value in Hp as (r0 & Hr0 & ->).
  destruct (same_key_head Facility.name _ _ Hr0) as (h & t & Ht & Hh).
  exists h. split; [by apply elem_filter in Hh as [? _]|]. unfold compose. simpl. by rewrite Ht.
Qed.

(** Whether the page renders does not depend on which facility it shows. *)
Lemma page_view_other l st st' f g d entries :
  facility st = Some f → facility st' = Some g → page_view l st = JsOk (Some (d, entries)) →
  ∃ d' entries', page_view l st' = JsOk (Some (d', entries')).
Proof.
  intros Hf Hg Hv. assert (Hno : existsb building_proto l || existsb name_proto l = false).
  { rewrite <-(page_view_throw_eq l st f Hf), Hv. done. }
  rewrite (page_view_ok l st' g Hg Hno). eauto.
Qed.

Lemma route_to_facility Number l n g :
  (∀ z, Number (int_to_string z) = Some z) → NoDup (Facility.id <$> l) → g ∈ l →
  facility_route g ≠ nav_route n →
  route_to Number l n (facility_route g) =
    mkNav (facility_route g) (mkPage (Some g) [Facility.building g] (activeTab (nav_page n))).
Proof.
  intros HN Hnd Hg Hne. unfold route_to.
  destruct (String.eqb_spec (facility_route g) (nav_route n)); [done|].
  rewrite facility_param_route, (lookup_effect_found Number l g) by done. done.
Qed.

(** ** Properties *)

(** C31. On a phone, a click on another facility in the building list
    loads that facility's page: the route of a facility of the list, the
    facility found by its id, and its building the only one expanded.
    The page stays on the list tab, because the mounted page keeps
    [activeTab], so the details of the facility just chosen are not
    shown until the user switches tab. *)
Theorem mobile_row_click_stays_on_list (Number : string → option Z) (l : list Facility.t) (n : Nav)
    (f : Facility.t) (d : Details) (entries : list BuildingEntry) (e : BuildingEntry) (r : Row) :
  (∀ z, Number (int_to_string z) = Some z) → NoDup (Facility.id <$> l) →
  facility (nav_page n) = Some f → page_view l (nav_page n) = JsOk (Some (d, entries)) →
  e ∈ entries → r ∈ entry_rows e → row_target r ≠ nav_route n → activeTab (nav_page n) = "list" →
  ∃ g entries', g ∈ l ∧ row_target r = facility_route g ∧
    fst (page_step Number l n (RowClick r)) =
      mkNav (row_target r) (mkPage (Some g) [Facility.building g] "list") ∧
    page_screen l false (nav_page (fst (page_step Number l n (RowClick r)))) =
      PageMobile "list" (Some (inr entries')).
Proof.
  intros HN Hnd Hf Hv He Hr Hne Htab.
  destruct (page_rows_target l _ f d entries e r Hf Hv He Hr) as (g & Hg & Ht).
  assert (Hstep : fst (page_step Number l n (RowClick r)) =
                    mkNav (row_target r) (mkPage (Some g) [Facility.building g] "list")).
  { unfold page_step, rendered. rewrite Hv. simpl. rewrite Ht in *.
    by rewrite route_to_facility, Htab. }
  destruct (page_view_other l (nav_page n) (mkPage (Some g) [Facility.building g] "list") f g d entries)
    as (d' & entries' & Hv'); [done|done|done|].
  exists g, entries'. split_and!; [done|done|done|]. rewrite Hstep. simpl.
  unfold page_screen. by rewrite Hv'.
Qed.

(** ** Witnesses and examples *)

(** The page of facility 4 of building "A", on the list tab. *)
Definition sample_nav : Nav :=
  mkNav "/facility/4" (mkPage (Some (fac 4 "A" "1층" cafe (Some false))) ["A"] "list").

Lemma mobile_row_click_stays_on_list_witness :
  ∃ d entries e r, page_view sample_facilities (nav_page sample_nav) = JsOk (Some (d, entries)) ∧
    e ∈ entries ∧ r ∈ entry_rows e ∧ row_target r = "/facility/1" ∧
    ∃ g entries', fst (page_step decimal_reader sample_facilities sample_nav (RowClick r)) =
      mkNav "/facility/1" (mkPage (Some g) [Facility.building g] "list") ∧
      page_screen sample_facilities false (nav_page (fst (page_step decimal_reader sample_facilities sample_nav (RowClick r)))) =
        PageMobile "list" (Some (inr entries')).
Proof.
  destruct (page_view sample_facilities (nav_page sample_nav)) as [[[d entries]|]|] eqn:E;
    try (vm_compute in E; discriminate).
  pose proof E as E'. vm_compute in E'. injection E' as _ <-.
  eexists d, _, _, _. split_and!; [reflexivity|left|left|reflexivity|].
  destruct (mobile_row_click_stays_on_list decimal_reader sample_facilities sample_nav
              (fac 4 "A" "1층" cafe (Some false)) d _ _ _ decimal_reader_int sample_ids_NoDup
              eq_refl E ltac:(left) ltac:(left) ltac:(discriminate) eq_refl)
    as (g & entries' & _ & _ & H1 & H2).
  exists g, entries'. split; [exact H1|exact H2].
Defined.

(** The detail page's header shows only the back button, under the
    default title, and the button leaves the page for [/map]. *)
Example detail_back_to_map :
  header_view detail_header = ([BackButton], "Campus Compass") ∧
  fst (page_step decimal_reader sample_facilities sample_nav BackClick) = mkNav "/map" page_init.
Proof. split; [reflexivity|vm_compute; reflexivity]. Qed.
