(* ===== verification/LoginPage.v ===== *)
(** * LoginPage: the log-in / sign-up form of LoginPage.tsx

    The form's state is five [useState]s (lines 16-20); [login_step] is
    its event handling: typing into a field (the name and password
    confirmation fields are rendered only in sign-up mode, lines 78-94 and
    125-141), submitting ([handleSubmit], lines 22-43), switching mode
    ([toggleMode], lines 45-51) and the back button (line 59).  Each step
    also returns the effects it performs: an [alert], a call of App's
    [onLogin] or [onSignup], a navigation.

    Every input is [required]: the browser delivers the submit event only
    when each rendered input is non-empty and the e-mail input holds a
    valid address.  The address check is the parameter [email_ok] of the
    step.

    [name.trim() === ''] is [trim_is_empty]: the name consists of
    ECMAScript white space and line terminators only, each recognised by
    its UTF-8 encoding ([ws_chars]).
*)

From Stdlib Require Import String Ascii ZArith.
From stdpp Require Import base list sets strings.
From S2P Require Import Prelude.

Local Open Scope campus_scope.
Local Open Scope string_scope.

Record LoginForm := mkForm {
  isSignup : bool;
  email : string;
  password : string;
  name : string;
  confirmPassword : string
}.

Definition form_init : LoginForm := mkForm false "" "" "" "".

Inductive Field := FName | FEmail | FPassword | FConfirm.

Inductive LoginEvent :=
| Input (fld : Field) (v : string)
| Submit
| ToggleMode
| Back.

Inductive LoginEffect :=
| Alert (msg : string)
| CallLogin (email password : string)
| CallSignup (email password name : string)
| Navigate (route : string).

(** A string of the given bytes. *)
Fixpoint bytes (l : list nat) : string :=
  match l with [] => "" | b :: l' => String (ascii_of_nat b) (bytes l') end.

(** The UTF-8 encodings of ECMAScript's WhiteSpace and LineTerminator
    code points: U+0009-000D, U+0020, U+00A0, U+1680, U+2000-200A,
    U+2028, U+2029, U+202F, U+205F, U+3000, U+FEFF. *)
Definition ws_chars : list string :=
  [bytes [9]; bytes [10]; bytes [11]; bytes [12]; bytes [13]; bytes [32];
   bytes [194; 160]; bytes [225; 154; 128]]
  ++ ((λ b, bytes [226; 128; b]) <$> [128; 129; 130; 131; 132; 133; 134; 135; 136; 137; 138; 168; 169; 175])
  ++ [bytes [226; 129; 159]; bytes [227; 128; 128]; bytes [239; 187; 191]].

(** Whether the string is a sequence of [ws_chars]; each step removes
    at least one byte, so the string's length is enough fuel. *)
Fixpoint all_ws (fuel : nat) (s : string) : bool :=
  match s with
  | EmptyString => true
  | String _ _ =>
      match fuel with
      | O => false
      | S k =>
          match List.find (λ w, String.prefix w s) ws_chars with
          | Some w => all_ws k (substring (String.length w) (String.length s - String.length w) s)
          | None => false
          end
      end
  end.

(** [s.trim() === ''] *)
Definition trim_is_empty (s : string) : bool := all_ws (String.length s) s.

(** The fields a submit needs filled in (the [required] inputs rendered
    in the current mode). *)
Definition form_valid (email_ok : string → bool) (st : LoginForm) : bool :=
  negb (email st === "") && email_ok (email st) && negb (password st === "") &&
  (if isSignup st then negb (name st === "") && negb (confirmPassword st === "") else true).

(** [handleSubmit] *)
Definition handleSubmit (st : LoginForm) : LoginForm * list LoginEffect :=
  if isSignup st then
    if negb (password st === confirmPassword st) then (st, [Alert "비밀번호가 일치하지 않습니다."])
    else if trim_is_empty (name st) then (st, [Alert "이름을 입력해주세요."])
    else (mkForm false "" "" "" "", [CallSignup (email st) (password st) (name st)])
  else (st, [CallLogin (email st) (password st)]).

(** [toggleMode] *)
Definition toggleMode (st : LoginForm) : LoginForm := mkForm (negb (isSignup st)) "" "" "" "".

Definition login_step (email_ok : string → bool) (st : LoginForm) (e : LoginEvent)
    : LoginForm * list LoginEffect :=
  match e with
  | Input FEmail v => (mkForm (isSignup st) v (password st) (name st) (confirmPassword st), [])
  | Input FPassword v => (mkForm (isSignup st) (email st) v (name st) (confirmPassword st), [])
  | Input FName v =>
      if isSignup st then (mkForm (isSignup st) (email st) (password st) v (confirmPassword st), [])
      else (st, [])
  | Input FConfirm v =>
      if isSignup st then (mkForm (isSignup st) (email st) (password st) (name st) v, [])
      else (st, [])
  | Submit => if form_valid email_ok st then handleSubmit st else (st, [])
  | ToggleMode => (toggleMode st, [])
  | Back => (st, [Navigate "/"])
  end.

(** The forms reachable from the initial one. *)
Inductive login_reachable (email_ok : string → bool) : LoginForm → Prop :=
| lr_init : login_reachable email_ok form_init
| lr_step st e : login_reachable email_ok st → login_reachable email_ok (fst (login_step email_ok st e)).

(** ** Lemmas *)

Lemma substring_length_le n m s : (String.length (substring n m s) <= m)%nat.
Proof.
  induction s as [|c s IH] in n, m |- *; destruct n, m; simpl; try lia; [|apply IH..].
  specialize (IH 0 m). lia.
Qed.

Lemma ws_chars_nonempty w : w ∈ ws_chars → (1 <= String.length w)%nat.
Proof. intros Hw. repeat (apply elem_of_cons in Hw as [->|Hw]; [simpl; lia|]); set_solver. Qed.

Lemma prefix_length w s : String.prefix w s = true → (String.length w <= String.length s)%nat.
Proof.
  induction w as [|c w IH] in s |- *; [simpl; lia|]. destruct s as [|d s]; [done|]. simpl.
  destruct (ascii_dec c d); [|done]. intros H. specialize (IH s H). lia.
Qed.

Lemma all_ws_S k c s :
  all_ws (S k) (String c s) =
    match List.find (λ w, String.prefix w (String c s)) ws_chars with
    | Some w => all_ws k (substring (String.length w) (String.length (String c s) - String.length w)
                                    (String c s))
    | None => false
    end.
Proof. reflexivity. Qed.

(** Any fuel of at least the string's length gives the same answer. *)
Lemma all_ws_fuel_eq k k' s :
  (String.length s <= k)%nat → (String.length s <= k')%nat → all_ws k s = all_ws k' s.
Proof.
  induction k as [|k IH] in k', s |- *; intros Hk Hk'.
  - destruct s; [by destruct k'|simpl in Hk; lia].
  - destruct s as [|c s']; [by destruct k'|]. destruct k' as [|k']; [simpl in Hk'; lia|].
    rewrite !all_ws_S. destruct (List.find _ ws_chars) as [w|] eqn:E; [|done].
    apply List.find_some in E as [Hw Hp]. apply list_elem_of_In, ws_chars_nonempty in Hw.
    apply prefix_length in Hp. simpl in Hk, Hk', Hp.
    pose proof (substring_length_le (String.length w) (S (String.length s') - String.length w)
                  (String c s')).
    change (String.length (String c s')) with (S (String.length s')). apply IH; lia.
Qed.

Lemma login_step_Submit ok st :
  login_step ok st Submit = if form_valid ok st then handleSubmit st else (st, []).
Proof. done. Qed.

(** ** Properties *)

(** C34. [onSignup] is called only on a submit in sign-up mode whose two
    passwords are equal and whose name is not blank, with the typed
    values, alone; the form is then an empty log-in form again. *)
Theorem signup_only_when_valid (email_ok : string → bool) (st st' : LoginForm) (e : LoginEvent)
    (effs : list LoginEffect) (em pw nm : string) :
  login_step email_ok st e = (st', effs) → CallSignup em pw nm ∈ effs →
  e = Submit ∧ isSignup st = true ∧ form_valid email_ok st = true ∧
  password st = confirmPassword st ∧ trim_is_empty (name st) = false ∧
  em = email st ∧ pw = password st ∧ nm = name st ∧
  st' = form_init ∧ effs = [CallSignup em pw nm].
Proof.
  intros Hs Hin. destruct e as [[] v| | |]; simpl in Hs; repeat case_match; simplify_eq;
    try (apply list_elem_of_singleton in Hin; discriminate); try set_solver.
  unfold handleSubmit in Hs. destruct (isSignup st) eqn:Em; [|simplify_eq; set_solver].
  destruct (String.eqb_spec (password st) (confirmPassword st)) as [Heq|]; simpl in Hs;
    [|simplify_eq; set_solver].
  destruct (trim_is_empty (name st)) eqn:Et; simplify_eq; [set_solver|].
  apply list_elem_of_singleton in Hin. simplify_eq. done.
Qed.

(** In every reachable state of the form, log-in mode has an empty
    name and an empty password confirmation: they are typed only in
    sign-up mode and every way back to log-in mode clears them. *)
Theorem login_mode_clean (email_ok : string → bool) (st : LoginForm) :
  login_reachable email_ok st → isSignup st = false → name st = "" ∧ confirmPassword st = "".
Proof.
  induction 1 as [|st e _ IH]; [done|]. intros Hm.
  destruct e as [[] v| | |]; simpl in *; try (by apply IH).
  - destruct (isSignup st) eqn:E; simpl in *; [congruence|by apply IH].
  - destruct (isSignup st) eqn:E; simpl in *; [congruence|by apply IH].
  - destruct (form_valid email_ok st); simpl in *; [|by apply IH].
    unfold handleSubmit in *. destruct (isSignup st) eqn:E; simpl in *; [|by apply IH].
    destruct (negb _); simpl in *; [congruence|].
    destruct (trim_is_empty _); simpl in *; [congruence|done].
  - done.
Qed.

(** ** Examples and witnesses *)

Definition signup_form (nm pw cf : string) : LoginForm := mkForm true "a@b.kr" pw nm cf.

(** A name of spaces passes the [required] check, then the trim check
    rejects it; so does an ideographic space; a real name is accepted. *)
Example signup_blank_names :
  login_step (λ _, true) (signup_form " " "pw" "pw") Submit =
    (signup_form " " "pw" "pw", [Alert "이름을 입력해주세요."]) ∧
  login_step (λ _, true) (signup_form (bytes [227; 128; 128]) "pw" "pw") Submit =
    (signup_form (bytes [227; 128; 128]) "pw" "pw", [Alert "이름을 입력해주세요."]) ∧
  login_step (λ _, true) (signup_form "홍길동" "pw" "pw") Submit =
    (form_init, [CallSignup "a@b.kr" "pw" "홍길동"]) ∧
  login_step (λ _, true) (signup_form "홍길동" "pw" "px") Submit =
    (signup_form "홍길동" "pw" "px", [Alert "비밀번호가 일치하지 않습니다."]).
Proof. split_and!; vm_compute; reflexivity. Qed.

Lemma signup_only_when_valid_witness :
  login_step (λ _, true) (signup_form "홍길동" "pw" "pw") Submit =
    (form_init, [CallSignup "a@b.kr" "pw" "홍길동"]) ∧
  CallSignup "a@b.kr" "pw" "홍길동" ∈ [CallSignup "a@b.kr" "pw" "홍길동"] ∧
  trim_is_empty (name (signup_form "홍길동" "pw" "pw")) = false.
Proof.
  assert (Hs : login_step (λ _, true) (signup_form "홍길동" "pw" "pw") Submit =
                 (form_init, [CallSignup "a@b.kr" "pw" "홍길동"])) by (vm_compute; reflexivity).
  assert (Hin : CallSignup "a@b.kr" "pw" "홍길동" ∈ [CallSignup "a@b.kr" "pw" "홍길동"])
    by apply list_elem_of_singleton, eq_refl.
  split_and!; [exact Hs|exact Hin|].
  apply (signup_only_when_valid _ _ _ _ _ _ _ _ Hs Hin).
Defined.

Lemma login_mode_clean_witness :
  login_reachable (λ _, true) (toggleMode (signup_form "x" "p" "q")) ∧
  confirmPassword (toggleMode (signup_form "x" "p" "q")) = "".
Proof.
  assert (Hr : login_reachable (λ _, true) (toggleMode (signup_form "x" "p" "q"))).
  { change (toggleMode (signup_form "x" "p" "q")) with
      (fst (login_step (λ _, true) (toggleMode form_init) ToggleMode)).
    apply lr_step. change (toggleMode form_init) with (fst (login_step (λ _, true) form_init ToggleMode)).
    apply lr_step, lr_init. }
  split; [exact Hr|]. exact (proj2 (login_mode_clean _ _ Hr eq_refl)).
Defined.
