(* ===== verification/Menus.v ===== *)
(** * Menus: FacilityList and the category menus

    - [FacilityList] (FacilityList.tsx) renders one card per facility,
      styled by [categoryConfig[facility.category]] (lines 12-21).  That
      table has no entry for [transport]: [config] is [undefined] and
      [config.icon] (line 42) throws a [TypeError] while rendering.
    - The category menus offer category ids to the filter:
      CategoryFilter's [categories] (in [MapView]), FilterBar's (lines
      12-22) and MainMenu's (lines 23-32); WelcomePage's tiles (lines
      4-50) each navigate to a route ([handleCategoryClick], lines
      63-65).  Each menu's buttons are rendered with their labels and
      highlight ([Catalog.categoryfilter_view], [Catalog.filterbar_view],
      [Catalog.mainmenu_view], [Catalog.welcome_view]).
*)

From Stdlib Require Import String ZArith QArith.
From stdpp Require Import base list sets strings.
From S2P Require Import Prelude Facility FloorKey DetailSheet FavoritesScreen MapView HomePage DetailPage.

Local Open Scope campus_scope.
Local Open Scope string_scope.

Module FacilityList.

(** An entry of [categoryConfig]: its icon, colour class and label. *)
Record Config := mkConfig { icon : string; color : string; label : string }.

(** [categoryConfig[category]], [undefined] for a category the table
    lacks. *)
Definition categoryConfig (c : Category) : option Config :=
  match c with
  | cafe => Some (mkConfig "Coffee" "bg-amber-500" "카페")
  | restaurant => Some (mkConfig "UtensilsCrossed" "bg-orange-500" "식당")
  | library => Some (mkConfig "BookOpen" "bg-blue-500" "도서관")
  | atm => Some (mkConfig "Banknote" "bg-green-500" "ATM")
  | convenience => Some (mkConfig "ShoppingBag" "bg-purple-500" "편의점")
  | medical => Some (mkConfig "Cross" "bg-red-500" "의무실")
  | gym => Some (mkConfig "Dumbbell" "bg-indigo-500" "체육관")
  | lounge => Some (mkConfig "Armchair" "bg-teal-500" "휴게실")
  | transport => None
  end.

(** One card (lines 45-83). *)
Record Card := mkCard {
  card_icon : string;
  card_title : string;
  card_description : option string;
  card_color : string;
  card_label : string;
  card_location : string;
  card_hours : string;
  card_selected : bool
}.

Inductive ListView :=
| NoResults                                   (* lines 24-32 *)
| Cards (total : string) (cards : list Card).  (* lines 34-87 *)

(** The body of [facilities.map(...)] (lines 40-85). *)
Definition card (selectedFacility : option Facility.t) (f : Facility.t) : js_result Card :=
  match categoryConfig (Facility.category f) with
  | None => JsThrow "TypeError: Cannot read properties of undefined (reading 'icon')"
  | Some config =>
      let isSelected := match selectedFacility with
                        | Some s => (Facility.id s =? Facility.id f)%Z
                        | None => false
                        end in
      JsOk (mkCard (icon config) (Facility.name f) (Facility.description f) (color config)
              (label config) (Facility.building f ++ " " ++ Facility.floor f) (Facility.hours f) isSelected)
  end.

(** [Array.prototype.map] with a callback that may throw. *)
Fixpoint mapM_js {A B} (g : A → js_result B) (l : list A) : js_result (list B) :=
  match l with
  | [] => JsOk []
  | x :: l' => y ← g x; ys ← mapM_js g l'; mret (y :: ys)
  end.

Definition FacilityList (facilities : list Facility.t) (selectedFacility : option Facility.t)
    : js_result ListView :=
  if (length facilities =? 0)%nat then JsOk NoResults
  else cards ← mapM_js (card selectedFacility) facilities;
       mret (Cards ("총 " ++ int_to_string (Z.of_nat (length facilities)) ++ "개의 시설") cards).

End FacilityList.

Module Catalog.

(** FilterBar's [categories] ids. *)
Definition filterbar_ids : list string :=
  ["all"; "cafe"; "restaurant"; "library"; "atm"; "convenience"; "medical"; "gym"; "lounge"].

(** MainMenu's [categories] ids, passed to [onCategorySelect]. *)
Definition mainmenu_ids : list string :=
  ["cafe"; "restaurant"; "library"; "atm"; "convenience"; "medical"; "gym"; "lounge"].

(** WelcomePage's tiles: id, title and route. *)
Definition welcome_tiles : list (string * string * string) :=
  [("map", "지도 & 길찾기", "/map"); ("convenience", "편의시설", "/map");
   ("service", "생활 서비스", "/map"); ("study", "문학 & 학습 공간", "/map");
   ("transport", "교통 & 주차", "/map")].

(** [handleCategoryClick(category.route)]: [navigate(route)]. *)
Definition handleCategoryClick (tile : string * string * string) : string := tile.2.

(** A category button as rendered: its id, its label, and whether it is
    highlighted ([selectedCategory === category.id]). *)
Record Chip := mkChip { chip_id : string; chip_label : string; chip_selected : bool }.

(** CategoryFilter's [categories] (lines 19-30), ids and labels. *)
Definition categoryfilter_entries : list (string * string) :=
  [("all", "전체"); ("cafe", "카페"); ("restaurant", "식당"); ("library", "도서관");
   ("convenience", "편의점"); ("lounge", "휴게실"); ("gym", "체육관"); ("medical", "의무실");
   ("transport", "통학버스"); ("atm", "ATM")].

(** CategoryFilter's buttons (lines 32-58); a click calls
    [onCategoryChange(category.id)]. *)
Definition categoryfilter_view (selectedCategory : string) : list Chip :=
  (λ e, mkChip e.1 e.2 (selectedCategory === e.1)) <$> categoryfilter_entries.

(** FilterBar's [categories] (lines 12-22): id, label and colour. *)
Definition filterbar_entries : list (string * string * string) :=
  [("all", "전체", "bg-gray-500"); ("cafe", "카페", "bg-amber-500");
   ("restaurant", "식당", "bg-orange-500"); ("library", "도서관", "bg-blue-500");
   ("atm", "ATM", "bg-green-500"); ("convenience", "편의점", "bg-purple-500");
   ("medical", "의무실", "bg-red-500"); ("gym", "체육관", "bg-indigo-500");
   ("lounge", "휴게실", "bg-teal-500")].

(** FilterBar (lines 24-61): the search input shows [searchQuery] and
    reports each edit through [onSearchChange]; each category button is
    highlighted with its colour when selected. *)
Record FilterBarView := mkFilterBarView {
  fb_query : string;
  fb_chips : list (Chip * string)   (* the chip and its class when highlighted *)
}.

Definition filterbar_view (selectedCategory searchQuery : string) : FilterBarView :=
  mkFilterBarView searchQuery
    ((λ e, (mkChip e.1.1 e.1.2 (selectedCategory === e.1.1),
            if selectedCategory === e.1.1 then e.2 ++ " hover:opacity-90" else "")) <$> filterbar_entries).

(** MainMenu's callbacks (lines 17-21). *)
Inductive MainMenuAction := OnMapView | OnSearchClick | OnCategorySelect (id : string).

(** MainMenu's [categories] (lines 23-32): id and label. *)
Definition mainmenu_entries : list (string * string) :=
  [("cafe", "카페"); ("restaurant", "식당"); ("library", "도서관"); ("atm", "ATM");
   ("convenience", "편의점"); ("medical", "의무실"); ("gym", "체육관"); ("lounge", "휴게실")].

(** MainMenu (lines 34-126): its buttons, each with its label and the
    callback its click calls, and the notices it lists. *)
Record MainMenuView := mkMainMenuView {
  mm_buttons : list (string * MainMenuAction);
  mm_notices : list string
}.

Definition mainmenu_view : MainMenuView :=
  mkMainMenuView
    ([("지도 보기", OnMapView); ("시설 검색", OnSearchClick)] ++
     ((λ e, (e.2, OnCategorySelect e.1)) <$> mainmenu_entries))
    ["중앙도서관 열람실 좌석 예약제 운영"; "학생회관 리모델링 공사 안내 (11월 예정)";
     "종합체육관 헬스장 이용시간 변경"].

(** WelcomePage (lines 67-103): one card per tile, its title and the
    route its click navigates to. *)
Definition welcome_view : list (string * string) :=
  (λ tile, (tile.1.2, handleCategoryClick tile)) <$> welcome_tiles.

(** The categories a menu can select. *)
Definition selectable (ids : list string) (c : Category) : bool :=
  existsb (λ y, y === category_id c) ids.

End Catalog.

(** ** Lemmas *)

Lemma mapM_js_throw {A B} (g : A → js_result B) (l : list A) :
  is_throw (FacilityList.mapM_js g l) = existsb (λ x, is_throw (g x)) l.
Proof.
  induction l as [|x l IH]; [done|]. simpl. destruct (g x); [|done]. simpl.
  rewrite <-IH. by destruct (FacilityList.mapM_js g l).
Qed.

Lemma mapM_js_ok {A B} (g : A → js_result B) (h : A → B) (l : list A) :
  (∀ x, x ∈ l → g x = JsOk (h x)) → FacilityList.mapM_js g l = JsOk (h <$> l).
Proof.
  induction l as [|x l IH]; intros Hg; [done|]. simpl.
  rewrite Hg by set_solver. rewrite IH by (intros; apply Hg; set_solver). done.
Qed.

(** Only a category change changes the selected category. *)
Lemma home_step_category s e :
  selectedCategory (home (home_step s e)) = selectedCategory (home s) ∨
  ∃ c, e = CategoryChange c ∧ selectedCategory (home (home_step s e)) = c.
Proof.
  destruct e; simpl; repeat case_match; simpl; eauto.
Qed.

(** Every id of CategoryFilter is ["all"] or a category's id, and
    highlights exactly one of its buttons. *)
Lemma categoryfilter_ids_typed x :
  x ∈ fst <$> Catalog.categoryfilter_entries →
  (x = "all" ∨ ∃ c, x = category_id c) ∧
  ∃ label, List.filter Catalog.chip_selected (Catalog.categoryfilter_view x) = [Catalog.mkChip x label true].
Proof.
  unfold Catalog.categoryfilter_entries. simpl. set_unfold.
  intros Hx; destruct_or! Hx; subst; (split; [|eexists; reflexivity]); try by left.
  all: right; first [by exists cafe | by exists restaurant | by exists library | by exists atm |
    by exists convenience | by exists medical | by exists gym | by exists lounge | by exists transport].
Qed.

Lemma card_throw sel f :
  is_throw (FacilityList.card sel f) = bool_decide (Facility.category f = transport).
Proof. unfold FacilityList.card. by destruct (Facility.category f). Qed.

(** ** Properties *)

(** C24. A non-empty FacilityList throws exactly when one of its
    facilities is a [transport] facility; otherwise it shows one card per
    facility, in order, titled with its name and highlighted exactly when
    it has the selected facility's id. *)
Theorem FacilityList_spec (l : list Facility.t) (sel : option Facility.t) :
  l ≠ [] →
  is_throw (FacilityList.FacilityList l sel) = existsb (λ f, bool_decide (Facility.category f = transport)) l ∧
  ∀ total cards, FacilityList.FacilityList l sel = JsOk (FacilityList.Cards total cards) →
    FacilityList.card_title <$> cards = Facility.name <$> l ∧
    FacilityList.card_selected <$> cards =
      (λ f, match sel with Some s => (Facility.id s =? Facility.id f)%Z | None => false end) <$> l.
Proof.
  intros Hl. unfold FacilityList.FacilityList.
  destruct (length l =? 0)%nat eqn:E; [by destruct l|]. split.
  - rewrite is_throw_bind_ret, mapM_js_throw. apply existsb_ext. intros f. apply card_throw.
  - intros total cards Hc.
    destruct (existsb (λ f, bool_decide (Facility.category f = transport)) l) eqn:Et.
    + exfalso. assert (Ht : is_throw (FacilityList.mapM_js (FacilityList.card sel) l) = true).
      { rewrite mapM_js_throw, <-Et. apply existsb_ext. intros f. apply card_throw. }
      destruct (FacilityList.mapM_js (FacilityList.card sel) l); simpl in *; discriminate.
    + assert (Hok : ∀ f, f ∈ l → ∃ c, FacilityList.card sel f = JsOk c).
      { intros f Hf. destruct (FacilityList.card sel f) as [c|] eqn:Ec; [by exists c|].
        exfalso. assert (existsb (λ f, bool_decide (Facility.category f = transport)) l = true); [|congruence].
        apply existsb_exists. exists f. split; [by apply list_elem_of_In|].
        rewrite <-(card_throw sel f), Ec. done. }
      rewrite (mapM_js_ok _ (λ f, match FacilityList.card sel f with JsOk c => c | JsThrow _ => FacilityList.mkCard "" "" None "" "" "" "" false end)) in Hc.
      * simpl in Hc. injection Hc as _ <-. rewrite <-!list_fmap_compose. split; apply list_fmap_ext_in;
          intros f Hf; destruct (Hok f Hf) as [c Ec]; unfold compose; rewrite Ec;
          unfold FacilityList.card in Ec; destruct (FacilityList.categoryConfig _); simplify_eq; done.
      * intros f Hf. destruct (Hok f Hf) as [c Ec]. by rewrite Ec.
Qed.

(** Every category can be selected from CategoryFilter, the map's
    menu; FilterBar and MainMenu offer every category but [transport];
    every WelcomePage tile leads to the map. *)
Theorem menus_coverage :
  (∀ c, Catalog.selectable categories c = true) ∧
  (∀ c, Catalog.selectable Catalog.filterbar_ids c = negb (bool_decide (c = transport))) ∧
  (∀ c, Catalog.selectable Catalog.mainmenu_ids c = negb (bool_decide (c = transport))) ∧
  Catalog.handleCategoryClick <$> Catalog.welcome_tiles = ["/map"; "/map"; "/map"; "/map"; "/map"].
Proof. split_and!; try intros []; reflexivity. Qed.

(** A transport facility makes the list throw. *)
Example FacilityList_transport :
  is_throw (FacilityList.FacilityList
              [Facility.mk 9 "통학버스 정류장" transport "정문" "1층" 0%Q 0%Q "" None None None None] None) = true.
Proof. vm_compute. reflexivity. Qed.

Lemma FacilityList_spec_witness :
  [Facility.mk 9 "통학버스 정류장" transport "정문" "1층" 0%Q 0%Q "" None None None None] ≠ [] ∧
  is_throw (FacilityList.FacilityList
              [Facility.mk 9 "통학버스 정류장" transport "정문" "1층" 0%Q 0%Q "" None None None None] None) = true.
Proof.
  assert (H : [Facility.mk 9 "통학버스 정류장" transport "정문" "1층" 0%Q 0%Q "" None None None None] ≠ [])
    by discriminate.
  split; [exact H|]. rewrite (proj1 (FacilityList_spec _ None H)). reflexivity.
Defined.

(** FilterBar has no [transport] button: with [transport] selected it
    highlights nothing. *)
Example filterbar_transport_unhighlighted :
  List.filter (λ ch, Catalog.chip_selected ch.1) (Catalog.fb_chips (Catalog.filterbar_view "transport" "")) = [].
Proof. reflexivity. Qed.
