(* ===== verification/MapLoader.v ===== *)
(** * MapLoader: the map SDK loading protocol of MapView (lines 98-203)

    MapView decides between the Naver map SDK and the mock map through
    three pieces of React state ([mapLoaded], [mapError], [useMockMap]),
    a ref ([naverMapRef]) and two effects:
    - the load effect (lines 135-174), run once on mount: if the SDK is
      already there, [setMapLoaded(true)]; otherwise append the script,
      whose [onload] starts a 100 ms poll ([checkNaver]) and a 5 s timer,
      and whose [onerror] switches to the mock map;
    - the init effect (lines 177-203), run whenever [mapLoaded] or
      [useMockMap] changed: when loaded, not mocked and the SDK is present,
      it creates the map, and switches to the mock map if that throws.

    The model is a state record [LoaderState] and one transition per event
    ([step]); the environment's events are the SDK becoming available
    ([SdkReady]), the script's callbacks, the timers, and the init effect
    (whose argument says whether [new naver.maps.Map] throws).  Events that
    are not enabled leave the state unchanged, as a callback that no
    longer exists would.  [reachable] is the set of states of some run.
*)

From Stdlib Require Import Bool.
From stdpp Require Import base list.
From S2P Require Import Prelude.

Inductive ScriptPhase := NotAppended | Loading | Loaded | Failed.

#[export] Instance ScriptPhase_eq_dec : EqDecision ScriptPhase.
Proof. solve_decision. Defined.

Record LoaderState := mkLoader {
  naverReady : bool;      (** [window.naver && window.naver.maps] *)
  mounted : bool;         (** the load effect has run *)
  script : ScriptPhase;   (** the appended [<script>] *)
  intervalActive : bool;  (** the [checkNaver] interval is running *)
  timeoutPending : bool;  (** the 5 s timer has not fired *)
  mapLoaded : bool;
  mapError : bool;
  useMockMap : bool;
  naverMap : bool;        (** [naverMapRef.current] is set *)
  initDirty : bool        (** [mapLoaded] or [useMockMap] changed since the init effect ran *)
}.

Inductive LoaderEvent :=
| Mount
| SdkReady
| ScriptOnload
| ScriptOnerror
| IntervalTick
| TimeoutFire
| InitEffect (throws : bool).

Definition init_state : LoaderState :=
  mkLoader false false NotAppended false false false false false false true.

(** [setMapLoaded(ml)] and [setUseMockMap(um)] in one update; the init
    effect is due when either value changes. *)
Definition set_flags (s : LoaderState) (ml um : bool) : LoaderState :=
  mkLoader (naverReady s) (mounted s) (script s) (intervalActive s) (timeoutPending s)
    ml (mapError s) um (naverMap s)
    (initDirty s || negb (eqb ml (mapLoaded s)) || negb (eqb um (useMockMap s))).

Definition with_timers (s : LoaderState) (sc : ScriptPhase) (iv tm : bool) : LoaderState :=
  mkLoader (naverReady s) (mounted s) sc iv tm (mapLoaded s) (mapError s)
    (useMockMap s) (naverMap s) (initDirty s).

Definition step (s : LoaderState) (e : LoaderEvent) : LoaderState :=
  match e with
  | Mount =>
      if mounted s then s
      else
        let s1 := mkLoader (naverReady s) true (script s) (intervalActive s) (timeoutPending s)
                    (mapLoaded s) (mapError s) (useMockMap s) (naverMap s) (initDirty s) in
        if naverReady s then set_flags s1 true (useMockMap s1)       (* lines 137-140 *)
        else with_timers s1 Loading false false                      (* lines 142-169 *)
  | SdkReady =>
      mkLoader true (mounted s) (script s) (intervalActive s) (timeoutPending s)
        (mapLoaded s) (mapError s) (useMockMap s) (naverMap s) (initDirty s)
  | ScriptOnload =>                                                  (* lines 147-164 *)
      if decide (script s = Loading) then with_timers s Loaded true true else s
  | ScriptOnerror =>                                                 (* lines 165-168 *)
      if decide (script s = Loading)
      then set_flags (with_timers s Failed (intervalActive s) (timeoutPending s)) true true
      else s
  | IntervalTick =>                                                  (* lines 149-154 *)
      if intervalActive s && naverReady s
      then set_flags (with_timers s (script s) false (timeoutPending s)) true (useMockMap s)
      else s
  | TimeoutFire =>                                                   (* lines 157-163 *)
      if timeoutPending s then
        let s1 := with_timers s (script s) false false in
        if naverReady s then s1 else set_flags s1 true true
      else s
  | InitEffect throws =>                                             (* lines 177-203 *)
      if initDirty s then
        let s1 := mkLoader (naverReady s) (mounted s) (script s) (intervalActive s)
                    (timeoutPending s) (mapLoaded s) (mapError s) (useMockMap s)
                    (naverMap s) false in
        if negb (mapLoaded s) || negb (naverReady s) || useMockMap s then s1
        else if throws then set_flags s1 (mapLoaded s1) true
        else mkLoader (naverReady s1) (mounted s1) (script s1) (intervalActive s1)
               (timeoutPending s1) (mapLoaded s1) (mapError s1) (useMockMap s1) true false
      else s
  end.

(** A run: the events in order. *)
Definition run (s : LoaderState) (es : list LoaderEvent) : LoaderState := fold_left step es s.

Inductive reachable : LoaderState → Prop :=
| reach_init : reachable init_state
| reach_step s e : reachable s → reachable (step s e).

(** What the component renders. *)
Definition shows_loading (s : LoaderState) : bool := negb (mapLoaded s) && negb (mapError s).
Definition shows_error (s : LoaderState) : bool := mapError s.
Definition shows_location_button (s : LoaderState) : bool := mapLoaded s && negb (useMockMap s).

(** ** The invariant *)

(** What holds in every state of every run. *)
Definition loader_inv (s : LoaderState) : Prop :=
  mapError s = false ∧
  (useMockMap s = true → mapLoaded s = true) ∧
  (naverMap s = true →
     useMockMap s = false ∧ naverReady s = true ∧ mapLoaded s = true ∧ initDirty s = false) ∧
  (intervalActive s = true → timeoutPending s = true ∧ mapLoaded s = false) ∧
  (script s = Loading → mapLoaded s = false ∧ intervalActive s = false ∧ timeoutPending s = false) ∧
  (timeoutPending s = true → script s = Loaded) ∧
  (mounted s = false → script s = NotAppended ∧ mapLoaded s = false).

(** Split every test of the transition, then close by propositional reasoning. *)
Ltac loader_cases :=
  intros; destruct_and?; unfold set_flags, with_timers in *; simpl in *;
  repeat (case_match; simpl in *; subst);
  repeat match goal with
  | H : _ && _ = true |- _ => apply andb_prop in H as [? ?]
  | H : _ || _ = false |- _ => apply orb_false_elim in H as [? ?]
  | H : negb _ = true |- _ => apply negb_true_iff in H
  | H : negb _ = false |- _ => apply negb_false_iff in H
  | H : ?b = true |- _ => is_var b; subst b
  | H : ?b = false |- _ => is_var b; subst b
  end;
  rewrite ?eqb_reflx in *; simpl in *;
  intuition (try congruence; try (destruct_or?; congruence)).

Lemma loader_inv_init : loader_inv init_state.
Proof. unfold loader_inv. simpl. intuition congruence. Qed.

Lemma loader_inv_step s e : loader_inv s → loader_inv (step s e).
Proof.
  destruct s as [nr mo sc iv tm ml me um nm dirty].
  unfold loader_inv. destruct e; simpl; loader_cases.
Qed.

Lemma reachable_inv s : reachable s → loader_inv s.
Proof. induction 1; [apply loader_inv_init|by apply loader_inv_step]. Qed.

Lemma reachable_run s es : reachable s → reachable (run s es).
Proof. revert s. induction es as [|e es IH]; intros s Hs; simpl; [done|]. apply IH. by constructor. Qed.

(** Mock mode is absorbing, and no SDK map is created in it. *)
Lemma step_mock_stays s e :
  loader_inv s → useMockMap s = true →
  useMockMap (step s e) = true ∧ naverMap (step s e) = false.
Proof.
  destruct s as [nr mo sc iv tm ml me um nm dirty]. unfold loader_inv.
  intros Hinv Hum. simpl in Hum. subst um.
  destruct nm; [destruct Hinv as (_ & _ & Hnm & _); by destruct (Hnm eq_refl)|].
  destruct e; simpl; loader_cases.
Qed.

(** C9. In every reachable state the error panel is not shown
    ([mapError] is never set), mock mode implies the map counts as
    loaded, and the SDK map and the mock map are never both in use. *)
Theorem loader_safety (s : LoaderState) :
  reachable s →
  shows_error s = false ∧
  (useMockMap s = true → mapLoaded s = true) ∧
  (naverMap s = true → useMockMap s = false).
Proof.
  intros Hs. destruct (reachable_inv s Hs) as (Hme & Hum & Hnm & _).
  unfold shows_error. split_and!; [done|done|]. intros Hn. by destruct (Hnm Hn).
Qed.

Lemma loader_safety_witness :
  reachable (run init_state [Mount; ScriptOnload; ScriptOnerror]) ∧
  shows_error (run init_state [Mount; ScriptOnload; ScriptOnerror]) = false.
Proof.
  assert (H : reachable (run init_state [Mount; ScriptOnload; ScriptOnerror]))
    by (apply reachable_run; constructor).
  split; [exact H|]. apply (proj1 (loader_safety _ H)).
Defined.

(** C10. The choice of the mock map is final: once [useMockMap] holds, it
    holds after any further events, and no SDK map is ever created. *)
Theorem loader_mock_final (s : LoaderState) (es : list LoaderEvent) :
  reachable s → useMockMap s = true →
  useMockMap (run s es) = true ∧ naverMap (run s es) = false.
Proof.
  revert s. induction es as [|e es IH]; intros s Hs Hum; simpl.
  - split; [done|]. destruct (reachable_inv s Hs) as (_ & _ & Hnm & _).
    destruct (naverMap s) eqn:Hn; [|done]. destruct (Hnm eq_refl) as [Hf _]. congruence.
  - apply IH; [by constructor|]. by apply step_mock_stays; [apply reachable_inv|].
Qed.

Lemma loader_mock_final_witness :
  reachable (run init_state [Mount; ScriptOnerror]) ∧
  useMockMap (run init_state [Mount; ScriptOnerror]) = true ∧
  naverMap (run (run init_state [Mount; ScriptOnerror]) [SdkReady; InitEffect false]) = false.
Proof.
  assert (H1 : reachable (run init_state [Mount; ScriptOnerror]))
    by (apply reachable_run; constructor).
  assert (H2 : useMockMap (run init_state [Mount; ScriptOnerror]) = true) by reflexivity.
  split_and!; [exact H1|exact H2|].
  apply (loader_mock_final _ [SdkReady; InitEffect false] H1 H2).
Defined.

(** ** Liveness *)

(** The states where nothing can happen any more and the map is still
    loading. *)
Definition hung (s : LoaderState) : Prop :=
  mounted s = true ∧ script s = Loaded ∧ intervalActive s = false ∧
  timeoutPending s = false ∧ mapLoaded s = false ∧ mapError s = false ∧ useMockMap s = false.

Lemma hung_step s e : hung s → hung (step s e).
Proof.
  destruct s as [nr mo sc iv tm ml me um nm dirty]. unfold hung. simpl.
  intros (-> & -> & -> & -> & -> & -> & ->). destruct e; simpl; loader_cases.
Qed.

Lemma hung_run s es : hung s → hung (run s es).
Proof. revert s. induction es as [|e es IH]; intros s Hs; simpl; [done|]. by apply IH, hung_step. Qed.

(** The SDK becomes available after the last poll but before the 5 s
    timer fires. *)
Definition late_sdk_run : list LoaderEvent := [Mount; ScriptOnload; SdkReady; TimeoutFire].

(** C11. The loading protocol can hang: when the SDK appears between the
    last 100 ms poll and the 5 s timeout, the timeout clears the poll and,
    seeing the SDK, does nothing, so the map stays on its loading screen
    whatever happens next. *)
Theorem loader_can_hang :
  reachable (run init_state late_sdk_run) ∧
  ∀ es, shows_loading (run (run init_state late_sdk_run) es) = true ∧
        naverMap (run (run init_state late_sdk_run) es) = false.
Proof.
  split; [apply reachable_run; constructor|]. intros es.
  assert (Hh : hung (run init_state late_sdk_run)) by (unfold hung; simpl; done).
  pose proof (hung_run _ es Hh) as (_ & _ & _ & _ & Hml & Hme & _).
  unfold shows_loading. rewrite Hml, Hme. split; [done|].
  destruct (reachable_inv (run (run init_state late_sdk_run) es)) as (_ & _ & Hnm & _).
  { apply reachable_run, reachable_run. constructor. }
  destruct (naverMap _) eqn:Hn; [|done]. destruct (Hnm eq_refl) as (_ & _ & Hl & _). congruence.
Qed.

(** C12. Both fallbacks reach the mock map: a failing script, and a
    timeout while the SDK is still absent, leave the component loaded in
    mock mode. *)
Theorem loader_fallback (s : LoaderState) (e : LoaderEvent) :
  reachable s →
  (script s = Loading ∧ e = ScriptOnerror) ∨
  (timeoutPending s = true ∧ naverReady s = false ∧ e = TimeoutFire) →
  mapLoaded (step s e) = true ∧ useMockMap (step s e) = true.
Proof.
  intros _ [[Hsc ->]|(Htm & Hnr & ->)]; simpl.
  - rewrite decide_True by done. done.
  - by rewrite Htm, Hnr.
Qed.

Lemma loader_fallback_witness :
  reachable (run init_state [Mount; ScriptOnload]) ∧
  mapLoaded (step (run init_state [Mount; ScriptOnload]) TimeoutFire) = true.
Proof.
  assert (H : reachable (run init_state [Mount; ScriptOnload])) by (apply reachable_run; constructor).
  split; [exact H|].
  apply (loader_fallback _ TimeoutFire H). right. split_and!; reflexivity.
Defined.

(** The SDK path: when the poll sees the SDK, the map loads and the init
    effect creates the SDK map. *)
Example loader_sdk_path :
  let s := run init_state [Mount; ScriptOnload; SdkReady; IntervalTick; InitEffect false] in
  mapLoaded s = true ∧ useMockMap s = false ∧ naverMap s = true ∧ shows_location_button s = true.
Proof. vm_compute. split_and!; reflexivity. Qed.
