(* ===== verification/MapTab.v ===== *)
(** * MapTab: MapView's SDK loader across visits to the map tab

    HomePage renders MapView only on the map tab
    ([{currentView === 'map' && <MapView .../>}], HomePage.tsx lines
    37-44).  Leaving the tab unmounts MapView and discards its state
    ([mapLoaded], [useMockMap], the refs).  The load effect's cleanup is
    empty (MapView.tsx lines 170-172), so nothing is cancelled.  Coming
    back mounts a fresh MapView whose load effect probes [window.naver]
    again.  [window.naver] is global: it outlives the component.

    [MapTab] pairs HomePage's [Session] with that global and the state of
    the mounted loader ([None] while MapView is not mounted);
    [tab_step] runs HomePage's steps, the loader's events and the SDK's
    arrival, and mounts a fresh loader whenever the map tab is entered.
*)

From Stdlib Require Import Bool String.
From stdpp Require Import base list.
From S2P Require Import Prelude Facility HomePage MapLoader.

#[export] Instance LoaderEvent_eq_dec : EqDecision LoaderEvent.
Proof. solve_decision. Defined.

(** HomePage, the global [window.naver], and the mounted loader. *)
Record MapTab := mkMapTab { tab_session : Session; sdk_global : bool; loader : option LoaderState }.

Inductive TabEvent :=
| TabHome (e : HomeEvent)        (* an event of HomePage *)
| TabLoader (e : LoaderEvent)    (* an event of the mounted MapView's loader *)
| TabSdkReady.                   (* [window.naver.maps] becomes available *)

(** A freshly mounted MapView: the initial state, seeing the global SDK. *)
Definition fresh_loader (sdk : bool) : LoaderState :=
  mkLoader sdk false NotAppended false false false false false false true.

(** MapView after a render of HomePage. *)
Definition mounted_loader (s : Session) (sdk : bool) (prev : option LoaderState) : option LoaderState :=
  match currentView (home s) with
  | ViewMap => match prev with Some l => Some l | None => Some (fresh_loader sdk) end
  | _ => None
  end.

Definition tab_step (t : MapTab) (e : TabEvent) : MapTab :=
  match e with
  | TabHome e =>
      let s' := home_step (tab_session t) e in
      mkMapTab s' (sdk_global t) (mounted_loader s' (sdk_global t) (loader t))
  | TabLoader SdkReady => t     (* the SDK's arrival is [TabSdkReady] *)
  | TabLoader e =>
      match loader t with
      | Some l => mkMapTab (tab_session t) (sdk_global t) (Some (step l e))
      | None => t
      end
  | TabSdkReady => mkMapTab (tab_session t) true (option_map (λ l, step l SdkReady) (loader t))
  end.

Definition tab_run (t : MapTab) (es : list TabEvent) : MapTab := fold_left tab_step es t.

(** The app starts on the map tab with a fresh MapView. *)
Definition tab_init (l : list Facility.t) (u : option User) (loc : string) : MapTab :=
  mkMapTab (mkSession l u home_init [] loc) false (Some (fresh_loader false)).

Inductive tab_reachable : MapTab → Prop :=
| tr_init l u loc : tab_reachable (tab_init l u loc)
| tr_step t e : tab_reachable t → tab_reachable (tab_step t e).

(** ** Lemmas *)

(** A fresh MapView is a state of the loader's runs. *)
Lemma fresh_loader_reachable sdk : reachable (fresh_loader sdk).
Proof.
  destruct sdk; [|constructor].
  change (fresh_loader true) with (step init_state SdkReady). repeat constructor.
Qed.

(** The mounted loader is a state of the loader's runs and sees the
    global SDK. *)
Definition tab_inv (t : MapTab) : Prop :=
  ∀ l, loader t = Some l → reachable l ∧ naverReady l = sdk_global t.

Lemma mounted_loader_inv s sdk prev :
  (∀ l, prev = Some l → reachable l ∧ naverReady l = sdk) →
  ∀ l, mounted_loader s sdk prev = Some l → reachable l ∧ naverReady l = sdk.
Proof.
  intros Hprev l. unfold mounted_loader.
  destruct (currentView (home s)); [|done|done].
  destruct prev as [l0|]; intros [= <-]; [by apply Hprev|].
  split; [apply fresh_loader_reachable|done].
Qed.

(** Only the SDK's arrival changes what the loader sees of it. *)
Lemma step_naverReady l e : e ≠ SdkReady → naverReady (step l e) = naverReady l.
Proof.
  intros He. destruct e; try congruence; simpl; repeat case_match; done.
Qed.

Lemma tab_inv_step t e : tab_inv t → tab_inv (tab_step t e).
Proof.
  unfold tab_inv. intros Hinv. destruct e as [e|e|]; simpl.
  - apply mounted_loader_inv, Hinv.
  - destruct (decide (e = SdkReady)) as [->|Hne]; [done|].
    assert (Htab : tab_step t (TabLoader e) =
                     match loader t with
                     | Some l => mkMapTab (tab_session t) (sdk_global t) (Some (step l e))
                     | None => t
                     end) by (destruct e; first [done | congruence]).
    simpl in Htab. rewrite Htab. destruct (loader t) as [l|] eqn:El; [|by intros ? ?; simplify_eq].
    intros l' [= <-]. destruct (Hinv l eq_refl) as [Hr Hn]. split; [by constructor|].
    by rewrite step_naverReady.
  - intros l' Hl. destruct (loader t) as [l|] eqn:El; [|done]. cbn [option_map] in Hl. injection Hl as <-.
    split; [change (reachable (step l SdkReady)); constructor; by apply Hinv|done].
Qed.

Lemma tab_reachable_inv t : tab_reachable t → tab_inv t.
Proof.
  induction 1 as [l u loc|t e _ IH]; [|by apply tab_inv_step].
  intros l' [= <-]. split; [apply fresh_loader_reachable|done].
Qed.

(** A state of the loader's runs never shows the error panel and never
    uses both maps. *)
Lemma reachable_safe l :
  reachable l → shows_error l = false ∧ ¬ (naverMap l = true ∧ useMockMap l = true).
Proof.
  intros Hr. destruct (reachable_inv l Hr) as (He & _ & Hnm & _). unfold shows_error. split; [done|].
  intros [Hn Hm]. destruct (Hnm Hn) as [Hm' _]. congruence.
Qed.

(** ** Properties *)

(** The loader's safety holds for every MapView the tab mounts: in every
    reachable state of the tab, the mounted loader never shows the error
    panel and never uses the SDK map and the mock map together. *)
Lemma tab_loader_safety (t : MapTab) (l : LoaderState) :
  tab_reachable t → loader t = Some l →
  shows_error l = false ∧ ¬ (naverMap l = true ∧ useMockMap l = true).
Proof.
  intros Ht Hl. apply reachable_safe, (tab_reachable_inv t Ht l Hl).
Qed.

(** C13. The choice of the mock map is not one-way per session, as
    spec section 4.3 requires: a MapView that fell back to the mock map
    is discarded when the user opens another tab, and when the user comes
    back after the SDK has arrived, the new MapView creates the SDK map. *)
Theorem mock_not_final_across_tabs (t : MapTab) (l0 : LoaderState) :
  loader t = Some l0 → useMockMap l0 = true → sdk_global t = true →
  sheet_closed (home (tab_session t)) = true →
  ∃ l, loader (tab_run t [TabHome (SetView ViewFavorites); TabHome (SetView ViewMap);
                          TabLoader Mount; TabLoader (InitEffect false)]) = Some l ∧
       reachable l ∧ useMockMap l = false ∧ naverMap l = true.
Proof.
  destruct t as [[fs u [v sel cat] fl loc] sdk ld]. simpl. intros _ _ -> Hc.
  destruct sel; [discriminate|]. exists (step (step (fresh_loader true) Mount) (InitEffect false)).
  split; [reflexivity|]. split; [|done].
  apply (reach_step _ (InitEffect false)), (reach_step _ Mount), fresh_loader_reachable.
Qed.

(** ** Witnesses *)

(** The script loaded, the 5 s timeout passed without the SDK, the mock
    map was chosen; then the SDK arrived. *)
Definition sample_mock_tab : MapTab :=
  tab_run (tab_init [] None "/map")
    [TabLoader Mount; TabLoader ScriptOnload; TabLoader TimeoutFire; TabSdkReady].

Lemma mock_not_final_across_tabs_witness :
  (∃ l0, loader sample_mock_tab = Some l0 ∧ useMockMap l0 = true) ∧
  ∃ l, loader (tab_run sample_mock_tab [TabHome (SetView ViewFavorites); TabHome (SetView ViewMap);
                                         TabLoader Mount; TabLoader (InitEffect false)]) = Some l ∧
       naverMap l = true.
Proof.
  split; [eexists; split; reflexivity|].
  destruct (mock_not_final_across_tabs sample_mock_tab _ eq_refl eq_refl eq_refl eq_refl)
    as (l & Hl & _ & _ & Hn).
  exists l. split; [exact Hl|exact Hn].
Defined.
