(* ===== verification/MarkerSync.v ===== *)
(** * MarkerSync: the SDK markers that MapView keeps on the Naver map

    MapView's marker effect (MapView.tsx lines 206-263) runs after every
    render in which its dependencies changed.  [groupedFacilities] is a
    fresh array on each render, so in practice it runs after every
    render.  It does nothing unless the SDK map exists and the mock map is
    not in use.  Otherwise it:
    - detaches every marker of [markersRef] ([marker.setMap(null)]) and
      empties the ref;
    - creates one [naver.maps.Marker] per group, attached to the map,
      registers its click listener and pushes it onto [markersRef].

    The SDK is modelled by what it holds ([Sdk]): a counter for object
    identities and the marker objects attached to the map, in the order
    they were attached.  [MarkerState] pairs [markersRef] with it.  The
    drawing of the attached markers is the SDK's business, as is the
    click dispatch to a marker's listener, which is [onClick] of its
    options.
*)

From Stdlib Require Import String ZArith QArith.
From stdpp Require Import base list sets strings.
From S2P Require Import Prelude Facility Grouping MapView HomePage MapLoader.

Local Open Scope campus_scope.

(** A marker object of the SDK: its identity and its options. *)
Record MarkerObj := mkObj { obj_id : nat; obj_marker : Marker }.

(** The next identity, and the markers whose map is the Naver map. *)
Record Sdk := mkSdk { next_id : nat; on_map : list MarkerObj }.

(** [marker.setMap(null)] *)
Definition setMap_null (w : Sdk) (m : MarkerObj) : Sdk :=
  mkSdk (next_id w) (List.filter (λ o, negb (obj_id o =? obj_id m)%nat) (on_map w)).

(** [new naver.maps.Marker({ ..., map: naverMapRef.current })]: a new
    object, attached to the map. *)
Definition new_marker (w : Sdk) (mk : Marker) : Sdk * MarkerObj :=
  let o := mkObj (next_id w) mk in (mkSdk (S (next_id w)) (on_map w ++ [o]), o).

(** One iteration of [groupedFacilities.forEach]: create the marker and
    [markersRef.current.push(marker)]. *)
Definition push_marker (acc : Sdk * list MarkerObj) (mk : Marker) : Sdk * list MarkerObj :=
  let '(w, ref) := acc in
  let '(w', o) := new_marker w mk in (w', ref ++ [o]).

Record MarkerState := mkMarkers { markersRef : list MarkerObj; sdk : Sdk }.

(** [useRef<any[]>([])], before the SDK holds anything. *)
Definition markers_init : MarkerState := mkMarkers [] (mkSdk 0 []).

(** The effect's guard: [naverMapRef.current && window.naver &&
    window.naver.maps && !useMockMap]. *)
Definition marker_effect_runs (l : LoaderState) : bool :=
  naverMap l && naverReady l && negb (useMockMap l).

(** The marker effect, for the loader's state and the render's groups. *)
Definition marker_effect (l : LoaderState) (groups : list GroupedFacility.t) (st : MarkerState) : MarkerState :=
  if marker_effect_runs l then
    let w1 := fold_left setMap_null (markersRef st) (sdk st) in
    let '(w2, ref) := fold_left push_marker (sdk_markers groups) (w1, []) in
    mkMarkers ref w2
  else st.

(** The effect after each render of a mounted MapView. *)
Definition markers_run (renders : list (LoaderState * list GroupedFacility.t)) : MarkerState :=
  fold_left (λ st r, marker_effect r.1 r.2 st) renders markers_init.

(** ** Lemmas *)

(** The markers on the map are those of the ref, with distinct
    identities, all below the counter. *)
Definition markers_inv (st : MarkerState) : Prop :=
  on_map (sdk st) = markersRef st ∧ NoDup (obj_id <$> markersRef st) ∧
  Forall (λ o, obj_id o < next_id (sdk st))%nat (markersRef st).

Lemma fold_setMap_null ms w :
  fold_left setMap_null ms w =
    mkSdk (next_id w) (List.filter (λ o, negb (bool_decide (obj_id o ∈ obj_id <$> ms))) (on_map w)).
Proof.
  induction ms as [|m ms IH] in w |- *; simpl.
  - destruct w as [n os]. simpl. f_equal. symmetry. apply filter_all. intros o _. done.
  - rewrite IH. simpl. f_equal. rewrite filter_filter_andb. apply filter_ext. intros o.
    destruct (Nat.eqb_spec (obj_id o) (obj_id m)) as [->|Hne]; simpl.
    + rewrite bool_decide_eq_true_2 by set_solver. done.
    + destruct (bool_decide (obj_id o ∈ obj_id <$> ms)) eqn:E;
        [rewrite bool_decide_eq_true_2 | rewrite bool_decide_eq_false_2]; try done;
        [apply bool_decide_eq_true in E; set_solver|apply bool_decide_eq_false in E; set_solver].
Qed.

(** Detaching every marker of the ref leaves the map empty. *)
Lemma detach_all st : markers_inv st → fold_left setMap_null (markersRef st) (sdk st) = mkSdk (next_id (sdk st)) [].
Proof.
  intros [Hm _]. rewrite fold_setMap_null, Hm. f_equal. apply filter_all_false.
  intros o Ho. rewrite bool_decide_eq_true_2; [done|]. by apply list_elem_of_fmap_2.
Qed.

(** Creating the markers of [mks] attaches fresh objects, numbered from
    the counter on, and pushes the same objects onto the ref. *)
Lemma fold_push_marker mks w ref :
  ∃ os, fold_left push_marker mks (w, ref) = (mkSdk (next_id w + length mks) (on_map w ++ os), ref ++ os) ∧
        obj_marker <$> os = mks ∧ obj_id <$> os = seq (next_id w) (length mks).
Proof.
  induction mks as [|mk mks IH] in w, ref |- *; simpl.
  - exists []. destruct w. rewrite !app_nil_r, Nat.add_0_r. done.
  - destruct (IH (mkSdk (S (next_id w)) (on_map w ++ [mkObj (next_id w) mk])) (ref ++ [mkObj (next_id w) mk]))
      as (os & Heq & Hm & Hi).
    exists (mkObj (next_id w) mk :: os). simpl in *. rewrite Heq, <-!app_assoc.
    split_and!; [simpl; repeat f_equal; lia|f_equal; exact Hm|f_equal; exact Hi].
Qed.

Lemma marker_effect_inv l gs st : markers_inv st → markers_inv (marker_effect l gs st).
Proof.
  intros Hinv. unfold marker_effect. destruct (marker_effect_runs l); [|done].
  rewrite detach_all by done.
  destruct (fold_push_marker (sdk_markers gs) (mkSdk (next_id (sdk st)) []) []) as (os & -> & _ & Hi).
  unfold markers_inv. cbn [markersRef sdk on_map next_id app]. rewrite Hi. split_and!; [done|apply NoDup_seq|].
  apply Forall_forall. intros o Ho. apply (list_elem_of_fmap_2 obj_id) in Ho. rewrite Hi in Ho.
  apply elem_of_seq in Ho. simpl in *. lia.
Qed.

Lemma markers_init_inv : markers_inv markers_init.
Proof. split_and!; [done|constructor|constructor]. Qed.

Lemma markers_run_inv rs : markers_inv (markers_run rs).
Proof.
  unfold markers_run. generalize markers_init markers_init_inv.
  induction rs as [|r rs IH]; intros st Hst; [done|]. simpl. by apply IH, marker_effect_inv.
Qed.

(** A run of the effect shows exactly the markers of its groups. *)
Lemma marker_effect_shows l gs st :
  markers_inv st → marker_effect_runs l = true →
  obj_marker <$> on_map (sdk (marker_effect l gs st)) = sdk_markers gs.
Proof.
  intros Hinv Hr. unfold marker_effect. rewrite Hr, detach_all by done.
  destruct (fold_push_marker (sdk_markers gs) (mkSdk (next_id (sdk st)) []) []) as (os & -> & Hm & _).
  done.
Qed.

(** The [i]-th SDK marker of a list of groups calls back with the
    [i]-th group. *)
Lemma sdk_markers_lookup gs i mk :
  sdk_markers gs !! i = Some mk → gs !! i = Some (onClick mk).
Proof.
  unfold sdk_markers. rewrite list_lookup_fmap. destruct (gs !! i); simpl; [|done].
  by intros [= <-].
Qed.

(** ** Properties *)

(** C7. The SDK map shows exactly HomePage's groups and a marker click
    opens its own group: whatever renders came before, a run of the
    marker effect for session [s] leaves on the map one marker per group
    of [s], in order, with distinct identities and none left from an
    earlier render; a click on the [i]-th marker of the map, which
    HomePage receives as [MarkerClick i], opens the sheet of the group
    that marker was created for. *)
Theorem markers_match_groups (rs : list (LoaderState * list GroupedFacility.t)) (l : LoaderState) (s : Session) :
  marker_effect_runs l = true →
  obj_marker <$> on_map (sdk (marker_effect l (map_groups s) (markers_run rs))) = sdk_markers (map_groups s) ∧
  NoDup (obj_id <$> on_map (sdk (marker_effect l (map_groups s) (markers_run rs)))) ∧
  ∀ i o, on_map (sdk (marker_effect l (map_groups s) (markers_run rs))) !! i = Some o →
    sheet_closed (home s) = true → currentView (home s) = ViewMap →
    selectedGroupedFacility (home (home_step s (MarkerClick i))) = Some (onClick (obj_marker o)).
Proof.
  intros Hr. pose proof (markers_run_inv rs) as Hinv.
  pose proof (marker_effect_shows l (map_groups s) _ Hinv Hr) as Hshow.
  destruct (marker_effect_inv l (map_groups s) _ Hinv) as (Hm & Hnd & _).
  split_and!; [done|by rewrite Hm|]. intros i o Hi Hc Hv.
  assert (Hg : map_groups s !! i = Some (onClick (obj_marker o))).
  { apply sdk_markers_lookup. rewrite <-Hshow, list_lookup_fmap, Hi. done. }
  exact (proj1 (home_marker_click s i _ Hc Hv Hg)).
Qed.

(** ** Witnesses *)

(** The SDK was already there when MapView mounted, and the map was
    created. *)
Definition sample_ready : LoaderState := step (step (step init_state SdkReady) Mount) (InitEffect false).

(** Two renders: all categories, then libraries only. *)
Definition sample_renders : list (LoaderState * list GroupedFacility.t) :=
  [(sample_ready, map_groups sample_session);
   (sample_ready, map_groups (home_step sample_session (CategoryChange "library")))].

Lemma markers_match_groups_witness :
  marker_effect_runs sample_ready = true ∧
  obj_marker <$> on_map (sdk (marker_effect sample_ready (map_groups sample_session) (markers_run sample_renders))) =
    sdk_markers (map_groups sample_session).
Proof.
  assert (Hr : marker_effect_runs sample_ready = true) by reflexivity.
  split; [exact Hr|]. exact (proj1 (markers_match_groups sample_renders sample_ready sample_session Hr)).
Defined.
