(* ===== verification/MapHeader.v ===== *)
(** * MapHeader: MapView's header with SearchBar and CategoryFilter

    MapView renders, above the map (MapView.tsx lines 313-341):
    - the title "Campus Compass" and a home button whose click calls
      [navigate('/')];
    - [<SearchBar onSearch={handleSearch} />]: an input showing the
      SearchBar's own [query] (SearchBar.tsx lines 9 and 16-30), each edit
      running [handleSearch] ([MapView.search_input]);
    - [<CategoryFilter selectedCategory onCategoryChange />]: one chip per
      category ([Catalog.categoryfilter_view]), whose click calls
      [onCategoryChange(category.id)] (CategoryFilter.tsx line 43).
    A button is modelled by the action its [onClick] performs.
*)

From Stdlib Require Import String ZArith QArith.
From stdpp Require Import base list sets strings.
From S2P Require Import Prelude Facility MapView HomePage Menus.

Local Open Scope campus_scope.
Local Open Scope string_scope.

(** A freshly mounted SearchBar: [useState('')], nothing logged yet. *)
Definition search_init : SearchState := mkSearch "" [].

(** The input (SearchBar.tsx lines 16-30): its value and placeholder. *)
Record SearchBarView := mkSearchBarView { sb_value : string; sb_placeholder : string }.

Definition searchbar_view (st : SearchState) : SearchBarView :=
  mkSearchBarView (query st) "시설명 검색...".

(** The header's buttons. *)
Inductive MapHeaderButton :=
| MapHomeButton          (* the home button, [title="메인 화면으로"] *)
| MapChip (id : string).  (* a chip of CategoryFilter *)

#[export] Instance MapHeaderButton_eq_dec : EqDecision MapHeaderButton.
Proof. solve_decision. Defined.

(** What a click does: a navigation, or HomePage's [onCategoryChange]. *)
Inductive MapHeaderAction :=
| MapNavigate (route : string)
| MapCategoryChange (id : string).

Definition map_header_click (b : MapHeaderButton) : MapHeaderAction :=
  match b with
  | MapHomeButton => MapNavigate "/"
  | MapChip id => MapCategoryChange id
  end.

Record MapHeaderView := mkMapHeaderView {
  mh_title : string;
  mh_search : SearchBarView;
  mh_chips : list Catalog.Chip;
  mh_buttons : list MapHeaderButton   (* in document order *)
}.

(** The header for [selectedCategory] and the SearchBar's state. *)
Definition map_header (selectedCategory : string) (st : SearchState) : MapHeaderView :=
  let chips := Catalog.categoryfilter_view selectedCategory in
  mkMapHeaderView "Campus Compass" (searchbar_view st) chips
    (MapHomeButton :: ((λ c, MapChip (Catalog.chip_id c)) <$> chips)).

(** ** Lemmas *)

(** The chips are those of CategoryFilter's ids, whatever is selected. *)
Lemma map_header_chip_ids sel st id :
  MapChip id ∈ mh_buttons (map_header sel st) ↔ id ∈ Catalog.categoryfilter_entries.*1.
Proof.
  unfold map_header, Catalog.categoryfilter_view. simpl. set_solver.
Qed.
