(* ===== verification/App.v ===== *)
(** * App: HomePage's three tabs with the components they mount

    HomePage renders one child by [currentView] (HomePage.tsx lines
    37-58): MapView on the map tab, FavoritesList on the favourites tab,
    SettingsView on the settings tab.  A child that is not rendered is
    unmounted, and React discards its state:
    - MapView's loader state ([MapTab.loader]) and the [query] of its
      SearchBar ([app_search]);
    - SettingsView's switches ([app_settings]).
    The global [window.naver] survives ([MapTab.sdk_global]).

    [App] gathers HomePage's session and the state of every mounted
    child.  [app_step] runs one event: HomePage's own events, the
    loader's, or a click on a button of the mounted child's screen
    ([MapHeader], [FavoritesScreen], [Settings]).  [render] is HomePage's
    re-render after a change of its session: each child stays mounted,
    mounts fresh or unmounts according to the tab.  The page behind an
    open sheet takes no clicks, because the sheet is modal.  HomePage
    passes [onCategoryChange={setSelectedCategory}] to MapView alone
    (HomePage.tsx line 42), whose CategoryFilter calls it with the id of
    the clicked chip: a category change is [AMapHeader (MapChip id)], and
    [AHome (CategoryChange _)], which no widget emits, changes nothing.
*)

From Stdlib Require Import String ZArith QArith.
From stdpp Require Import base list sets strings.
From S2P Require Import Prelude Facility Favorites DetailSheet FavoritesScreen MapView HomePage Settings MapLoader MapTab Menus MapHeader.

Local Open Scope campus_scope.
Local Open Scope string_scope.

Record App := mkApp {
  app_tab : MapTab;                  (* HomePage's session, [window.naver], MapView's loader *)
  app_search : option SearchState;   (* the mounted SearchBar *)
  app_settings : option Settings     (* the mounted SettingsView *)
}.

Inductive AppEvent :=
| AHome (e : HomeEvent)             (* the bottom navigation, the markers, the sheet *)
| ALoader (e : LoaderEvent)         (* an event of the mounted MapView's loader *)
| ASdkReady                         (* [window.naver.maps] becomes available *)
| AMapHeader (b : MapHeaderButton)  (* a button of MapView's header *)
| ASearchInput (value : string)     (* an edit of the search input *)
| AFavorites (b : FavoritesButton)  (* a button of FavoritesList *)
| ASettings (e : SettingsEvent).    (* a control of SettingsView *)

Definition app_session (a : App) : Session := tab_session (app_tab a).

(** The SearchBar after a render of HomePage. *)
Definition mounted_search (s : Session) (prev : option SearchState) : option SearchState :=
  match currentView (home s) with
  | ViewMap => match prev with Some st => Some st | None => Some search_init end
  | _ => None
  end.

(** HomePage renders with session [s]. *)
Definition render (a : App) (s : Session) : App :=
  let t := app_tab a in
  mkApp (mkMapTab s (sdk_global t) (mounted_loader s (sdk_global t) (loader t)))
    (mounted_search s (app_search a)) (mounted_settings s (app_settings a)).

(** No sheet covers the page. *)
Definition page_clickable (a : App) : bool := sheet_closed (home (app_session a)).

Definition app_step (a : App) (e : AppEvent) : App :=
  let s := app_session a in
  match e with
  | AHome (CategoryChange _) => a    (* [setSelectedCategory] is only reached through CategoryFilter *)
  | AHome e => render a (home_step s e)
  | ALoader e => mkApp (tab_step (app_tab a) (TabLoader e)) (app_search a) (app_settings a)
  | ASdkReady => mkApp (tab_step (app_tab a) TabSdkReady) (app_search a) (app_settings a)
  | AMapHeader b =>
      match app_search a with
      | Some st =>
          if page_clickable a && bool_decide (b ∈ mh_buttons (map_header (selectedCategory (home s)) st))
          then match map_header_click b with
               | MapNavigate r => render a (navigate s r)
               | MapCategoryChange c => render a (home_step s (CategoryChange c))
               end
          else a
      | None => a
      end
  | ASearchInput v =>
      match app_search a with
      | Some st => if page_clickable a then mkApp (app_tab a) (Some (search_input v st)) (app_settings a) else a
      | None => a
      end
  | AFavorites b =>
      if page_clickable a && bool_decide (currentView (home s) = ViewFavorites)
         && bool_decide (b ∈ fv_buttons (favorites_view (currentUser s) (facilities s)))
      then match favorites_click b with
           | FavNavigate r => render a (navigate s r)
           | FavOnFacilityClick f => render a (home_step s (FavoriteClick f))
           end
      else a
  | ASettings e =>
      match app_settings a with
      | Some st =>
          if page_clickable a then
            let (s', st') := settings_step s st e in render (mkApp (app_tab a) (app_search a) (Some st')) s'
          else a
      | None => a
      end
  end.

Definition app_run (a : App) (es : list AppEvent) : App := fold_left app_step es a.

(** HomePage mounts on the map tab with a fresh MapView. *)
Definition app_init (l : list Facility.t) (u : option User) (loc : string) : App :=
  mkApp (tab_init l u loc) (Some search_init) None.

Inductive app_reachable : App → Prop :=
| ar_init l u loc : app_reachable (app_init l u loc)
| ar_step a e : app_reachable a → app_reachable (app_step a e).

(** The home button of the header of each tab. *)
Definition home_button (v : View) : AppEvent :=
  match v with
  | ViewMap => AMapHeader MapHomeButton
  | ViewFavorites => AFavorites FavHome
  | ViewSettings => ASettings HomeButton
  end.

(** ** Lemmas *)

(** Exactly the children of the selected tab are mounted, and the
    mounted loader is a state of its runs that sees the global SDK. *)
Definition app_inv (a : App) : Prop :=
  tab_inv (app_tab a) ∧
  (is_Some (loader (app_tab a)) ↔ currentView (home (app_session a)) = ViewMap) ∧
  (is_Some (app_search a) ↔ currentView (home (app_session a)) = ViewMap) ∧
  (is_Some (app_settings a) ↔ currentView (home (app_session a)) = ViewSettings).

Lemma mounted_search_some s prev : is_Some (mounted_search s prev) ↔ currentView (home s) = ViewMap.
Proof. unfold mounted_search. destruct (currentView (home s)), prev; naive_solver. Qed.

Lemma mounted_loader_some s sdk prev : is_Some (mounted_loader s sdk prev) ↔ currentView (home s) = ViewMap.
Proof. unfold mounted_loader. destruct (currentView (home s)), prev; naive_solver. Qed.

Lemma mounted_settings_some s prev : is_Some (mounted_settings s prev) ↔ currentView (home s) = ViewSettings.
Proof. unfold mounted_settings. destruct (currentView (home s)), prev; naive_solver. Qed.

Lemma render_inv a s : tab_inv (app_tab a) → app_inv (render a s).
Proof.
  intros Ht. split; [unfold tab_inv; simpl; by apply mounted_loader_inv|].
  unfold app_session, render. simpl. by rewrite mounted_loader_some, mounted_search_some, mounted_settings_some.
Qed.

(** The loader's own events change neither the session nor what is
    mounted. *)
Lemma tab_step_loader t e :
  (e = TabSdkReady ∨ ∃ le, e = TabLoader le) →
  tab_session (tab_step t e) = tab_session t ∧ (is_Some (loader (tab_step t e)) ↔ is_Some (loader t)).
Proof.
  destruct t as [s sdk [l|]]; intros [->|[[] ->]]; simpl; split; try done; split; intros; by eauto.
Qed.

Lemma app_inv_step a e : app_inv a → app_inv (app_step a e).
Proof.
  intros Hinv. pose proof Hinv as (Ht & Hl & Hs & Hst).
  destruct e as [[]|e| |b|v|b|e]; cbn [app_step]; try (by apply render_inv); try exact Hinv.
  - destruct (tab_step_loader (app_tab a) (TabLoader e)) as [Hse Hle]; [eauto|].
    split; [by apply tab_inv_step|]. unfold app_session in *. cbn [app_tab app_search app_settings]. by rewrite Hse, Hle.
  - destruct (tab_step_loader (app_tab a) TabSdkReady) as [Hse Hle]; [eauto|].
    split; [by apply tab_inv_step|]. unfold app_session in *. cbn [app_tab app_search app_settings]. by rewrite Hse, Hle.
  - destruct (app_search a); [|done]. case_match; [|done]. case_match; by apply render_inv.
  - destruct (app_search a) as [st|] eqn:E; [|done]. case_match; [|done].
    split_and!; try done. unfold app_session in *. simpl. rewrite <-Hs. split; eauto.
  - case_match; [|done]. case_match; by apply render_inv.
  - destruct (app_settings a); [|done]. case_match; [|done]. case_match. by apply render_inv.
Qed.

Lemma app_reachable_inv a : app_reachable a → app_inv a.
Proof.
  induction 1 as [l u loc|a e _ IH]; [|by apply app_inv_step].
  split; [apply tab_reachable_inv; constructor|]. simpl. split_and!; split; intros; by eauto.
Qed.

(** The screen's buttons always include the header's home button. *)
Lemma home_in_map_header sel st : MapHomeButton ∈ mh_buttons (map_header sel st).
Proof. apply elem_of_cons. by left. Qed.

Lemma home_in_favorites u l : FavHome ∈ fv_buttons (favorites_view u l).
Proof. unfold favorites_view. by destruct (favorites_body u l); apply elem_of_cons; left. Qed.

(** A re-render keeps the session it is given. *)
Lemma render_session a s : app_session (render a s) = s.
Proof. done. Qed.

Lemma home_step_keeps_category s e :
  (∀ c, e ≠ CategoryChange c) → selectedCategory (home (home_step s e)) = selectedCategory (home s).
Proof.
  intros He. destruct (home_step_category s e) as [H|(c & Hc & _)]; [done|]. by destruct (He c).
Qed.

(** The selected category changes only to the id of a chip of the
    map's header. *)
Lemma app_step_category a e :
  selectedCategory (home (app_session (app_step a e))) = selectedCategory (home (app_session a)) ∨
  selectedCategory (home (app_session (app_step a e))) ∈ Catalog.categoryfilter_entries.*1.
Proof.
  destruct e as [e|e| |b|v|b|e]; cbn [app_step].
  - destruct e; try (left; reflexivity); left; rewrite render_session;
      apply home_step_keeps_category; intros ??; discriminate.
  - destruct (tab_step_loader (app_tab a) (TabLoader e)) as [Hse _]; [eauto|]. left. unfold app_session. cbn [app_tab]. by rewrite Hse.
  - destruct (tab_step_loader (app_tab a) TabSdkReady) as [Hse _]; [eauto|]. left. unfold app_session. cbn [app_tab]. by rewrite Hse.
  - destruct (app_search a) as [st|]; [|by left]. destruct (bool_decide _) eqn:Eb; rewrite ?andb_false_r; [|by left].
    destruct (page_clickable a); [|by left]. apply bool_decide_eq_true in Eb.
    destruct b as [|id]; cbn [andb map_header_click]; rewrite render_session; [by left|].
    destruct (home_step_category (app_session a) (CategoryChange id)) as [H|(c & [= <-] & H)]; [by left|].
    right. rewrite H. by apply (map_header_chip_ids (selectedCategory (home (app_session a))) st).
  - destruct (app_search a); [|by left]. case_match; by left.
  - case_match; [|by left]. left.
    destruct b; cbn [favorites_click]; rewrite render_session; [done|done|].
    apply home_step_keeps_category. intros ??; discriminate.
  - destruct (app_settings a) as [st|]; [|by left]. case_match; [|by left].
    destruct e; cbn [settings_step]; try destruct (currentUser (app_session a)); rewrite render_session; try by left.
    all: left; apply home_step_keeps_category; intros ??; discriminate.
Qed.

Lemma app_reachable_category a :
  app_reachable a → selectedCategory (home (app_session a)) ∈ Catalog.categoryfilter_entries.*1.
Proof.
  induction 1 as [l u loc|a e _ IH]; [simpl; set_solver|].
  by destruct (app_step_category a e) as [->|].
Qed.

(** ** Properties *)

(** C14. The children mounted under HomePage are always those of the
    selected tab: MapView (its loader and its SearchBar) exactly on the
    map tab, SettingsView exactly on the settings tab; and the mounted
    MapView never shows the error panel and never uses the SDK map and
    the mock map together. *)
Theorem app_mounts (a : App) :
  app_reachable a →
  (is_Some (loader (app_tab a)) ∧ is_Some (app_search a) ↔ currentView (home (app_session a)) = ViewMap) ∧
  (is_Some (app_settings a) ↔ currentView (home (app_session a)) = ViewSettings) ∧
  ∀ l, loader (app_tab a) = Some l → shows_error l = false ∧ ¬ (naverMap l = true ∧ useMockMap l = true).
Proof.
  intros Hr. destruct (app_reachable_inv a Hr) as (Ht & Hl & Hs & Hst). split_and!; [naive_solver|done|].
  intros l Hl'. apply reachable_safe, (Ht l Hl').
Qed.

(** C28. Every tab's header has a home button that leaves for [/]: with
    no sheet open, the home button of the selected tab (MapView's,
    FavoritesList's or SettingsView's) only changes the location to [/];
    while a sheet is open, no home button does anything. *)
Theorem home_buttons_leave (a : App) :
  app_reachable a →
  (page_clickable a = true →
     app_session (app_step a (home_button (currentView (home (app_session a))))) = navigate (app_session a) "/") ∧
  (page_clickable a = false → ∀ v, app_step a (home_button v) = a).
Proof.
  intros Hr. destruct (app_reachable_inv a Hr) as (_ & _ & Hs & Hst). split.
  - intros Hc. destruct (currentView (home (app_session a))) eqn:Ev; cbn [home_button app_step].
    + destruct (proj2 Hs eq_refl) as [st ->]. rewrite Hc, bool_decide_eq_true_2 by apply home_in_map_header.
      done.
    + rewrite Hc, Ev, !bool_decide_eq_true_2 by (done || apply home_in_favorites). done.
    + destruct (proj2 Hst eq_refl) as [st ->]. by rewrite Hc.
  - intros Hc [] ; cbn [home_button app_step]; rewrite ?Hc; simpl; by repeat case_match.
Qed.

(** C29. A card of the favourites tab opens the page of the facility it
    shows: with no sheet open, a click on a rendered card passes
    HomePage's checks and only navigates to [/facility/<id>] of that
    facility, which is a favourite of App's list. *)
Theorem favorites_card_opens_page (a : App) (f : Facility.t) :
  currentView (home (app_session a)) = ViewFavorites → page_clickable a = true →
  FavCard f ∈ fv_buttons (favorites_view (currentUser (app_session a)) (facilities (app_session a))) →
  app_session (app_step a (AFavorites (FavCard f))) = handleFacilityClick (app_session a) f ∧
  f ∈ facilities (app_session a) ∧ truthy (Facility.isFavorite f) = true.
Proof.
  intros Hv Hc Hb. destruct (favorites_card_button _ _ _ Hb) as (Hu & Hf & Hfav).
  split; [|done]. cbn [app_step]. rewrite Hc, Hv, !bool_decide_eq_true_2 by done. simpl.
  rewrite render_session. simpl. unfold page_clickable in Hc. rewrite Hc, Hv, bool_decide_eq_true_2 by done. simpl.
  destruct (currentUser (app_session a)) as [u|]; [|done].
  destruct (favoriteFacilities (facilities (app_session a))) as [|g gs] eqn:E.
  - assert (Hin : f ∈ favoriteFacilities (facilities (app_session a))) by (by apply elem_filter).
    rewrite E in Hin. set_solver.
  - unfold favorites_body. rewrite E. simpl. rewrite bool_decide_eq_true_2; [done|].
    rewrite <-E. by apply elem_filter.
Qed.

(** C30. The search box changes nothing and forgets its text: typing
    [v] leaves HomePage, the map and its markers as they were (MapView's
    [handleSearch] only logs) and the box shows [v]; after a visit to
    another tab the remounted SearchBar shows an empty box again. *)
Theorem search_text_lost (a : App) (st : SearchState) (v : string) :
  app_search a = Some st → page_clickable a = true →
  app_tab (app_step a (ASearchInput v)) = app_tab a ∧
  option_map (λ st, sb_value (searchbar_view st)) (app_search (app_step a (ASearchInput v))) = Some v ∧
  option_map (λ st, sb_value (searchbar_view st))
    (app_search (app_run (app_step a (ASearchInput v)) [AHome (SetView ViewFavorites); AHome (SetView ViewMap)])) =
    Some "".
Proof.
  intros Hs Hc. cbn [app_step]. rewrite Hs, Hc. split_and!; [done|done|].
  unfold app_run. cbn [fold_left app_step app_tab]. unfold page_clickable, app_session in Hc.
  rewrite (home_step_SetView _ _ Hc), render_session, home_step_SetView by exact Hc. done.
Qed.

(** C23 (type). [selectedCategory], a [string] in the code, only ever
    holds ["all"] or the id of a category, because HomePage's only
    setter of it is CategoryFilter's chip click; and while MapView is
    mounted its CategoryFilter highlights exactly one chip, the one of
    that id. *)
Theorem selectedCategory_typed (a : App) :
  app_reachable a →
  (selectedCategory (home (app_session a)) = "all" ∨ ∃ c, selectedCategory (home (app_session a)) = category_id c) ∧
  ∀ st, app_search a = Some st →
    ∃ label, List.filter Catalog.chip_selected (mh_chips (map_header (selectedCategory (home (app_session a))) st)) =
               [Catalog.mkChip (selectedCategory (home (app_session a))) label true].
Proof.
  intros Hr. destruct (categoryfilter_ids_typed _ (app_reachable_category a Hr)) as [Hid Hchip].
  split; [exact Hid|]. intros st _. exact Hchip.
Qed.

(** ** Witnesses *)

(** Signed in, with facility 2 a favourite, on the favourites tab. *)
Definition sample_fav_app : App :=
  app_run (app_init sample_favs (Some sample_user) "/map") [AHome (SetView ViewFavorites)].

Lemma sample_fav_app_reachable : app_reachable sample_fav_app.
Proof. apply ar_step, ar_init. Qed.

Lemma app_mounts_witness : app_reachable sample_fav_app ∧ ¬ is_Some (app_settings sample_fav_app).
Proof.
  split; [exact sample_fav_app_reachable|]. intros Hs.
  pose proof (proj1 (proj1 (proj2 (app_mounts _ sample_fav_app_reachable))) Hs) as Hv.
  discriminate Hv.
Defined.

Lemma home_buttons_leave_witness :
  page_clickable sample_fav_app = true ∧
  location (app_session (app_step sample_fav_app (AFavorites FavHome))) = "/".
Proof.
  split; [reflexivity|].
  change (AFavorites FavHome) with (home_button (currentView (home (app_session sample_fav_app)))).
  rewrite (proj1 (home_buttons_leave _ sample_fav_app_reachable) eq_refl). reflexivity.
Defined.

Lemma favorites_card_opens_page_witness :
  FavCard (sample_fav 2 (Some true)) ∈
    fv_buttons (favorites_view (currentUser (app_session sample_fav_app)) (facilities (app_session sample_fav_app))) ∧
  location (app_session (app_step sample_fav_app (AFavorites (FavCard (sample_fav 2 (Some true)))))) = "/facility/2".
Proof.
  assert (Hb : FavCard (sample_fav 2 (Some true)) ∈
    fv_buttons (favorites_view (currentUser (app_session sample_fav_app)) (facilities (app_session sample_fav_app))))
    by (apply (bool_decide_eq_true_1 (_ ∈ _)); vm_compute; reflexivity).
  split; [exact Hb|].
  rewrite (proj1 (favorites_card_opens_page sample_fav_app _ eq_refl eq_refl Hb)). reflexivity.
Defined.

Lemma search_text_lost_witness :
  option_map (λ st, sb_value (searchbar_view st))
    (app_search (app_run (app_step (app_init sample_favs (Some sample_user) "/map") (ASearchInput "카페"))
                   [AHome (SetView ViewFavorites); AHome (SetView ViewMap)])) = Some "".
Proof. apply (search_text_lost _ search_init); reflexivity. Defined.


(** The map tab, after a click on the cafe chip. *)
Definition sample_cafe_app : App :=
  app_run (app_init sample_favs (Some sample_user) "/map") [AMapHeader (MapChip "cafe")].

Lemma selectedCategory_typed_witness :
  app_reachable sample_cafe_app ∧ selectedCategory (home (app_session sample_cafe_app)) = "cafe" ∧
  ∃ label, List.filter Catalog.chip_selected (mh_chips (map_header "cafe" search_init)) =
             [Catalog.mkChip "cafe" label true].
Proof.
  assert (Hr : app_reachable sample_cafe_app) by (apply ar_step, ar_init).
  split_and!; [exact Hr|reflexivity|].
  exact (proj2 (selectedCategory_typed _ Hr) search_init eq_refl).
Defined.
