(* ===== verification/LiveMap.v ===== *)
(** * LiveMap: HomePage with the markers its MapView keeps on the SDK map

    [App] models HomePage with its mounted children, and [MarkerSync]
    models MapView's marker effect.  This file runs the two together.
    - A mounted MapView holds [markersRef], and the SDK map it created
      holds the attached markers ([MarkerState]).  Both are lost when
      HomePage unmounts MapView, because the map's [<div>] goes with it,
      and a remounted MapView starts from [markers_init].
    - After each event the marker effect runs with the loader's state and
      the groups HomePage passes down ([map_groups]).  [groupedFacilities]
      is a fresh array on every render, so React re-runs the effect after
      every render of MapView.  An event that renders nothing leaves the
      groups as they were, and re-running the effect on them puts the
      same markers back.
*)

From Stdlib Require Import String ZArith QArith.
From stdpp Require Import base list sets strings.
From S2P Require Import Prelude Facility Grouping MapView HomePage MapLoader MapTab MarkerSync MapHeader App.

Local Open Scope campus_scope.

Record Live := mkLive { live_app : App; live_markers : option MarkerState }.

(** MapView's markers after a render of HomePage with session [s]. *)
Definition mounted_markers (s : Session) (prev : option MarkerState) : option MarkerState :=
  match currentView (home s) with
  | ViewMap => match prev with Some m => Some m | None => Some markers_init end
  | _ => None
  end.

(** One event, then MapView's marker effect if MapView is mounted. *)
Definition live_step (lv : Live) (e : AppEvent) : Live :=
  let a := app_step (live_app lv) e in
  let ms := mounted_markers (app_session a) (live_markers lv) in
  mkLive a (match loader (app_tab a), ms with
            | Some l, Some m => Some (marker_effect l (map_groups (app_session a)) m)
            | _, _ => ms
            end).

Definition live_run (lv : Live) (es : list AppEvent) : Live := fold_left live_step es lv.

(** The first render: the SDK map does not exist yet, so the effect
    returns at once. *)
Definition live_init (l : list Facility.t) (u : option User) (loc : string) : Live :=
  mkLive (app_init l u loc) (Some markers_init).

Inductive live_reachable : Live → Prop :=
| lr_init l u loc : live_reachable (live_init l u loc)
| lr_step lv e : live_reachable lv → live_reachable (live_step lv e).

(** ** Lemmas *)

(** HomePage's invariant; the markers are mounted with MapView and
    satisfy MarkerSync's invariant; and while the SDK map is up they are
    those of the current groups. *)
Definition live_inv (lv : Live) : Prop :=
  app_inv (live_app lv) ∧
  (is_Some (live_markers lv) ↔ currentView (home (app_session (live_app lv))) = ViewMap) ∧
  ∀ m, live_markers lv = Some m →
    markers_inv m ∧
    ∀ l, loader (app_tab (live_app lv)) = Some l → marker_effect_runs l = true →
      obj_marker <$> on_map (sdk m) = sdk_markers (map_groups (app_session (live_app lv))).

Lemma mounted_markers_some s prev : is_Some (mounted_markers s prev) ↔ currentView (home s) = ViewMap.
Proof. unfold mounted_markers. destruct (currentView (home s)), prev; naive_solver. Qed.

Lemma mounted_markers_inv s prev m :
  (∀ m0, prev = Some m0 → markers_inv m0) → mounted_markers s prev = Some m → markers_inv m.
Proof.
  unfold mounted_markers. intros Hp. destruct (currentView (home s)); [|done|done].
  destruct prev; intros [= <-]; [by apply Hp|apply markers_init_inv].
Qed.

Lemma live_inv_step lv e : live_inv lv → live_inv (live_step lv e).
Proof.
  intros (Ha & Hm & Hinv). pose proof (app_inv_step _ e Ha) as Ha'.
  destruct Ha' as (Ht & Hl & Hs & Hst). unfold live_step. cbn [live_app live_markers].
  set (a := app_step (live_app lv) e) in *.
  assert (Hms : ∀ m, mounted_markers (app_session a) (live_markers lv) = Some m → markers_inv m)
    by (intros m; apply mounted_markers_inv; intros m0 Hm0; apply (proj1 (Hinv m0 Hm0))).
  split_and!; [done| |].
  - transitivity (is_Some (mounted_markers (app_session a) (live_markers lv))); [|apply mounted_markers_some].
    cbn [live_markers]. destruct (loader (app_tab a)), (mounted_markers _ _); naive_solver.
  - intros m' Hm'. destruct (loader (app_tab a)) as [l|] eqn:El,
      (mounted_markers (app_session a) (live_markers lv)) as [m|] eqn:Em.
    + injection Hm' as <-. split; [by apply marker_effect_inv, Hms|].
      intros l' Hl' Hr. cbn [live_app] in Hl'. rewrite El in Hl'. injection Hl' as <-.
      apply marker_effect_shows; [by apply Hms|exact Hr].
    + done.
    + injection Hm' as <-. split; [by apply Hms|]. intros l' Hl'. cbn [live_app] in Hl'. by rewrite El in Hl'.
    + done.
Qed.

Lemma live_reachable_inv lv : live_reachable lv → live_inv lv.
Proof.
  induction 1 as [l u loc|lv e _ IH]; [|by apply live_inv_step].
  split_and!; [apply app_reachable_inv, ar_init|simpl; split; eauto|].
  intros m [= <-]. split; [apply markers_init_inv|]. intros l' [= <-]. done.
Qed.

(** ** Properties *)

(** C8. Through every sequence of events, the SDK map shows the
    selected category's buildings: in every reachable state where
    MapView's SDK map is up, the markers on the map are exactly one per
    group HomePage computes for the selected category, in order, with
    distinct identities, none left from an earlier category or visit;
    and with no sheet open, a click on the [i]-th of them opens the sheet
    of the group that marker was created for. *)
Theorem live_markers_match (lv : Live) (l : LoaderState) :
  live_reachable lv → loader (app_tab (live_app lv)) = Some l → marker_effect_runs l = true →
  ∃ m, live_markers lv = Some m ∧
    obj_marker <$> on_map (sdk m) = sdk_markers (map_groups (app_session (live_app lv))) ∧
    NoDup (obj_id <$> on_map (sdk m)) ∧
    ∀ i o, on_map (sdk m) !! i = Some o → page_clickable (live_app lv) = true →
      selectedGroupedFacility (home (app_session (app_step (live_app lv) (AHome (MarkerClick i))))) =
        Some (onClick (obj_marker o)).
Proof.
  intros Hr Hl Hrun. destruct (live_reachable_inv lv Hr) as ((_ & Hlm & _) & Hm & Hinv).
  assert (Hv : currentView (home (app_session (live_app lv))) = ViewMap) by (apply Hlm; by eexists).
  destruct (proj2 Hm Hv) as [m Em]. destruct (Hinv m Em) as ((Hon & Hnd & _) & Hshow).
  specialize (Hshow l Hl Hrun). exists m. split_and!; [done|done|by rewrite Hon|].
  intros i o Hi Hc. cbn [app_step]. rewrite render_session.
  apply (home_marker_click _ i _ Hc Hv). apply sdk_markers_lookup. rewrite <-Hshow, list_lookup_fmap, Hi. done.
Qed.

(** ** Witnesses *)

(** The SDK arrives, MapView mounts and creates its map, then the user
    picks the cafe chip. *)
Definition sample_live : Live :=
  live_run (live_init sample_facilities None "/map")
    [ASdkReady; ALoader Mount; ALoader (InitEffect false); AMapHeader (MapChip "cafe")].

Lemma sample_live_reachable : live_reachable sample_live.
Proof. repeat apply lr_step. apply lr_init. Qed.

Lemma live_markers_match_witness :
  ∃ l, loader (app_tab (live_app sample_live)) = Some l ∧ marker_effect_runs l = true ∧
    ∃ m, live_markers sample_live = Some m ∧
         obj_marker <$> on_map (sdk m) = sdk_markers (map_groups (app_session (live_app sample_live))).
Proof.
  destruct (loader (app_tab (live_app sample_live))) as [l|] eqn:El; [|vm_compute in El; discriminate].
  assert (Hr : marker_effect_runs l = true).
  { pose proof El as E. vm_compute in E. injection E as <-. reflexivity. }
  exists l. split_and!; [done|exact Hr|].
  destruct (live_markers_match sample_live l sample_live_reachable El Hr) as (m & Hm & Hs & _).
  exists m. split; [exact Hm|exact Hs].
Defined.
